(** * BAYC holder ETH total: the optimized snapshot pipeline

    A shallow embedding of the optimized implementation
    (the module whose entry point is [getTotalEthValueOfHolders]):
    the block resolver, the holder-set builder, the balance aggregator,
    the result store and the orchestrator, together with the
    saved-results endpoint and the holder-set builder of the earlier
    variant of the module, followed by the properties proved about them.

    Conventions.
    - JavaScript numbers that hold block heights, UNIX timestamps, page
      sizes and millisecond durations are integers far below 2^53; they
      are modelled as [Z].  [Math.floor (x / 2)] is [x / 2] on [Z],
      [Math.floor (x * 1.25)] is [5 * x / 4] and [Math.floor (x * 0.75)]
      is [3 * x / 4] (both products are exact in binary floating point).
    - [ethers.BigNumber] is an immutable arbitrary-precision integer: [Z].
    - Every call that leaves the process (Etherscan, the subgraph, the
      JSON-RPC node, the Multicall3 contract, the file system) is a field
      of the environment record [Env]; the model is a function of it.
    - Module-level mutable variables are the fields of [World]; functions
      that mutate them take a [World] and return the new one.
    - [console.log] and friends are dropped. *)

From Stdlib Require Import ZArith List String Ascii Lia Bool.
From Stdlib Require Import DecimalString DecimalPos DecimalZ Sorted.
From stdpp Require Import base gmap strings list.

Open Scope Z_scope.

(* ================================================================== *)
(** * Part I: the model *)
(* ================================================================== *)

(** ** Results of calls that may throw *)

Inductive outcome (A : Type) : Type :=
| Returns (a : A)
| Throws (msg : string).
Arguments Returns {A} a.
Arguments Throws {A} msg.

Definition is_returns {A} (o : outcome A) : bool :=
  match o with Returns _ => true | Throws _ => false end.

(** ** JavaScript objects keyed by canonical integers

    [blockNumberCache], [holdersCache] and [holdersCache._timestamps] are
    plain objects whose keys are decimal renderings of block heights or
    timestamps.  Such keys, as long as they are array indices
    (non-negative and below 2^32 - 1, which block heights and UNIX
    timestamps are until the year 2106), are enumerated by [Object.keys]
    and [Object.entries] in ascending numeric order, whatever the
    insertion order; the model keeps the association list sorted.  Keys
    outside that range would be enumerated in insertion order. *)

Fixpoint obj_set {V : Type} (k : Z) (v : V) (o : list (Z * V)) : list (Z * V) :=
  match o with
  | [] => [(k, v)]
  | (k', v') :: o' =>
      if k <? k' then (k, v) :: o
      else if k =? k' then (k, v) :: o'
      else (k', v') :: obj_set k v o'
  end.

Fixpoint obj_get {V : Type} (k : Z) (o : list (Z * V)) : option V :=
  match o with
  | [] => None
  | (k', v') :: o' => if k =? k' then Some v' else obj_get k o'
  end.

Definition obj_keys {V : Type} (o : list (Z * V)) : list Z := map fst o.

(** ** The adaptive GraphQL page size *)

Module BatchSize.

(** [updateOptimalGraphQLBatchSize(success, currentSize)]; the module
    variable [optimalGraphQLBatchSize] is passed in and returned. *)
Definition updateOptimalGraphQLBatchSize
    (success : bool) (currentSize : Z) (optimalGraphQLBatchSize : Z) : Z :=
  if success then
    if currentSize <? optimalGraphQLBatchSize
    then Z.min 10000 (5 * currentSize / 4)
    else optimalGraphQLBatchSize
  else Z.max 500 (3 * currentSize / 4).

Definition getSuggestedGraphQLBatchSize (optimalGraphQLBatchSize : Z) : Z :=
  optimalGraphQLBatchSize.

(** The initial value of the module variable. *)
Definition initialBatchSize : Z := 10000.

(** [FALLBACK_PAGE_SIZE] of [getBAYCHoldersAtBlock]. *)
Definition fallbackPageSize (PAGE_SIZE : Z) : Z :=
  Z.min 1000 (Z.max 500 (PAGE_SIZE / 2)).



End BatchSize.

(** ** Strings, sets and maps as the code uses them *)

(** [String.prototype.toLowerCase] on the ASCII range, which is all an
    address or a token id contains. *)
Definition lower_ascii (c : ascii) : ascii :=
  let n := nat_of_ascii c in
  if ((65 <=? n) && (n <=? 90))%nat then ascii_of_nat (n + 32) else c.

Fixpoint toLowerCase (s : string) : string :=
  match s with
  | EmptyString => EmptyString
  | String c s' => String (lower_ascii c) (toLowerCase s')
  end.

Definition ZERO_ADDRESS : string := "0x0000000000000000000000000000000000000000".

(** A JavaScript [Set] of strings: members in insertion order. *)
Definition set_has (x : string) (s : list string) : bool :=
  existsb (String.eqb x) s.

Definition set_add (x : string) (s : list string) : list string :=
  if set_has x s then s else s ++ [x].

Definition set_delete (x : string) (s : list string) : list string :=
  List.filter (fun y => negb (String.eqb x y)) s.

(** A JavaScript [Map] from strings: entries in insertion order; [set] on
    a present key keeps its place. *)
Fixpoint map_get {V : Type} (k : string) (m : list (string * V)) : option V :=
  match m with
  | [] => None
  | (k', v) :: m' => if String.eqb k k' then Some v else map_get k m'
  end.

Fixpoint map_set {V : Type} (k : string) (v : V) (m : list (string * V))
    : list (string * V) :=
  match m with
  | [] => [(k, v)]
  | (k', v') :: m' =>
      if String.eqb k k' then (k, v) :: m' else (k', v') :: map_set k v m'
  end.

Definition map_delete {V : Type} (k : string) (m : list (string * V))
    : list (string * V) :=
  List.filter (fun e => negb (String.eqb k (fst e))) m.

Definition map_keys {V : Type} (m : list (string * V)) : list string :=
  map fst m.

(** [Array.prototype.sort] with a comparator is stable; insertion sort
    with a non-strict test is too. *)
Fixpoint sort_insert {A : Type} (le : A -> A -> bool) (x : A) (l : list A) : list A :=
  match l with
  | [] => [x]
  | y :: l' => if le x y then x :: l else y :: sort_insert le x l'
  end.

Definition array_sort {A : Type} (le : A -> A -> bool) (l : list A) : list A :=
  fold_right (sort_insert le) [] l.

(** ** Replies of the outside world *)

Inductive block_reply : Type :=
| BlockData (timestamp : Z)      (* provider.getBlock resolved to a block *)
| BlockNull                      (* ... resolved to null *)
| BlockError (msg : string).     (* ... rejected *)

Inductive blockno_reply : Type :=
| NoByTimeThrows (msg : string)          (* axios.get rejected *)
| NoByTimeStatus0 (message : string)     (* data.status !== '1' *)
| NoByTimeOk (blockNumber : Z).          (* parseInt(data.result) *)

(** A row of the subgraph's [tokens] query: [{ id, owner { id } }]. *)
Record Token : Type := { token_id : string; token_owner : string }.

Inductive graph_reply : Type :=
| GraphThrows (msg : string)             (* axios.post rejected *)
| GraphErrors                            (* response.data.errors is set *)
| GraphTokens (tokens : list Token).     (* response.data.data.tokens *)

(** A row of Etherscan's [tokennfttx]; [tx_blockNumber] is
    [parseInt(transfer.blockNumber)]. *)
Record Transfer : Type :=
  { tx_blockNumber : Z; tx_tokenID : string; tx_from : string; tx_to : string }.

Inductive transfers_reply : Type :=
| TransfersThrows (msg : string)         (* axios.get rejected *)
| TransfersStatus0 (message : string)    (* data.status !== '1' *)
| TransfersOk (result : list Transfer).

(** An element of what [aggregate3] returns. *)
Record CallResult : Type := { success : bool; returnData : string }.

Record Env : Type := {
  (* Etherscan [getblocknobytime], by timestamp *)
  etherscan_getblocknobytime : Z -> blockno_reply;
  (* [provider.getBlock(n)] *)
  provider_getBlock : Z -> block_reply;
  (* [provider.getBlockNumber()] *)
  provider_getBlockNumber : outcome Z;
  (* the subgraph, by block, cursor [lastId] and page size *)
  graph_tokens : Z -> string -> Z -> graph_reply;
  (* Etherscan [tokennfttx], by page *)
  etherscan_tokennfttx : Z -> transfers_reply;
  (* [graphContract.aggregate3(calls, { blockTag })], by the addresses
     the calls are for, the block, and the number of earlier attempts *)
  multicall_aggregate3 : list string -> Z -> nat -> outcome (list CallResult);
  (* [provider.getBalance(address, block)] *)
  provider_getBalance : string -> Z -> outcome Z;
  (* whether [new ethers.Contract(...)] succeeds *)
  contract_constructs : bool;
  (* whether writing holders-cache.json succeeds *)
  fs_write_holders_cache : bool;
  (* whether writing results.json succeeds *)
  fs_write_results : bool;
  (* the message of the error [BigNumber.from] throws for a string it
     rejects; ethers composes it from the string and its own version *)
  bignumber_error : string -> string
}.

(** ** Module state *)

Record Metrics : Type := {
  blockResolutionTime : Z;
  holdersResolutionTime : Z;
  balanceResolutionTime : Z;
  totalTime : Z
}.

(** An entry of results.json: the [ResultData] interface, with the total
    as the string it is stored as. *)
Record ResultData : Type := {
  rd_totalEth : string;
  rd_holderCount : Z;
  rd_sampledHolders : Z;
  rd_executionTime : Z;
  rd_block : Z;
  rd_implementation : string;
  rd_timestamp : option string;
  rd_fromCache : option bool;
  rd_totalWei : option string;
  rd_blockNumber : option Z;
  rd_metrics : option Metrics;
  rd_method : option string;
  rd_error : option string
}.

(** results.json on disk: absent, not parseable, or a two-level object. *)
Inductive results_file : Type :=
| FileMissing
| FileCorrupt
| FileJSON (results : gmap string (gmap string ResultData)).

(** [holdersCache]: the block entries and the [_timestamps] index. *)
Record HoldersCache : Type := {
  hc_blocks : list (Z * list string);
  hc_timestamps : option (list (Z * Z))
}.

Record World : Type := {
  blockNumberCache : list (Z * Z);
  holdersCache : HoldersCache;
  optimalGraphQLBatchSize : Z;
  graphContract : bool;                 (* whether the variable is set *)
  resultsFile : results_file
}.

Definition set_blockNumberCache (c : list (Z * Z)) (w : World) : World :=
  {| blockNumberCache := c; holdersCache := holdersCache w;
     optimalGraphQLBatchSize := optimalGraphQLBatchSize w;
     graphContract := graphContract w; resultsFile := resultsFile w |}.

Definition set_holdersCache (c : HoldersCache) (w : World) : World :=
  {| blockNumberCache := blockNumberCache w; holdersCache := c;
     optimalGraphQLBatchSize := optimalGraphQLBatchSize w;
     graphContract := graphContract w; resultsFile := resultsFile w |}.

Definition set_optimalGraphQLBatchSize (n : Z) (w : World) : World :=
  {| blockNumberCache := blockNumberCache w; holdersCache := holdersCache w;
     optimalGraphQLBatchSize := n;
     graphContract := graphContract w; resultsFile := resultsFile w |}.

Definition set_graphContract (b : bool) (w : World) : World :=
  {| blockNumberCache := blockNumberCache w; holdersCache := holdersCache w;
     optimalGraphQLBatchSize := optimalGraphQLBatchSize w;
     graphContract := b; resultsFile := resultsFile w |}.

Definition set_resultsFile (f : results_file) (w : World) : World :=
  {| blockNumberCache := blockNumberCache w; holdersCache := holdersCache w;
     optimalGraphQLBatchSize := optimalGraphQLBatchSize w;
     graphContract := graphContract w; resultsFile := f |}.

(** The state a freshly loaded module starts from when the cache files
    are absent. *)
Definition initialWorld : World :=
  {| blockNumberCache := [];
     holdersCache := {| hc_blocks := []; hc_timestamps := None |};
     optimalGraphQLBatchSize := BatchSize.initialBatchSize;
     graphContract := true;
     resultsFile := FileMissing |}.

(** ** The chain block resolver *)

Module Resolver.

Section Search.
Variable getBlock : Z -> block_reply.
Variable targetTimestamp : Z.

(** The [while (low <= high && iterations < 20)] loop of
    [binarySearchBlock]; [fuel] is [20 - iterations]. *)
Fixpoint searchLoop (fuel : nat) (low high result lastMid : Z)
    (consecutiveErrors : nat) : Z :=
  match fuel with
  | O => result
  | S fuel' =>
    if low <=? high then
      let mid := (low + high) / 2 in
      if mid =? lastMid then result
      else
        match getBlock mid with
        | BlockNull =>
            let consecutiveErrors := S consecutiveErrors in
            if (3 <=? consecutiveErrors)%nat then result
            else searchLoop fuel' low (mid - 1) result mid consecutiveErrors
        | BlockData timestamp =>
            if timestamp <? targetTimestamp
            then searchLoop fuel' (mid + 1) high result mid 0
            else searchLoop fuel' low (mid - 1) mid mid 0
        | BlockError _ =>
            let consecutiveErrors := S consecutiveErrors in
            if (3 <=? consecutiveErrors)%nat then result
            else if mid =? low
                 then searchLoop fuel' (low + 1) high result mid consecutiveErrors
                 else searchLoop fuel' low (mid - 1) result mid consecutiveErrors
        end
    else result
  end.

(** The value [binarySearchBlock] returns. *)
Definition searchResult (low high : Z) : Z :=
  searchLoop 20 low high high 0 0.

(** The plain loop of the earlier variant of [getBlockNumberAtTimestamp]
    ([while (low <= high && iterations < 40)], [if (!block) break]);
    a rejected [getBlock] leaves the loop through the exception. *)
Fixpoint plainLoop (fuel : nat) (low high result : Z) : outcome Z :=
  match fuel with
  | O => Returns result
  | S fuel' =>
    if low <=? high then
      let mid := (low + high) / 2 in
      match getBlock mid with
      | BlockNull => Returns result
      | BlockError msg => Throws msg
      | BlockData timestamp =>
          if timestamp <? targetTimestamp
          then plainLoop fuel' (mid + 1) high result
          else plainLoop fuel' low (mid - 1) mid
      end
    else Returns result
  end.

Definition plainSearch (low high : Z) : outcome Z :=
  plainLoop 40 low high high.
End Search.

(** [FALLBACK_DEMO_DATA.blocks], in [Object.keys] order. *)
Definition FALLBACK_blocks : list (Z * Z) :=
  [ (1546300800, 6988614); (1577836800, 9193266);
    (1609459200, 11565019); (1651363200, 14723000) ].

Definition hasFallbackData (timestamp : Z) : bool :=
  match obj_get timestamp FALLBACK_blocks with
  | Some _ => true
  | None =>
      existsb (fun t => Z.abs (t - timestamp) <? 86400)
              (obj_keys FALLBACK_blocks)
  end.

(** The [for] loop of [getFallbackBlockNumber]: the key nearest to the
    timestamp, the earliest one on ties. *)
Fixpoint closestKey (timestamp : Z) (rest : list Z) (closest minDiff : Z) : Z :=
  match rest with
  | [] => closest
  | t :: rest' =>
      let diff := Z.abs (t - timestamp) in
      if diff <? minDiff
      then closestKey timestamp rest' t diff
      else closestKey timestamp rest' closest minDiff
  end.

Definition getFallbackBlockNumber (timestamp : Z) : Z :=
  match obj_get timestamp FALLBACK_blocks with
  | Some b => b
  | None =>
      match obj_keys FALLBACK_blocks with
      | [] => 0
      | t0 :: rest =>
          let closest := closestKey timestamp rest t0 (Z.abs (t0 - timestamp)) in
          match obj_get closest FALLBACK_blocks with
          | Some b => b
          | None => 0
          end
      end
  end.

(** [nearbyTimestamps.reduce((prev, curr) => ...)] on the cache entries
    whose key is within 600 s; the entry is carried with its key so that
    [blockNumberCache[closestTimestamp]] is at hand. *)
Definition closer (timestampInt : Z) (prev curr : Z * Z) : Z * Z :=
  if Z.abs (fst curr - timestampInt) <? Z.abs (fst prev - timestampInt)
  then curr else prev.

Definition closestNearby (timestampInt : Z) (cache : list (Z * Z))
    : option (Z * Z) :=
  match List.filter (fun e => Z.abs (fst e - timestampInt) <? 600) cache with
  | [] => None
  | e :: es => Some (fold_left (closer timestampInt) es e)
  end.

(** [blockNumberCache[String(timestamp)] = blockNumber; saveBlockNumberCache()].
    A failed write of block-cache.json is only logged. *)
Definition cacheBlock (timestamp blockNumber : Z) (w : World) : World :=
  set_blockNumberCache (obj_set timestamp blockNumber (blockNumberCache w)) w.

Definition binarySearchBlock (E : Env) (low high targetTimestamp : Z) (w : World)
    : Z * World :=
  let result := searchResult (provider_getBlock E) targetTimestamp low high in
  (result, cacheBlock targetTimestamp result w).

(** The inner [try] of [getBlockNumberAtTimestamp]: [Some] when it
    returns from the function, [None] when control falls through to the
    unranged binary search. *)
Definition viaEtherscan (E : Env) (timestampInt : Z) (w : World)
    : option (Z * World) :=
  match etherscan_getblocknobytime E timestampInt with
  | NoByTimeThrows _ => None
  | NoByTimeStatus0 _ => None
  | NoByTimeOk blockNumber =>
      match provider_getBlock E blockNumber with
      | BlockError _ => None
      | BlockData blockTimestamp =>
          if Z.abs (blockTimestamp - timestampInt) <? 120
          then Some (blockNumber, cacheBlock timestampInt blockNumber w)
          else if blockTimestamp <? timestampInt
          then Some (binarySearchBlock E blockNumber (blockNumber + 1000) timestampInt w)
          else Some (binarySearchBlock E (Z.max 0 (blockNumber - 1000)) blockNumber
                       timestampInt w)
      | BlockNull => Some (blockNumber, cacheBlock timestampInt blockNumber w)
      end
  end.

Definition getBlockNumberAtTimestamp (E : Env) (timestamp : Z) (w : World)
    : outcome Z * World :=
  let cached :=
    match obj_get timestamp (blockNumberCache w) with
    | Some c => if c =? 0 then None else Some c
    | None => None
    end in
  match cached with
  | Some cachedBlockNumber => (Returns cachedBlockNumber, w)
  | None =>
    let veryClose :=
      match closestNearby timestamp (blockNumberCache w) with
      | Some (closestTimestamp, block) =>
          if Z.abs (timestamp - closestTimestamp) <? 30 then Some block else None
      | None => None
      end in
    match veryClose with
    | Some block => (Returns block, cacheBlock timestamp block w)
    | None =>
      match viaEtherscan E timestamp w with
      | Some (blockNumber, w') => (Returns blockNumber, w')
      | None =>
        match provider_getBlockNumber E with
        | Returns currentBlock =>
            let (result, w') := binarySearchBlock E 0 currentBlock timestamp w in
            (Returns result, w')
        | Throws error =>
            if hasFallbackData timestamp
            then let blockNumber := getFallbackBlockNumber timestamp in
                 (Returns blockNumber, cacheBlock timestamp blockNumber w)
            else (Throws error, w)
        end
      end
    end
  end.

End Resolver.

(** ** The ownership set builder *)

Module Holders.

(** [FALLBACK_DEMO_DATA.sampleHolders]. *)
Definition FALLBACK_sampleHolders : list string :=
  [ "0x7Be8076f4EA4A4AD08075C2508e481d6C946D12b";
    "0xb88F61E6FbdA83fbfffAbE364112137480398018";
    "0x0315FA3813Ff4999C264641B202d0D2B21df139C";
    "0xA858DDc0445d8131daC4d1DE01f834ffcbA52Ef1";
    "0x1b523DC1cB8B17B0170aa9234cA1CFF3E1Ea36bF" ].

(** *** Transfer-log replay *)

(** The body of [for (const transfer of transfers)] after the block
    test.  [ownershipMap] is a [Map] from owner to the [Set] of its token
    ids. *)
Definition applyTransfer (transfer : Transfer)
    (ownershipMap : list (string * list string)) : list (string * list string) :=
  let tokenId := tx_tokenID transfer in
  let from := toLowerCase (tx_from transfer) in
  let to := toLowerCase (tx_to transfer) in
  let afterRemoval :=
    if negb (String.eqb from ZERO_ADDRESS) then
      match map_get from ownershipMap with
      | Some tokens =>
          let tokens' := set_delete tokenId tokens in
          match tokens' with
          | [] => map_delete from ownershipMap
          | _ :: _ => map_set from tokens' ownershipMap
          end
      | None => ownershipMap
      end
    else ownershipMap in
  match map_get to afterRemoval with
  | Some tokens => map_set to (set_add tokenId tokens) afterRemoval
  | None => map_set to (set_add tokenId []) afterRemoval
  end.

(** The [for] loop over one page; the boolean is [hasMoreData]. *)
Fixpoint processTransfers (blockNumber : Z) (transfers : list Transfer)
    (ownershipMap : list (string * list string))
    : list (string * list string) * bool :=
  match transfers with
  | [] => (ownershipMap, true)
  | transfer :: rest =>
      if blockNumber <? tx_blockNumber transfer then (ownershipMap, false)
      else processTransfers blockNumber rest (applyTransfer transfer ownershipMap)
  end.

(** [while (hasMoreData && page <= 5)]; [remaining] counts the pages
    still allowed. *)
Fixpoint transferPages (E : Env) (blockNumber : Z) (remaining : nat) (page : Z)
    (ownershipMap : list (string * list string))
    : outcome (list (string * list string)) :=
  match remaining with
  | O => Returns ownershipMap
  | S remaining' =>
      match etherscan_tokennfttx E page with
      | TransfersThrows msg => Throws msg
      | TransfersStatus0 _ => Returns ownershipMap
      | TransfersOk [] => Returns ownershipMap
      | TransfersOk transfers =>
          let (ownershipMap', hasMoreData) :=
            processTransfers blockNumber transfers ownershipMap in
          if hasMoreData
          then transferPages E blockNumber remaining' (page + 1) ownershipMap'
          else Returns ownershipMap'
      end
  end.

Definition nonZeroAddress (address : string) : bool :=
  negb (String.eqb address ZERO_ADDRESS).

Definition getHoldersFromTokenTransfers (E : Env) (blockNumber : Z) : list string :=
  match transferPages E blockNumber 5 1 [] with
  | Returns ownershipMap => List.filter nonZeroAddress (map_keys ownershipMap)
  | Throws _ => FALLBACK_sampleHolders
  end.

(** *** The subgraph query *)

(** [tokens.forEach(t => holders.add(t.owner.id.toLowerCase()))]. *)
Definition addOwners (tokens : list Token) (holders : list string) : list string :=
  fold_left (fun hs t => set_add (toLowerCase (token_owner t)) hs) tokens holders.

(** The [while (hasMoreTokens)] loop of the first attempt.  The loop has
    no bound of its own: [None] is "no answer within [fuel] requests". *)
Fixpoint primaryFollowUp (fuel : nat) (E : Env) (blockNumber PAGE_SIZE : Z)
    (lastId : string) (holders : list string) : option (outcome (list string)) :=
  match fuel with
  | O => None
  | S fuel' =>
      match graph_tokens E blockNumber lastId PAGE_SIZE with
      | GraphThrows msg => Some (Throws msg)
      | GraphErrors => Some (Returns holders)
      | GraphTokens moreTokens =>
          match last moreTokens with
          | None => Some (Returns holders)
          | Some lastToken =>
              let holders' := addOwners moreTokens holders in
              if Z.of_nat (length moreTokens) <? PAGE_SIZE
              then Some (Returns holders')
              else primaryFollowUp fuel' E blockNumber PAGE_SIZE
                     (token_id lastToken) holders'
          end
      end
  end.

(** The first attempt, up to and excluding the size update. *)
Definition primaryAttempt (fuel : nat) (E : Env) (blockNumber PAGE_SIZE : Z)
    : option (outcome (list string)) :=
  match graph_tokens E blockNumber "" PAGE_SIZE with
  | GraphThrows msg => Some (Throws msg)
  | GraphErrors => Some (Throws "GraphQL query failed with current batch size")
  | GraphTokens tokens =>
      let holders := addOwners tokens [] in
      if Z.of_nat (length tokens) <? PAGE_SIZE then Some (Returns holders)
      else
        match last tokens with
        | None => Some (Throws "Cannot read properties of undefined")
        | Some lastToken =>
            primaryFollowUp fuel E blockNumber PAGE_SIZE (token_id lastToken) holders
        end
  end.

(** The [while (hasMoreTokens)] loop of the [catch (largeQueryError)]
    branch. *)
Fixpoint fallbackPaging (fuel : nat) (E : Env) (blockNumber FALLBACK_PAGE_SIZE : Z)
    (lastId : string) (holders : list string) : option (outcome (list string)) :=
  match fuel with
  | O => None
  | S fuel' =>
      match graph_tokens E blockNumber lastId FALLBACK_PAGE_SIZE with
      | GraphThrows msg => Some (Throws msg)
      | GraphErrors => Some (Throws "GraphQL query failed with fallback size too")
      | GraphTokens tokens =>
          match last tokens with
          | None => Some (Returns holders)
          | Some lastToken =>
              let holders' := addOwners tokens holders in
              if Z.of_nat (length tokens) <? FALLBACK_PAGE_SIZE
              then Some (Returns holders')
              else fallbackPaging fuel' E blockNumber FALLBACK_PAGE_SIZE
                     (token_id lastToken) holders'
          end
      end
  end.

Definition updateBatchSize (ok : bool) (currentSize : Z) (w : World) : World :=
  set_optimalGraphQLBatchSize
    (BatchSize.updateOptimalGraphQLBatchSize ok currentSize
       (optimalGraphQLBatchSize w)) w.

(** From [const PAGE_SIZE = getSuggestedGraphQLBatchSize()] to
    [Array.from(holders)]. *)
Definition queryGraph (fuel : nat) (E : Env) (blockNumber : Z) (w : World)
    : option (outcome (list string) * World) :=
  let PAGE_SIZE := BatchSize.getSuggestedGraphQLBatchSize (optimalGraphQLBatchSize w) in
  match primaryAttempt fuel E blockNumber PAGE_SIZE with
  | None => None
  | Some (Returns holders) => Some (Returns holders, updateBatchSize true PAGE_SIZE w)
  | Some (Throws _) =>
      let w1 := updateBatchSize false PAGE_SIZE w in
      let FALLBACK_PAGE_SIZE := BatchSize.fallbackPageSize PAGE_SIZE in
      match fallbackPaging fuel E blockNumber FALLBACK_PAGE_SIZE "" [] with
      | None => None
      | Some (Returns holders) =>
          Some (Returns holders, updateBatchSize true FALLBACK_PAGE_SIZE w1)
      | Some (Throws msg) => Some (Throws msg, w1)
      end
  end.

(** *** The holders cache *)

(** A value of [_timestamps] that passes a truthiness test. *)
Definition truthy (o : option Z) : option Z :=
  match o with
  | Some t => if t =? 0 then None else Some t
  | None => None
  end.

(** [if (!holdersCache._timestamps) { ... }]: index the cached blocks by
    their timestamps. *)
Definition ensureTimestampIndex (E : Env) (hc : HoldersCache) : HoldersCache :=
  match hc_timestamps hc with
  | Some _ => hc
  | None =>
      let index :=
        fold_left
          (fun idx cachedBlock =>
             match truthy (obj_get cachedBlock idx) with
             | Some _ => idx
             | None =>
                 match provider_getBlock E cachedBlock with
                 | BlockData timestamp => obj_set cachedBlock timestamp idx
                 | _ => idx
                 end
             end)
          (obj_keys (hc_blocks hc)) [] in
      {| hc_blocks := hc_blocks hc; hc_timestamps := Some index |}
  end.

Definition TIME_RADIUS : Z := 3600.

(** [blocksByTimeDiff[0]] looked up in the cache. *)
Definition lookupByTime (blockTimestamp : Z) (hc : HoldersCache)
    : option (list string) :=
  match hc_timestamps hc with
  | None => None
  | Some timestamps =>
      let blocksByTimeDiff :=
        array_sort (fun a b => snd a <=? snd b)
          (List.filter (fun entry => snd entry <? TIME_RADIUS)
             (map (fun e => (fst e, Z.abs (snd e - blockTimestamp))) timestamps)) in
      match blocksByTimeDiff with
      | [] => None
      | bestMatch :: _ => obj_get (fst bestMatch) (hc_blocks hc)
      end
  end.

(** The "traditional block-number-based lookup". *)
Definition lookupByNumber (blockNumber : Z) (hc : HoldersCache)
    : option (list string) :=
  let cachedBlocks := obj_keys (hc_blocks hc) in
  let blocksAfter :=
    array_sort Z.leb (List.filter (fun b => blockNumber <? b) cachedBlocks) in
  let blocksBefore :=
    array_sort Z.geb (List.filter (fun b => b <? blockNumber) cachedBlocks) in
  let before :=
    match blocksBefore with
    | b0 :: _ =>
        if blockNumber - b0 <? 1000 then obj_get b0 (hc_blocks hc) else None
    | [] => None
    end in
  match before with
  | Some holders => Some holders
  | None =>
      match blocksAfter with
      | a0 :: _ =>
          if a0 - blockNumber <? 100 then obj_get a0 (hc_blocks hc) else None
      | [] => None
      end
  end.

(** [saveHoldersCache()]: keep the 100 highest blocks; the in-memory
    cache is replaced only after the file was written. *)
Definition saveHoldersCache (E : Env) (w : World) : World :=
  if fs_write_holders_cache E then
    let hc := holdersCache w in
    let timestamps := default [] (hc_timestamps hc) in
    let blockNumbers := take 100 (array_sort Z.geb (obj_keys (hc_blocks hc))) in
    let reducedCache :=
      fold_left
        (fun acc block =>
           let blocks' :=
             match obj_get block (hc_blocks hc) with
             | Some holders => obj_set block holders (hc_blocks acc)
             | None => hc_blocks acc
             end in
           let timestamps' :=
             match truthy (obj_get block timestamps) with
             | Some t => option_map (obj_set block t) (hc_timestamps acc)
             | None => hc_timestamps acc
             end in
           {| hc_blocks := blocks'; hc_timestamps := timestamps' |})
        blockNumbers {| hc_blocks := []; hc_timestamps := Some [] |} in
    set_holdersCache reducedCache w
  else w.

(** [holdersCache[blockStr] = holders]. *)
Definition cacheHolders (blockNumber : Z) (holders : list string) (hc : HoldersCache)
    : HoldersCache :=
  {| hc_blocks := obj_set blockNumber holders (hc_blocks hc);
     hc_timestamps := hc_timestamps hc |}.

(** [_timestamps[blockStr] = t], creating [_timestamps] when absent. *)
Definition cacheTimestamp (blockNumber t : Z) (hc : HoldersCache) : HoldersCache :=
  {| hc_blocks := hc_blocks hc;
     hc_timestamps := Some (obj_set blockNumber t (default [] (hc_timestamps hc))) |}.

(** The [try] block of [getBAYCHoldersAtBlock] after the exact-hit test. *)
Definition holdersTryBody (fuel : nat) (E : Env) (blockNumber : Z) (w : World)
    : option (outcome (list string) * World) :=
  match provider_getBlock E blockNumber with
  | BlockError msg => Some (Throws msg, w)
  | BlockNull => Some (Throws "Could not retrieve block", w)
  | BlockData blockTimestamp =>
      let w1 := set_holdersCache (ensureTimestampIndex E (holdersCache w)) w in
      match lookupByTime blockTimestamp (holdersCache w1) with
      | Some holders => Some (Returns holders, w1)
      | None =>
          match lookupByNumber blockNumber (holdersCache w1) with
          | Some holders => Some (Returns holders, w1)
          | None =>
              match queryGraph fuel E blockNumber w1 with
              | None => None
              | Some (Throws msg, w2) => Some (Throws msg, w2)
              | Some (Returns holderArray, w2) =>
                  let hc :=
                    cacheTimestamp blockNumber blockTimestamp
                      (cacheHolders blockNumber holderArray (holdersCache w2)) in
                  Some (Returns holderArray,
                        saveHoldersCache E (set_holdersCache hc w2))
              end
          end
      end
  end.

(** The [catch (error)] block. *)
Definition holdersCatch (E : Env) (blockNumber : Z) (w : World)
    : outcome (list string) * World :=
  let holders := getHoldersFromTokenTransfers E blockNumber in
  let hc := cacheHolders blockNumber holders (holdersCache w) in
  let hc' :=
    match provider_getBlock E blockNumber with
    | BlockData timestamp => cacheTimestamp blockNumber timestamp hc
    | _ => hc
    end in
  (Returns holders, saveHoldersCache E (set_holdersCache hc' w)).

Definition getBAYCHoldersAtBlock (fuel : nat) (E : Env) (blockNumber : Z) (w : World)
    : option (outcome (list string) * World) :=
  match obj_get blockNumber (hc_blocks (holdersCache w)) with
  | Some holders => Some (Returns holders, w)
  | None =>
      match holdersTryBody fuel E blockNumber w with
      | None => None
      | Some (Returns holders, w') => Some (Returns holders, w')
      | Some (Throws _, w') => Some (holdersCatch E blockNumber w')
      end
  end.

End Holders.

(** ** BigNumber conversions *)

Module BigNumber.

Definition hexDigit (c : ascii) : option Z :=
  let n := nat_of_ascii c in
  if ((48 <=? n) && (n <=? 57))%nat then Some (Z.of_nat n - 48)
  else if ((97 <=? n) && (n <=? 102))%nat then Some (Z.of_nat n - 87)
  else if ((65 <=? n) && (n <=? 70))%nat then Some (Z.of_nat n - 55)
  else None.

Fixpoint hexValue (acc : Z) (digits : string) : option Z :=
  match digits with
  | EmptyString => Some acc
  | String c rest =>
      match hexDigit c with
      | Some d => hexValue (16 * acc + d) rest
      | None => None
      end
  end.

(** [0x] followed by at least one hexadecimal digit, in either case. *)
Definition hexNumeral (value : string) : option Z :=
  match value with
  | String "0" (String "x" (String c digits)) => hexValue 0 (String c digits)
  | _ => None
  end.

(** [BigNumber.from(value)] for a string, as ethers 5 reads it: a decimal
    numeral with an optional minus sign ([/^-?[0-9]+$/]), or an optional
    minus sign, [0x] and at least one hexadecimal digit
    ([/^-?0x[0-9a-f]+$/i]).  [None] is the "invalid BigNumber string"
    exception, raised for every other string.  The prefix written in
    upper case, [0X], also passes the second test of ethers, which then
    builds an object that is no number; the model has no value for it and
    treats such a string as rejected. *)
Definition from (value : string) : option Z :=
  match NilZero.int_of_string value with
  | Some d => Some (Z.of_int d)
  | None =>
      match value with
      | String "-" rest => option_map Z.opp (hexNumeral rest)
      | _ => hexNumeral value
      end
  end.

(** [BigNumber.prototype.toString()]: the decimal numeral. *)
Definition toString (n : Z) : string :=
  NilZero.string_of_int (Z.to_int n).

(** Removes the trailing zeros of a digit string. *)
Fixpoint stripTrailingZeros (digits : string) : string :=
  match digits with
  | EmptyString => EmptyString
  | String c rest =>
      match stripTrailingZeros rest with
      | EmptyString => if Ascii.eqb c "0" then EmptyString else String c EmptyString
      | kept => String c kept
      end
  end.

Fixpoint zeros (n : nat) : string :=
  match n with
  | O => EmptyString
  | S n' => String "0" (zeros n')
  end.

(** [ethers.utils.formatEther]: whole part, a dot, and the 18-digit
    fraction without its trailing zeros (at least one digit). *)
Definition formatEther (wei : Z) : string :=
  let negative := wei <? 0 in
  let value := Z.abs wei in
  let fraction := toString (value mod 10 ^ 18) in
  let padded := (zeros (18 - String.length fraction) ++ fraction)%string in
  let fraction' :=
    match stripTrailingZeros padded with
    | EmptyString => "0"%string
    | kept => kept
    end in
  let whole := toString (value / 10 ^ 18) in
  ((if negative then "-" else "") ++ whole ++ "." ++ fraction')%string.

End BigNumber.

(** ** The balance aggregator *)

Module Balances.

(** [array[i] = v] on a JavaScript array.  Past the end the array grows;
    the holes this can leave are filled with [hole] (for the balances
    array, [0]: [reduce] skips holes). *)
Definition array_set {A : Type} (hole : A) (i : nat) (v : A) (l : list A) : list A :=
  if (i <? length l)%nat then <[i := v]> l
  else l ++ replicate (i - length l) hole ++ [v].

(** [for (let i = 0; i < l.length; i += size) out.push(l.slice(i, i + size))];
    [fuel] bounds the number of slices and is taken as [length l]. *)
Fixpoint slices {A : Type} (fuel : nat) (size : nat) (l : list A) : list (list A) :=
  match fuel with
  | O => []
  | S fuel' =>
      match l with
      | [] => []
      | _ :: _ => take size l :: slices fuel' size (drop size l)
      end
  end.

Definition chunked {A : Type} (size : nat) (l : list A) : list (list A) :=
  slices (length l) size l.

(** *** Individual queries *)

(** One address of a batch: the inner [try]/[catch]. *)
Definition balanceOrZero (E : Env) (blockNumber : Z) (address : string) : Z :=
  match provider_getBalance E address blockNumber with
  | Returns balance => balance
  | Throws _ => 0
  end.

(** [batchResults.forEach(result => balances[result.index] = result.balance)]
    for the batch that starts at [startIndex]. *)
Fixpoint storeBatch (E : Env) (blockNumber : Z) (index : nat)
    (addresses : list string) (balances : list Z) : list Z :=
  match addresses with
  | [] => balances
  | address :: rest =>
      storeBatch E blockNumber (S index) rest
        (array_set 0 index (balanceOrZero E blockNumber address) balances)
  end.

(** The batches [{ addresses, startIndex }] of 50. *)
Fixpoint makeBatches (fuel : nat) (startIndex : nat) (addresses : list string)
    : list (nat * list string) :=
  match fuel with
  | O => []
  | S fuel' =>
      match addresses with
      | [] => []
      | _ :: _ =>
          (startIndex, take 50 addresses)
            :: makeBatches fuel' (startIndex + 50) (drop 50 addresses)
      end
  end.

Definition getFallbackBalances (E : Env) (addresses : list string) (blockNumber : Z)
    : list Z :=
  let balances := replicate (length addresses) 0 in
  let batches := makeBatches (length addresses) 0 addresses in
  fold_left
    (fun balances currentBatches =>
       fold_left
         (fun balances batch =>
            storeBatch E blockNumber (fst batch) (snd batch) balances)
         currentBatches balances)
    (chunked 4 batches) balances.

(** *** The aggregate call *)

(** [while (retries <= maxRetries)] with [maxRetries = 3]: the call is
    made with [retries] earlier failures; [remaining] is
    [maxRetries - retries]. *)
Fixpoint aggregate3WithRetry (E : Env) (calls : list string) (blockNumber : Z)
    (remaining retries : nat) : outcome (list CallResult) :=
  match multicall_aggregate3 E calls blockNumber retries with
  | Returns chunkResults => Returns chunkResults
  | Throws error =>
      match remaining with
      | O => Throws error
      | S remaining' => aggregate3WithRetry E calls blockNumber remaining' (S retries)
      end
  end.

(** What one element of a chunk result is worth; [None] leaves the
    slot as it is. *)
Definition decodeResult (result : CallResult) : option Z :=
  if success result && (66 <=? String.length (returnData result))%nat
  then BigNumber.from (returnData result)
  else None.

(** [for (let j = 0; j < chunkResults.length; j++)], with
    [position = chunkOffset + j]. *)
Fixpoint storeChunkResults (chunkResults : list CallResult) (position : nat)
    (balances : list Z) : list Z :=
  match chunkResults with
  | [] => balances
  | result :: rest =>
      storeChunkResults rest (S position)
        (match decodeResult result with
         | Some balance => array_set 0 position balance balances
         | None => balances
         end)
  end.

Definition chunkSize : nat := 5000.
Definition concurrencyLimit : nat := 3.

(** The async function mapped over a batch, for the chunk of index
    [chunkIndex = i + batchIndex]. *)
Definition processChunk (E : Env) (blockNumber : Z) (chunkIndex : nat)
    (chunk : list string) (balances : list Z) : outcome unit * list Z :=
  match aggregate3WithRetry E chunk blockNumber 3 0 with
  | Throws error => (Throws error, balances)
  | Returns chunkResults =>
      (Returns tt, storeChunkResults chunkResults (chunkIndex * chunkSize) balances)
  end.

(** [await Promise.all(batchPromises)]: every chunk of the batch runs; the
    batch fails when one of them does. *)
Fixpoint processBatch (E : Env) (blockNumber : Z) (chunkIndex : nat)
    (batch : list (list string)) (balances : list Z) : outcome unit * list Z :=
  match batch with
  | [] => (Returns tt, balances)
  | chunk :: rest =>
      let (first, balances1) := processChunk E blockNumber chunkIndex chunk balances in
      let (others, balances2) := processBatch E blockNumber (S chunkIndex) rest balances1 in
      (match first with
       | Throws error => Throws error
       | Returns _ => others
       end, balances2)
  end.

(** [for (let i = 0; i < chunks.length; i += concurrencyLimit)]. *)
Fixpoint processBatches (E : Env) (blockNumber : Z) (i : nat)
    (batches : list (list (list string))) (balances : list Z) : outcome (list Z) :=
  match batches with
  | [] => Returns balances
  | batch :: rest =>
      match processBatch E blockNumber i batch balances with
      | (Throws error, _) => Throws error
      | (Returns _, balances') =>
          processBatches E blockNumber (i + concurrencyLimit) rest balances'
      end
  end.

(** [initGraph()] as called when [graphContract] is unset. *)
Definition initGraph (E : Env) (w : World) : outcome World :=
  if graphContract w then Returns w
  else if contract_constructs E then Returns (set_graphContract true w)
  else Throws "Failed to initialize graph contract".

Definition getEthBalancesgraph (E : Env) (addresses : list string) (blockNumber : Z)
    (w : World) : outcome (list Z) * World :=
  match initGraph E w with
  | Throws error => (Throws error, w)
  | Returns w' =>
      let balances := replicate (length addresses) 0 in
      let chunks := chunked chunkSize addresses in
      match processBatches E blockNumber 0 (chunked concurrencyLimit chunks) balances with
      | Returns balances' => (Returns balances', w')
      | Throws _ => (Returns (getFallbackBalances E addresses blockNumber), w')
      end
  end.

End Balances.

(** ** The result store and the orchestrator *)

(** The value [getTotalEthValueOfHolders] resolves to.  The last three
    fields are own properties that only a result served from the store
    has: the spread [...cachedResult] brings them along. *)
Record DetailedHolderResult : Type := {
  r_blockNumber : Z;
  r_holderCount : Z;
  r_totalWei : Z;
  r_totalEth : string;
  r_executionTime : Z;
  r_metrics : Metrics;
  r_method : string;
  r_implementation : string;
  r_error : option string;
  r_fromCache : option bool;
  r_timestamp : option string;
  r_block : option Z;
  r_sampledHolders : option Z
}.

(** The readings of [Date.now()] at the call sites of the orchestrator,
    and of [new Date().toISOString()] in [saveResultsToFile]. *)
Record Clock : Type := {
  now_start : Z;
  now_blockStart : Z;
  now_blockEnd : Z;
  now_holdersStart : Z;
  now_holdersEnd : Z;
  now_balancesStart : Z;
  now_balancesEnd : Z;
  now_summed : Z;
  now_caught : Z;
  now_iso : string
}.

Module Store.

(** [s || fallback] on strings. *)
Definition orString (s fallback : string) : string :=
  match s with
  | EmptyString => fallback
  | _ => s
  end.

(** [Number.prototype.toString()] on an integer. *)
Definition numberToString (n : Z) : string :=
  NilZero.string_of_int (Z.to_int n).

Definition getPreviousResults (w : World) : gmap string (gmap string ResultData) :=
  match resultsFile w with
  | FileJSON results => results
  | FileMissing | FileCorrupt => ∅
  end.

(** The object literal [resultToSave]. *)
Definition resultToSave (C : Clock) (implementationId : string)
    (result : DetailedHolderResult) : ResultData :=
  {| rd_totalEth := orString (r_totalEth result) "0";
     rd_holderCount := r_holderCount result;
     rd_sampledHolders := r_holderCount result;
     rd_executionTime := r_executionTime result;
     rd_block := r_blockNumber result;
     rd_implementation := orString (r_implementation result) implementationId;
     rd_timestamp := Some (now_iso C);
     rd_fromCache := r_fromCache result;
     rd_totalWei := Some (BigNumber.toString (r_totalWei result));
     rd_blockNumber := Some (r_blockNumber result);
     rd_metrics := Some (r_metrics result);
     rd_method := Some (r_method result);
     rd_error := r_error result |}.

(** [saveResultsToFile]: every failure is caught and logged. *)
Definition saveResultsToFile (E : Env) (C : Clock) (implementationId timestamp : string)
    (result : DetailedHolderResult) (w : World) : World :=
  match resultsFile w with
  | FileCorrupt => w
  | file =>
      let results : gmap string (gmap string ResultData) :=
        match file with
        | FileJSON results => results
        | _ => ∅
        end in
      let forImplementation := default ∅ (results !! implementationId) in
      let results' :=
        <[implementationId :=
            <[timestamp := resultToSave C implementationId result]> forImplementation]>
          results in
      if fs_write_results E then set_resultsFile (FileJSON results') w else w
  end.

(** [previousResults?.['optimizedSolution']?.[timestamp.toString()]]. *)
Definition cachedResultFor (timestamp : Z) (w : World) : option ResultData :=
  match getPreviousResults w !! "optimizedSolution"%string with
  | Some forImplementation => forImplementation !! numberToString timestamp
  | None => None
  end.

End Store.

Module Orchestrator.

Definition initialMetrics : Metrics :=
  {| blockResolutionTime := 0; holdersResolutionTime := 0;
     balanceResolutionTime := 0; totalTime := 0 |}.

Definition withBlockTime (t : Z) (m : Metrics) : Metrics :=
  {| blockResolutionTime := t;
     holdersResolutionTime := holdersResolutionTime m;
     balanceResolutionTime := balanceResolutionTime m;
     totalTime := totalTime m |}.

Definition withHoldersTime (t : Z) (m : Metrics) : Metrics :=
  {| blockResolutionTime := blockResolutionTime m;
     holdersResolutionTime := t;
     balanceResolutionTime := balanceResolutionTime m;
     totalTime := totalTime m |}.

Definition withBalanceTime (t : Z) (m : Metrics) : Metrics :=
  {| blockResolutionTime := blockResolutionTime m;
     holdersResolutionTime := holdersResolutionTime m;
     balanceResolutionTime := t;
     totalTime := totalTime m |}.

Definition withTotalTime (t : Z) (m : Metrics) : Metrics :=
  {| blockResolutionTime := blockResolutionTime m;
     holdersResolutionTime := holdersResolutionTime m;
     balanceResolutionTime := balanceResolutionTime m;
     totalTime := t |}.

(** The object the outer [catch] returns. *)
Definition errorResult (C : Clock) (message : string) (metrics : Metrics)
    : DetailedHolderResult :=
  let metrics' := withTotalTime (now_caught C - now_start C) metrics in
  {| r_blockNumber := 0;
     r_holderCount := 0;
     r_totalWei := 0;
     r_totalEth := "0";
     r_executionTime := totalTime metrics';
     r_metrics := metrics';
     r_method := "Error in pipeline execution";
     r_implementation := "optimizedSolution";
     r_error := Some message;
     r_fromCache := None;
     r_timestamp := None; r_block := None; r_sampledHolders := None |}.

(** The object built in "Create detailed result". *)
Definition successResult (blockNumber : Z) (holders : list string) (totalWei : Z)
    (metrics : Metrics) : DetailedHolderResult :=
  {| r_blockNumber := blockNumber;
     r_holderCount := Z.of_nat (length holders);
     r_totalWei := totalWei;
     r_totalEth := BigNumber.formatEther totalWei;
     r_executionTime := totalTime metrics;
     r_metrics := metrics;
     r_method := "Optimized pipeline with enhanced caching";
     r_implementation := "optimizedSolution";
     r_error := None;
     r_fromCache := None;
     r_timestamp := None; r_block := None; r_sampledHolders := None |}.

(** [cachedResult.blockNumber || cachedResult.block || 0]. *)
Definition cachedBlockNumber (cached : ResultData) : Z :=
  match rd_blockNumber cached with
  | Some n => if n =? 0 then rd_block cached else n
  | None => rd_block cached
  end.

(** The object returned when a stored entry exists, given the decoded
    total. *)
Definition servedResult (cached : ResultData) (totalWei : Z) : DetailedHolderResult :=
  {| r_blockNumber := cachedBlockNumber cached;
     r_holderCount := rd_holderCount cached;
     r_totalWei := totalWei;
     r_totalEth := Store.orString (rd_totalEth cached) "0";
     r_executionTime := rd_executionTime cached;
     r_metrics := default initialMetrics (rd_metrics cached);
     r_method := Store.orString (default "" (rd_method cached)) "Cached result";
     r_implementation := Store.orString (rd_implementation cached) "optimizedSolution";
     r_error := rd_error cached;
     r_fromCache := Some true;
     r_timestamp := rd_timestamp cached;
     r_block := Some (rd_block cached);
     r_sampledHolders := Some (rd_sampledHolders cached) |}.

(** [balances.reduce((sum, balance) => sum.add(balance), BigNumber.from(0))]. *)
Definition sumBalances (balances : list Z) : Z :=
  fold_left (fun sum balance => sum + balance) balances 0.

(** Steps 1 to 4 and the save, entered when the store has no entry.
    [None]: the subgraph paging gave no answer within [fuel] requests. *)
Definition computeFresh (fuel : nat) (E : Env) (C : Clock) (timestamp : Z) (w : World)
    : option (DetailedHolderResult * World) :=
  match Resolver.getBlockNumberAtTimestamp E timestamp w with
  | (Throws message, w1) =>
      Some (errorResult C ("Block resolution failed: " ++ message) initialMetrics, w1)
  | (Returns blockNumber, w1) =>
      let metrics1 :=
        withBlockTime (now_blockEnd C - now_blockStart C) initialMetrics in
      match Holders.getBAYCHoldersAtBlock fuel E blockNumber w1 with
      | None => None
      | Some (Throws message, w2) =>
          Some (errorResult C ("Holders retrieval failed: " ++ message) metrics1, w2)
      | Some (Returns holders, w2) =>
          let metrics2 :=
            withHoldersTime (now_holdersEnd C - now_holdersStart C) metrics1 in
          match holders with
          | [] =>
              Some (errorResult C
                      "No holders found - cannot proceed with balance retrieval"
                      metrics2, w2)
          | _ :: _ =>
              match Balances.getEthBalancesgraph E holders blockNumber w2 with
              | (Throws message, w3) =>
                  Some (errorResult C ("Balance retrieval failed: " ++ message)
                          metrics2, w3)
              | (Returns balances, w3) =>
                  let metrics3 :=
                    withBalanceTime (now_balancesEnd C - now_balancesStart C)
                      metrics2 in
                  let totalWei := sumBalances balances in
                  let metrics4 :=
                    withTotalTime (now_summed C - now_start C) metrics3 in
                  let result := successResult blockNumber holders totalWei metrics4 in
                  Some (result,
                        Store.saveResultsToFile E C "optimizedSolution"
                          (Store.numberToString timestamp) result w3)
              end
          end
      end
  end.

Definition getTotalEthValueOfHolders (fuel : nat) (E : Env) (C : Clock)
    (timestamp : Z) (w : World) : option (DetailedHolderResult * World) :=
  match Store.cachedResultFor timestamp w with
  | Some cachedResult =>
      match BigNumber.from (Store.orString (default "" (rd_totalWei cachedResult)) "0") with
      | Some totalWei => Some (servedResult cachedResult totalWei, w)
      | None =>
          Some (errorResult C
                  (bignumber_error E
                     (Store.orString (default "" (rd_totalWei cachedResult)) "0"))
                  initialMetrics, w)
      end
  | None => computeFresh fuel E C timestamp w
  end.

(** What the POST handler sends. *)
Inductive response : Type :=
| MethodNotAllowed                                (* 405 *)
| TimestampRequired                               (* 400 *)
| CachedPayload (body : ResultData)               (* 200, [{...cachedResult, fromCache: true}] *)
| ResultPayload (body : DetailedHolderResult).    (* 200 *)

Definition markFromCache (cached : ResultData) : ResultData :=
  {| rd_totalEth := rd_totalEth cached;
     rd_holderCount := rd_holderCount cached;
     rd_sampledHolders := rd_sampledHolders cached;
     rd_executionTime := rd_executionTime cached;
     rd_block := rd_block cached;
     rd_implementation := rd_implementation cached;
     rd_timestamp := rd_timestamp cached;
     rd_fromCache := Some true;
     rd_totalWei := rd_totalWei cached;
     rd_blockNumber := rd_blockNumber cached;
     rd_metrics := rd_metrics cached;
     rd_method := rd_method cached;
     rd_error := rd_error cached |}.

(** [handler(req, res)], by the request method, [body.timestamp] and
    [body.useCache]. *)
Definition handler (fuel : nat) (E : Env) (C : Clock) (httpMethod : string)
    (timestamp : option Z) (useCache : option bool) (w : World)
    : option (response * World) :=
  if negb (String.eqb httpMethod "POST") then Some (MethodNotAllowed, w)
  else
    match timestamp with
    | None => Some (TimestampRequired, w)
    | Some timestamp =>
        if timestamp =? 0 then Some (TimestampRequired, w)
        else
          let cached :=
            match useCache with
            | Some false => None
            | _ => Store.cachedResultFor timestamp w
            end in
          match cached with
          | Some cachedResult => Some (CachedPayload (markFromCache cachedResult), w)
          | None =>
              match getTotalEthValueOfHolders fuel E C timestamp w with
              | None => None
              | Some (result, w') => Some (ResultPayload result, w')
              end
          end
    end.

(** What runs when the module is loaded: [graphContract = initGraph()],
    then the two cache files are read (their parsed contents are the
    arguments).  When [initGraph] throws, the module does not load. *)
Definition loadModule (E : Env) (blockCache : list (Z * Z)) (holders : HoldersCache)
    (results : results_file) : outcome World :=
  Balances.initGraph E
    {| blockNumberCache := blockCache;
       holdersCache := holders;
       optimalGraphQLBatchSize := BatchSize.initialBatchSize;
       graphContract := false;
       resultsFile := results |}.

End Orchestrator.

(** ** The saved-results endpoint *)

Module SavedResults.

(** What the GET handler sends. *)
Inductive response : Type :=
| MethodNotAllowed                                           (* 405 *)
| Saved (results : gmap string (gmap string ResultData))     (* 200 *)
| ReadError.                                                 (* 500 *)

(** [handler(req, res)]: the parsed content of results.json, an empty
    object when the file does not exist, an error when reading or parsing
    it throws. *)
Definition handler (httpMethod : string) (w : World) : response :=
  if negb (String.eqb httpMethod "GET") then MethodNotAllowed
  else
    match resultsFile w with
    | FileJSON results => Saved results
    | FileMissing => Saved ∅
    | FileCorrupt => ReadError
    end.

End SavedResults.

(** ** The ownership set builder of the earlier variant

    The earlier variant of the module keeps [holdersCache] as a plain
    object from block to holder array, queries the subgraph with a fixed
    page size and has no retry at a smaller size.  Its
    [getHoldersFromTokenTransfers] is the function modelled above. *)

Module Earlier.

(** [saveHoldersCache()]: keep the 100 highest blocks. *)
Definition saveHoldersCache (E : Env) (w : World) : World :=
  if fs_write_holders_cache E then
    let hc := holdersCache w in
    let blockNumbers := take 100 (array_sort Z.geb (obj_keys (hc_blocks hc))) in
    let reducedCache :=
      fold_left
        (fun acc block =>
           match obj_get block (hc_blocks hc) with
           | Some holders => obj_set block holders acc
           | None => acc
           end)
        blockNumbers [] in
    set_holdersCache {| hc_blocks := reducedCache; hc_timestamps := None |} w
  else w.

Definition PAGE_SIZE : Z := 1000.

(** The [while (true)] loop: it ends on an empty page, or by the
    exception of a rejected request or of a response with errors.
    [None] is "no answer within [fuel] requests". *)
Fixpoint paging (fuel : nat) (E : Env) (blockNumber : Z) (lastId : string)
    (holders : list string) : option (outcome (list string)) :=
  match fuel with
  | O => None
  | S fuel' =>
      match graph_tokens E blockNumber lastId PAGE_SIZE with
      | GraphThrows msg => Some (Throws msg)
      | GraphErrors => Some (Throws "GraphQL query failed")
      | GraphTokens tokens =>
          match last tokens with
          | None => Some (Returns holders)
          | Some lastToken =>
              paging fuel' E blockNumber (token_id lastToken)
                (Holders.addOwners tokens holders)
          end
      end
  end.

(** "Find closest cached block number": the entry of the highest cached
    block below when it is fewer than 1000 blocks below, else that of the
    lowest cached block above when it is fewer than 100 blocks above. *)
Definition lookupNearby (blockNumber : Z) (hc : HoldersCache) : option (list string) :=
  let cachedBlocks := obj_keys (hc_blocks hc) in
  let blocksAfter :=
    array_sort Z.leb (List.filter (fun b => blockNumber <? b) cachedBlocks) in
  let blocksBefore :=
    array_sort Z.geb (List.filter (fun b => b <? blockNumber) cachedBlocks) in
  let after :=
    match blocksAfter with
    | a0 :: _ =>
        if a0 - blockNumber <? 100 then obj_get a0 (hc_blocks hc) else None
    | [] => None
    end in
  match blocksBefore with
  | b0 :: _ =>
      if blockNumber - b0 <? 1000 then obj_get b0 (hc_blocks hc) else after
  | [] => after
  end.

Definition getBAYCHoldersAtBlock (fuel : nat) (E : Env) (blockNumber : Z) (w : World)
    : option (outcome (list string) * World) :=
  match obj_get blockNumber (hc_blocks (holdersCache w)) with
  | Some holders => Some (Returns holders, w)
  | None =>
      match lookupNearby blockNumber (holdersCache w) with
      | Some holders => Some (Returns holders, w)
      | None =>
          match paging fuel E blockNumber "" [] with
          | None => None
          | Some (Returns holderArray) =>
              Some (Returns holderArray,
                    saveHoldersCache E
                      (set_holdersCache
                         (Holders.cacheHolders blockNumber holderArray (holdersCache w))
                         w))
          | Some (Throws _) =>
              let holders := Holders.getHoldersFromTokenTransfers E blockNumber in
              Some (Returns holders,
                    saveHoldersCache E
                      (set_holdersCache
                         (Holders.cacheHolders blockNumber holders (holdersCache w)) w))
          end
      end
  end.

End Earlier.

(* ================================================================== *)
(** * Part II: the vocabulary of the properties, and scenarios *)
(* ================================================================== *)

(** ** The binary search *)

(** What the search is to deliver on a chain whose block [b] has the
    timestamp [ts b]: the first block of the range [low0..high0] at or
    after [t], or [high0] when the whole range is before [t]. *)
Definition firstAtOrAfter (ts : Z -> Z) (t low0 high0 : Z) (r : Z) : Prop :=
  low0 <= r <= high0 /\
  ((t <= ts r /\ forall b, low0 <= b < r -> ts b < t) \/
   (r = high0 /\ forall b, low0 <= b <= high0 -> ts b < t)).

(** The loop invariant of the search. *)
Definition bracket (ts : Z -> Z) (t low0 high0 : Z) (low high result : Z) : Prop :=
  low0 <= low /\ high <= high0 /\ low <= high + 1 /\
  (forall b, low0 <= b < low -> ts b < t) /\
  ((result = high + 1 /\ high < high0 /\ t <= ts result) \/
   (result = high0 /\ high = high0)).

(** ** The transfer-log replay *)

Section TransferVocabulary.
Import Holders.

(** [address] is recorded as holding [token]. *)
Definition holds (m : list (string * list string)) (address token : string) : Prop :=
  exists tokens, map_get address m = Some tokens /\ In token tokens.

(** No owner is kept with an empty token set. *)
Definition noEmptyOwner (m : list (string * list string)) : Prop :=
  forall address tokens, map_get address m = Some tokens -> tokens <> [].

Definition removeToken (from token : string) (m : list (string * list string))
    : list (string * list string) :=
  match map_get from m with
  | Some tokens =>
      let tokens' := set_delete token tokens in
      match tokens' with
      | [] => map_delete from m
      | _ :: _ => map_set from tokens' m
      end
  | None => m
  end.

Definition addToken (to token : string) (m : list (string * list string))
    : list (string * list string) :=
  match map_get to m with
  | Some tokens => map_set to (set_add token tokens) m
  | None => map_set to (set_add token []) m
  end.

Definition replay (events : list Transfer) (m : list (string * list string))
    : list (string * list string) :=
  fold_left (fun m e => applyTransfer e m) events m.

(** The recipient of the last of [events] that moves [token]. *)
Definition latestRecipient (token : string) (events : list Transfer) : option string :=
  fold_left
    (fun latest e =>
       if String.eqb (tx_tokenID e) token then Some (toLowerCase (tx_to e)) else latest)
    events None.

(** A transfer is sent by the latest recipient of its token; the first
    transfer of a token is a mint, sent by the null address. *)
Definition sentByHolder (seen : list Transfer) (e : Transfer) : Prop :=
  match latestRecipient (tx_tokenID e) seen with
  | Some owner => toLowerCase (tx_from e) = owner
  | None => toLowerCase (tx_from e) = ZERO_ADDRESS
  end.

Fixpoint consistentFrom (seen events : list Transfer) : Prop :=
  match events with
  | [] => True
  | e :: rest => sentByHolder seen e /\ consistentFrom (seen ++ [e]) rest
  end.

(** The map agrees with the history on every address but the null one. *)
Definition tracks (m : list (string * list string)) (seen : list Transfer) : Prop :=
  noEmptyOwner m /\
  forall a k, a <> ZERO_ADDRESS -> (holds m a k <-> latestRecipient k seen = Some a).

(** The transfers of a page that the [for] loop applies, and whether it
    reached the end of the page. *)
Fixpoint upToBlock (blockNumber : Z) (transfers : list Transfer)
    : list Transfer * bool :=
  match transfers with
  | [] => ([], true)
  | e :: rest =>
      if blockNumber <? tx_blockNumber e then ([], false)
      else let (kept, whole) := upToBlock blockNumber rest in (e :: kept, whole)
  end.

(** The transfers the [while] loop applies from [page] on, when
    [remaining] pages are still allowed. *)
Fixpoint replayed (E : Env) (blockNumber : Z) (remaining : nat) (page : Z)
    : list Transfer :=
  match remaining with
  | O => []
  | S remaining' =>
      match etherscan_tokennfttx E page with
      | TransfersOk transfers =>
          let (kept, whole) := upToBlock blockNumber transfers in
          match transfers with
          | [] => []
          | _ :: _ =>
              if whole then kept ++ replayed E blockNumber remaining' (page + 1)
              else kept
          end
      | _ => []
      end
  end.

(** The rows of the pages [page], [page + 1], ... ([remaining] of them),
    in order. *)
Fixpoint pagesFrom (E : Env) (remaining : nat) (page : Z) : list Transfer :=
  match remaining with
  | O => []
  | S remaining' =>
      match etherscan_tokennfttx E page with
      | TransfersOk transfers => transfers ++ pagesFrom E remaining' (page + 1)
      | _ => pagesFrom E remaining' (page + 1)
      end
  end.

End TransferVocabulary.

(** ** The balance aggregator *)

Section BalanceVocabulary.
Import Balances.

(** The balance a slot ends up with after its chunk answered. *)
Definition decodedBalance (result : CallResult) : Z :=
  default 0 (decodeResult result).

(** A chunk is answered by [results] when the call succeeds within the
    four attempts and, as Multicall3 does, returns one result per call. *)
Definition answered (E : Env) (bn : Z) (chunk : list string)
    (results : list CallResult) : Prop :=
  aggregate3WithRetry E chunk bn 3 0 = Returns results /\
  length results = length chunk.

(** A chunk whose four attempts are all rejected. *)
Definition abandoned (E : Env) (bn : Z) (chunk : list string) : Prop :=
  exists error, aggregate3WithRetry E chunk bn 3 0 = Throws error.

(** The writes of the chunks [i], [i + 1], ... in turn. *)
Fixpoint storeAll (i : nat) (answers : list (list CallResult)) (balances : list Z)
    : list Z :=
  match answers with
  | [] => balances
  | results :: rest =>
      storeAll (S i) rest (storeChunkResults results (i * chunkSize) balances)
  end.


End BalanceVocabulary.

(** ** The pipeline *)

(** The stage durations an error result can carry: a stage that did not
    complete has none. *)
Definition partialMetrics (C : Clock) (m : Metrics) : Prop :=
  (blockResolutionTime m = 0 \/
   blockResolutionTime m = now_blockEnd C - now_blockStart C) /\
  (holdersResolutionTime m = 0 \/
   holdersResolutionTime m = now_holdersEnd C - now_holdersStart C) /\
  balanceResolutionTime m = 0 /\
  totalTime m = 0.

(** ** Scenarios *)

(** A node whose block [b] carries the timestamp [10 * b], with head 10;
    Etherscan is unreachable and the subgraph, Multicall and balances
    are not consulted. *)
Definition tenSecondChain : Env :=
  {| etherscan_getblocknobytime := fun _ => NoByTimeThrows "network";
     provider_getBlock := fun b => BlockData (10 * b);
     provider_getBlockNumber := Returns 10;
     graph_tokens := fun _ _ _ => GraphThrows "network";
     etherscan_tokennfttx := fun _ => TransfersThrows "network";
     multicall_aggregate3 := fun _ _ _ => Throws "network";
     provider_getBalance := fun _ _ => Throws "network";
     contract_constructs := true;
     fs_write_holders_cache := true;
     fs_write_results := true;
     bignumber_error := fun _ => "invalid BigNumber string" |}.

(** A subgraph that lists a token whose owner is the null address (a
    burned token) next to an ordinary one, in a single short page. *)
Definition burnedTokenSubgraph : Env :=
  {| etherscan_getblocknobytime := fun _ => NoByTimeThrows "network";
     provider_getBlock := fun _ => BlockData 1651363200;
     provider_getBlockNumber := Returns 14723000;
     graph_tokens := fun _ lastId _ =>
       match lastId with
       | EmptyString =>
           GraphTokens
             [ {| token_id := "1"; token_owner := ZERO_ADDRESS |};
               {| token_id := "2";
                  token_owner := "0xb88F61E6FbdA83fbfffAbE364112137480398018" |} ]
       | _ => GraphTokens []
       end;
     etherscan_tokennfttx := fun _ => TransfersThrows "network";
     multicall_aggregate3 := fun _ _ _ => Throws "network";
     provider_getBalance := fun _ _ => Throws "network";
     contract_constructs := true;
     fs_write_holders_cache := true;
     fs_write_results := true;
     bignumber_error := fun _ => "invalid BigNumber string" |}.

(** Six result pages of 100 mints each: page [p] mints the tokens
    [100 (p - 1) .. 100 (p - 1) + 99] in block [p] to one recipient per
    page; later pages are empty. *)
Definition mintRecipient (page : Z) : string :=
  ("0x00000000000000000000000000000000000000a" ++ Store.numberToString page)%string.

Definition mintPage (page : Z) : list Transfer :=
  map (fun i =>
         {| tx_blockNumber := page;
            tx_tokenID := Store.numberToString (100 * (page - 1) + Z.of_nat i);
            tx_from := ZERO_ADDRESS;
            tx_to := mintRecipient page |})
      (seq 0 100).

Definition sixPagesOfMints : Env :=
  {| etherscan_getblocknobytime := fun _ => NoByTimeThrows "network";
     provider_getBlock := fun _ => BlockError "network";
     provider_getBlockNumber := Throws "network";
     graph_tokens := fun _ _ _ => GraphThrows "network";
     etherscan_tokennfttx := fun page =>
       if (1 <=? page) && (page <=? 6) then TransfersOk (mintPage page)
       else TransfersOk [];
     multicall_aggregate3 := fun _ _ _ => Throws "network";
     provider_getBalance := fun _ _ => Throws "network";
     contract_constructs := true;
     fs_write_holders_cache := true;
     fs_write_results := true;
     bignumber_error := fun _ => "invalid BigNumber string" |}.

(** One token, minted to 0xaa...a1 in block 1 and sent on to 0xbb...b2 in
    block 2; a third transfer happens in block 9. *)
Definition oneTokenHistory : Env :=
  {| etherscan_getblocknobytime := fun _ => NoByTimeThrows "network";
     provider_getBlock := fun _ => BlockError "network";
     provider_getBlockNumber := Throws "network";
     graph_tokens := fun _ _ _ => GraphThrows "network";
     etherscan_tokennfttx := fun page =>
       if page =? 1 then
         TransfersOk
           [ {| tx_blockNumber := 1; tx_tokenID := "7"; tx_from := ZERO_ADDRESS;
                tx_to := "0xAAaaaaaaaaaaaaaaaaaaaaaaaaaaaaaaaaaaaaa1" |};
             {| tx_blockNumber := 2; tx_tokenID := "7";
                tx_from := "0xaaaaaaaaaaaaaaaaaaaaaaaaaaaaaaaaaaaaaaa1";
                tx_to := "0xbbbbbbbbbbbbbbbbbbbbbbbbbbbbbbbbbbbbbbb2" |};
             {| tx_blockNumber := 9; tx_tokenID := "7";
                tx_from := "0xbbbbbbbbbbbbbbbbbbbbbbbbbbbbbbbbbbbbbbb2";
                tx_to := "0xccccccccccccccccccccccccccccccccccccccc3" |} ]
       else TransfersOk [];
     multicall_aggregate3 := fun _ _ _ => Throws "network";
     provider_getBalance := fun _ _ => Throws "network";
     contract_constructs := true;
     fs_write_holders_cache := true;
     fs_write_results := true;
     bignumber_error := fun _ => "invalid BigNumber string" |}.

(** The scenario of the demo: the timestamp 1651363200 resolves to block
    14723000, the subgraph lists five tokens with five owners, and the
    owners hold 1, 2, 3, 4 and 5 ether. *)
Definition demoHolders : list string :=
  [ "0x7be8076f4ea4a4ad08075c2508e481d6c946d12b";
    "0xb88f61e6fbda83fbfffabe364112137480398018";
    "0x0315fa3813ff4999c264641b202d0d2b21df139c";
    "0xa858ddc0445d8131dac4d1de01f834ffcba52ef1";
    "0x1b523dc1cb8b17b0170aa9234ca1cff3e1ea36bf" ].

Definition demoTokens : list Token :=
  [ {| token_id := "0"; token_owner := "0x7Be8076f4EA4A4AD08075C2508e481d6C946D12b" |};
    {| token_id := "1"; token_owner := "0xb88F61E6FbdA83fbfffAbE364112137480398018" |};
    {| token_id := "2"; token_owner := "0x0315FA3813Ff4999C264641B202d0D2B21df139C" |};
    {| token_id := "3"; token_owner := "0xA858DDc0445d8131daC4d1DE01f834ffcbA52Ef1" |};
    {| token_id := "4"; token_owner := "0x1b523DC1cB8B17B0170aa9234cA1CFF3E1Ea36bF" |} ].

Definition demoReturnData : list (string * string) :=
  [ ("0x7be8076f4ea4a4ad08075c2508e481d6c946d12b",
     "0x0000000000000000000000000000000000000000000000000de0b6b3a7640000");
    ("0xb88f61e6fbda83fbfffabe364112137480398018",
     "0x0000000000000000000000000000000000000000000000001bc16d674ec80000");
    ("0x0315fa3813ff4999c264641b202d0d2b21df139c",
     "0x00000000000000000000000000000000000000000000000029a2241af62c0000");
    ("0xa858ddc0445d8131dac4d1de01f834ffcba52ef1",
     "0x0000000000000000000000000000000000000000000000003782dace9d900000");
    ("0x1b523dc1cb8b17b0170aa9234ca1cff3e1ea36bf",
     "0x0000000000000000000000000000000000000000000000004563918244f40000") ]%string.

(** The Multicall3 result for one address; the second holder's call is
    reported as failed when [secondFails] is set. *)
Definition demoCall (secondFails : bool) (address : string) : CallResult :=
  match map_get address demoReturnData with
  | Some data =>
      if secondFails &&
         String.eqb address "0xb88f61e6fbda83fbfffabe364112137480398018"
      then {| success := false; returnData := "0x" |}
      else {| success := true; returnData := data |}
  | None => {| success := false; returnData := "0x" |}
  end.

Definition demoEnv (secondFails aggregateDown : bool) : Env :=
  {| etherscan_getblocknobytime := fun _ => NoByTimeOk 14723000;
     provider_getBlock := fun _ => BlockData 1651363195;
     provider_getBlockNumber := Returns 14800000;
     graph_tokens := fun _ lastId _ =>
       match lastId with
       | EmptyString => GraphTokens demoTokens
       | _ => GraphTokens []
       end;
     etherscan_tokennfttx := fun _ => TransfersThrows "network";
     multicall_aggregate3 := fun calls _ _ =>
       if aggregateDown then Throws "call revert exception"
       else Returns (map (demoCall secondFails) calls);
     provider_getBalance := fun address _ =>
       match BigNumber.from (returnData (demoCall secondFails address)) with
       | Some balance =>
           if success (demoCall secondFails address) then Returns balance
           else Throws "timeout"
       | None => Throws "timeout"
       end;
     contract_constructs := true;
     fs_write_holders_cache := true;
     fs_write_results := true;
     bignumber_error := fun _ => "invalid BigNumber string" |}.


Definition demoClock : Clock :=
  {| now_start := 1000; now_blockStart := 1001; now_blockEnd := 1201;
     now_holdersStart := 1202; now_holdersEnd := 2202;
     now_balancesStart := 2203; now_balancesEnd := 2703;
     now_summed := 2704; now_caught := 2705;
     now_iso := "2022-05-01T00:00:00.000Z" |}.

(** A node and an Etherscan that cannot be reached. *)
Definition allDown : Env :=
  {| etherscan_getblocknobytime := fun _ => NoByTimeThrows "network";
     provider_getBlock := fun _ => BlockError "network";
     provider_getBlockNumber := Throws "network";
     graph_tokens := fun _ _ _ => GraphThrows "network";
     etherscan_tokennfttx := fun _ => TransfersThrows "network";
     multicall_aggregate3 := fun _ _ _ => Throws "network";
     provider_getBalance := fun _ _ => Throws "network";
     contract_constructs := true;
     fs_write_holders_cache := true;
     fs_write_results := true;
     bignumber_error := fun _ => "invalid BigNumber string" |}.

(** ** Further vocabulary *)

(** A string that [toLowerCase] leaves as it is. *)
Definition lowerCase (s : string) : Prop := toLowerCase s = s.

(** What the array made from a holder [Set] is: no address twice, every
    address lower-case. *)
Definition holderSet (holders : list string) : Prop :=
  NoDup holders /\ Forall lowerCase holders.

(** The cursor of the request that follows the first [k] rows of the
    listing [tokens]: the id of the last row received, or the empty
    string at the start. *)
Definition cursorAt (tokens : list Token) (k : nat) : string :=
  match k with
  | O => ""
  | S k' =>
      match tokens !! k' with
      | Some token => token_id token
      | None => ""
      end
  end.

(** The subgraph answers a request made at a cursor of the listing
    [tokens] of block [bn] with the rows that follow the cursor, [size]
    of them at most. *)
Definition servesPages (E : Env) (bn size : Z) (tokens : list Token) : Prop :=
  forall k, (k <= length tokens)%nat ->
    graph_tokens E bn (cursorAt tokens k) size
      = GraphTokens (take (Z.to_nat size) (drop k tokens)).

(** ** Further scenarios *)

(** The rows of a listing that follow the row with the id [lastId]. *)
Fixpoint tokensAfter (lastId : string) (tokens : list Token) : list Token :=
  match tokens with
  | [] => []
  | token :: rest =>
      if String.eqb (token_id token) lastId then rest else tokensAfter lastId rest
  end.

(** A subgraph that pages through the five tokens of the demo by cursor;
    everything else is unreachable. *)
Definition pagedSubgraph : Env :=
  {| etherscan_getblocknobytime := fun _ => NoByTimeThrows "network";
     provider_getBlock := fun _ => BlockData 1651363200;
     provider_getBlockNumber := Returns 14723000;
     graph_tokens := fun _ lastId size =>
       GraphTokens
         (take (Z.to_nat size)
            (match lastId with
             | EmptyString => demoTokens
             | _ => tokensAfter lastId demoTokens
             end));
     etherscan_tokennfttx := fun _ => TransfersThrows "network";
     multicall_aggregate3 := fun _ _ _ => Throws "network";
     provider_getBalance := fun _ _ => Throws "network";
     contract_constructs := true;
     fs_write_holders_cache := true;
     fs_write_results := true;
     bignumber_error := fun _ => "invalid BigNumber string" |}.

(** A subgraph that rejects the page size 10000 and pages through the
    five tokens of the demo at any other size. *)
Definition flakySubgraph : Env :=
  {| etherscan_getblocknobytime := fun _ => NoByTimeThrows "network";
     provider_getBlock := fun _ => BlockData 1651363200;
     provider_getBlockNumber := Returns 14723000;
     graph_tokens := fun _ lastId size =>
       if size =? 10000 then GraphErrors
       else GraphTokens
              (take (Z.to_nat size)
                 (match lastId with
                  | EmptyString => demoTokens
                  | _ => tokensAfter lastId demoTokens
                  end));
     etherscan_tokennfttx := fun _ => TransfersThrows "network";
     multicall_aggregate3 := fun _ _ _ => Throws "network";
     provider_getBalance := fun _ _ => Throws "network";
     contract_constructs := true;
     fs_write_holders_cache := true;
     fs_write_results := true;
     bignumber_error := fun _ => "invalid BigNumber string" |}.

(** A subgraph that serves the five tokens of the demo as a first page
    and reports GraphQL errors for every later cursor. *)
Definition truncatingSubgraph : Env :=
  {| etherscan_getblocknobytime := fun _ => NoByTimeThrows "network";
     provider_getBlock := fun _ => BlockData 1651363200;
     provider_getBlockNumber := Returns 14723000;
     graph_tokens := fun _ lastId _ =>
       match lastId with
       | EmptyString => GraphTokens demoTokens
       | _ => GraphErrors
       end;
     etherscan_tokennfttx := fun _ => TransfersThrows "network";
     multicall_aggregate3 := fun _ _ _ => Throws "network";
     provider_getBalance := fun _ _ => Throws "network";
     contract_constructs := true;
     fs_write_holders_cache := true;
     fs_write_results := true;
     bignumber_error := fun _ => "invalid BigNumber string" |}.

(** A module state whose holders cache has entries for the blocks 5 and
    9 and no timestamp index. *)
Definition twoCachedBlocks : World :=
  set_holdersCache
    {| hc_blocks := [(5, demoHolders); (9, [])]; hc_timestamps := None |}
    initialWorld.

(** The module state after the holders of block 14723000 were fetched in
    the scenario of the demo, starting from a fresh module. *)
Definition afterDemoHolders : World :=
  match Holders.getBAYCHoldersAtBlock 1 (demoEnv false false) 14723000 initialWorld with
  | Some (_, w) => w
  | None => initialWorld
  end.

(** The run of the pipeline in the scenario of the demo, from a fresh
    module: its result and the module state it leaves. *)
Definition demoRun : option (DetailedHolderResult * World) :=
  Orchestrator.getTotalEthValueOfHolders 1 (demoEnv false false) demoClock
    1651363200 initialWorld.

Definition demoRunResult : DetailedHolderResult :=
  match demoRun with
  | Some (result, _) => result
  | None => Orchestrator.errorResult demoClock "" Orchestrator.initialMetrics
  end.

Definition afterDemoRun : World :=
  match demoRun with
  | Some (_, w) => w
  | None => initialWorld
  end.

(** A node that cannot be reached and an Etherscan that answers every
    request with status 0 (as it does past its rate limit). *)
Definition rateLimited : Env :=
  {| etherscan_getblocknobytime := fun _ => NoByTimeStatus0 "NOTOK";
     provider_getBlock := fun _ => BlockError "network";
     provider_getBlockNumber := Throws "network";
     graph_tokens := fun _ _ _ => GraphThrows "network";
     etherscan_tokennfttx := fun _ => TransfersStatus0 "NOTOK";
     multicall_aggregate3 := fun _ _ _ => Throws "network";
     provider_getBalance := fun _ _ => Throws "network";
     contract_constructs := true;
     fs_write_holders_cache := true;
     fs_write_results := true;
     bignumber_error := fun _ => "invalid BigNumber string" |}.

(** A node that reports its head block, 14800000, but has no block to
    serve, next to an Etherscan past its rate limit. *)
Definition blocklessNode : Env :=
  {| etherscan_getblocknobytime := fun _ => NoByTimeStatus0 "NOTOK";
     provider_getBlock := fun _ => BlockNull;
     provider_getBlockNumber := Returns 14800000;
     graph_tokens := fun _ _ _ => GraphThrows "network";
     etherscan_tokennfttx := fun _ => TransfersStatus0 "NOTOK";
     multicall_aggregate3 := fun _ _ _ => Throws "network";
     provider_getBalance := fun _ _ => Throws "network";
     contract_constructs := true;
     fs_write_holders_cache := true;
     fs_write_results := true;
     bignumber_error := fun _ => "invalid BigNumber string" |}.

(* ================================================================== *)
(** * Part III: properties *)
(* ================================================================== *)

(** ** The adaptive page size *)

(** Linear arithmetic with [/] and [mod] by constants. *)
Ltac lia_div := Z.div_mod_to_equations; lia.

Section BatchSizeFacts.
Import BatchSize.







End BatchSizeFacts.




(** ** The binary search of the resolver *)

Section SearchFacts.
Import Resolver.

(** A chain: every block of the searched range is served, and block
    timestamps do not decrease with the height. *)
Variable getBlock : Z -> block_reply.
Variable ts : Z -> Z.
Variable t : Z.
Variables low0 high0 : Z.
Hypothesis range : low0 <= high0.
Hypothesis served :
  forall b, low0 <= b <= high0 -> getBlock b = BlockData (ts b).
Hypothesis monotone :
  forall a b, low0 <= a -> a <= b -> b <= high0 -> ts a <= ts b.

Local Abbreviation firstAtOrAfter := (firstAtOrAfter ts t low0 high0).
Local Abbreviation bracket := (bracket ts t low0 high0).

Lemma bracket_exit (low high result : Z) :
  bracket low high result -> high < low -> firstAtOrAfter result.
Proof.
  intros (Hlo & Hhi & Hle & Hbelow & Hres) Hexit.
  assert (low = high + 1) as -> by lia.
  destruct Hres as [(-> & Hlt & Hts) | (-> & ->)].
  - split; [lia |]. left. split; [exact Hts | exact Hbelow].
  - split; [lia |]. right. split; [reflexivity |].
    intros b Hb. apply Hbelow. lia.
Qed.

Lemma bracket_right (low high result : Z) :
  bracket low high result -> low <= high ->
  ts ((low + high) / 2) < t ->
  bracket ((low + high) / 2 + 1) high result.
Proof.
  intros (Hlo & Hhi & Hle & Hbelow & Hres) Hin Hts.
  assert (low <= (low + high) / 2 <= high) as Hmid by lia_div.
  split; [lia |]. split; [lia |]. split; [lia |]. split; [| exact Hres].
  intros b Hb.
  assert (ts b <= ts ((low + high) / 2)) by (apply monotone; lia).
  lia.
Qed.

Lemma bracket_left (low high result : Z) :
  bracket low high result -> low <= high ->
  t <= ts ((low + high) / 2) ->
  bracket low ((low + high) / 2 - 1) ((low + high) / 2).
Proof.
  intros (Hlo & Hhi & Hle & Hbelow & Hres) Hin Hts.
  assert (low <= (low + high) / 2 <= high) as Hmid by lia_div.
  split; [lia |]. split; [lia |]. split; [lia |]. split; [exact Hbelow |].
  left. split; [lia |]. split; [lia | exact Hts].
Qed.

Lemma pow2_succ (fuel : nat) : 2 ^ Z.of_nat (S fuel) = 2 * 2 ^ Z.of_nat fuel.
Proof. rewrite Nat2Z.inj_succ, Z.pow_succ_r by lia. reflexivity. Qed.

Lemma pow2_zero : 2 ^ Z.of_nat 0 = 1.
Proof. reflexivity. Qed.

Lemma plainLoop_correct (fuel : nat) :
  forall low high result,
    bracket low high result ->
    high - low + 1 < 2 ^ Z.of_nat fuel ->
    exists r, plainLoop getBlock t fuel low high result = Returns r /\
              firstAtOrAfter r.
Proof.
  induction fuel as [| fuel IH]; intros low high result Hinv Hsize.
  - rewrite pow2_zero in Hsize. simpl. exists result. split; [reflexivity |].
    apply (bracket_exit low high); [exact Hinv | lia].
  - rewrite pow2_succ in Hsize. simpl.
    destruct (Z.leb_spec low high) as [Hin | Hout].
    + assert (low <= (low + high) / 2 <= high) as Hmid by lia_div.
      rewrite served by (destruct Hinv as (? & ? & _); lia).
      destruct (Z.ltb_spec (ts ((low + high) / 2)) t) as [Hlt | Hge].
      * apply IH; [apply bracket_right; assumption | lia_div].
      * apply IH; [apply (bracket_left low high result); assumption | lia_div].
    + exists result. split; [reflexivity |].
      apply (bracket_exit low high); [exact Hinv | lia].
Qed.

Lemma searchLoop_correct (fuel : nat) :
  forall low high result lastMid errors,
    bracket low high result ->
    high - low + 1 < 2 ^ Z.of_nat fuel ->
    (low <= high -> (low + high) / 2 <> lastMid) ->
    firstAtOrAfter (searchLoop getBlock t fuel low high result lastMid errors).
Proof.
  induction fuel as [| fuel IH]; intros low high result lastMid errors Hinv Hsize Hmid0.
  - rewrite pow2_zero in Hsize. simpl.
    apply (bracket_exit low high); [exact Hinv | lia].
  - rewrite pow2_succ in Hsize. simpl.
    destruct (Z.leb_spec low high) as [Hin | Hout].
    + assert (low <= (low + high) / 2 <= high) as Hmid by lia_div.
      destruct (Z.eqb_spec ((low + high) / 2) lastMid) as [Heq | _].
      { exfalso. exact (Hmid0 Hin Heq). }
      rewrite served by (destruct Hinv as (? & ? & _); lia).
      destruct (Z.ltb_spec (ts ((low + high) / 2)) t) as [Hlt | Hge].
      * apply IH; [apply bracket_right; assumption | lia_div |].
        intros Hin'. lia_div.
      * apply IH; [apply (bracket_left low high result); assumption | lia_div |].
        intros Hin'. lia_div.
    + apply (bracket_exit low high); [exact Hinv | lia].
Qed.

Lemma bracket_initial : bracket low0 high0 high0.
Proof.
  unfold bracket.
  split; [lia |]. split; [lia |]. split; [lia |]. split; [intros b Hb; lia |].
  right. split; reflexivity.
Qed.

End SearchFacts.

(** The two side conditions of the search are needed.  With 20 probes a
    range of 16 million blocks is not narrowed down to one block, and a
    first midpoint equal to the initial [lastMid = 0] ends the loop
    before any probe. *)
Example search_cap_hit :
  Resolver.searchResult (fun b => BlockData b) 14723000 0 16000000 = 14723006.
Proof. vm_compute. reflexivity. Qed.

Example search_first_midpoint_zero :
  Resolver.searchResult (fun b => BlockData (b + 10)) 5 0 1 = 1.
Proof. reflexivity. Qed.

(** C2, as stated, fails: for the timestamp 15 the resolver returns
    block 2, whose timestamp 20 is after 15, while block 1 (timestamp 10)
    is the last block not after 15. *)
Lemma C2_counterexample :
  fst (Resolver.getBlockNumberAtTimestamp tenSecondChain 15 initialWorld) = Returns 2 /\
  fst (Resolver.binarySearchBlock tenSecondChain 0 10 15 initialWorld) = 2 /\
  provider_getBlock tenSecondChain 2 = BlockData 20 /\
  ~ (20 <= 15).
Proof.
  split; [vm_compute; reflexivity |].
  split; [vm_compute; reflexivity |].
  split; [reflexivity | lia].
Qed.

(** C2, amended.  When every block of the searched range [low..high] is
    served, block timestamps do not decrease with the height, the range
    holds fewer than 2^20 blocks (so the cap of 20 probes is not hit) and
    the first midpoint is not block 0, [binarySearchBlock] returns the
    lowest block of the range whose timestamp is at or after the target:
    its timestamp is >= the target and every lower block of the range is
    strictly before the target.  When no block of the range reaches the
    target it returns [high], whose timestamp is before the target.  The
    plain 40-probe loop of the earlier variant does the same for ranges
    of fewer than 2^40 blocks. *)
Theorem C2_binary_search_first_at_or_after
    (E : Env) (w : World) (ts : Z -> Z) (t low high : Z) :
  0 <= low -> low <= high ->
  (forall b, low <= b <= high -> provider_getBlock E b = BlockData (ts b)) ->
  (forall a b, low <= a -> a <= b -> b <= high -> ts a <= ts b) ->
  (2 <= low + high -> high - low + 1 < 2 ^ 20 ->
   firstAtOrAfter ts t low high
     (fst (Resolver.binarySearchBlock E low high t w))) /\
  (high - low + 1 < 2 ^ 40 ->
   exists r, Resolver.plainSearch (provider_getBlock E) t low high = Returns r /\
             firstAtOrAfter ts t low high r).
Proof.
  intros Hlow Hrange Hserved Hmono. split.
  - intros Hmid Hsize. unfold Resolver.binarySearchBlock. simpl.
    unfold Resolver.searchResult.
    apply (searchLoop_correct (provider_getBlock E) ts t low high Hrange Hserved Hmono 20).
    + apply bracket_initial. exact Hrange.
    + exact Hsize.
    + intros _. lia_div.
  - intros Hsize. unfold Resolver.plainSearch.
    apply (plainLoop_correct (provider_getBlock E) ts t low high Hrange Hserved Hmono 40).
    + apply bracket_initial. exact Hrange.
    + exact Hsize.
Qed.

Lemma C2_binary_search_first_at_or_after_witness :
  firstAtOrAfter (fun b => 10 * b) 15 0 10
    (fst (Resolver.binarySearchBlock tenSecondChain 0 10 15 initialWorld)) /\
  exists r, Resolver.plainSearch (provider_getBlock tenSecondChain) 15 0 10 = Returns r /\
            firstAtOrAfter (fun b => 10 * b) 15 0 10 r.
Proof.
  assert (Hserved : forall b, 0 <= b <= 10 ->
            provider_getBlock tenSecondChain b = BlockData (10 * b))
    by (intros b _; reflexivity).
  assert (Hmono : forall a b : Z, 0 <= a -> a <= b -> b <= 10 -> 10 * a <= 10 * b)
    by (intros a b _ Hab _; lia).
  destruct (C2_binary_search_first_at_or_after tenSecondChain initialWorld
              (fun b => 10 * b) 15 0 10 ltac:(lia) ltac:(lia) Hserved Hmono)
    as [Hsearch Hplain].
  split.
  - apply Hsearch; [lia | reflexivity].
  - apply Hplain. reflexivity.
Defined.

(** ** The holder-set builder *)

Section HolderFacts.
Import Holders.

(** More fuel never changes an answer already given. *)
Lemma primaryFollowUp_fuel (E : Env) (bn size : Z) (fuel fuel' : nat) :
  (fuel <= fuel')%nat ->
  forall lastId holders r,
    primaryFollowUp fuel E bn size lastId holders = Some r ->
    primaryFollowUp fuel' E bn size lastId holders = Some r.
Proof.
  revert fuel'. induction fuel as [| fuel IH]; intros fuel' Hle lastId holders r H.
  - discriminate H.
  - destruct fuel' as [| fuel']; [lia |].
    simpl in *. destruct (graph_tokens E bn lastId size); try exact H.
    destruct (last tokens); try exact H.
    destruct (Z.of_nat (length tokens) <? size); try exact H.
    apply IH; [lia | exact H].
Qed.

Lemma fallbackPaging_fuel (E : Env) (bn size : Z) (fuel fuel' : nat) :
  (fuel <= fuel')%nat ->
  forall lastId holders r,
    fallbackPaging fuel E bn size lastId holders = Some r ->
    fallbackPaging fuel' E bn size lastId holders = Some r.
Proof.
  revert fuel'. induction fuel as [| fuel IH]; intros fuel' Hle lastId holders r H.
  - discriminate H.
  - destruct fuel' as [| fuel']; [lia |].
    simpl in *. destruct (graph_tokens E bn lastId size); try exact H.
    destruct (last tokens); try exact H.
    destruct (Z.of_nat (length tokens) <? size); try exact H.
    apply IH; [lia | exact H].
Qed.

Lemma primaryAttempt_fuel (E : Env) (bn size : Z) (fuel fuel' : nat) r :
  (fuel <= fuel')%nat ->
  primaryAttempt fuel E bn size = Some r ->
  primaryAttempt fuel' E bn size = Some r.
Proof.
  intros Hle. unfold primaryAttempt.
  destruct (graph_tokens E bn "" size); try (intros H; exact H).
  destruct (Z.of_nat (length tokens) <? size); try (intros H; exact H).
  destruct (last tokens); try (intros H; exact H).
  apply primaryFollowUp_fuel. exact Hle.
Qed.

Lemma queryGraph_fuel (E : Env) (bn : Z) (w : World) (fuel fuel' : nat) r :
  (fuel <= fuel')%nat ->
  queryGraph fuel E bn w = Some r ->
  queryGraph fuel' E bn w = Some r.
Proof.
  intros Hle. unfold queryGraph.
  destruct (primaryAttempt fuel E bn _) as [first |] eqn:Hfirst; [| discriminate].
  rewrite (primaryAttempt_fuel _ _ _ _ _ _ Hle Hfirst).
  destruct first as [holders | msg]; [intros H; exact H |].
  destruct (fallbackPaging fuel E bn _ "" []) as [second |] eqn:Hsecond; [| discriminate].
  rewrite (fallbackPaging_fuel _ _ _ _ _ Hle _ _ _ Hsecond).
  intros H; exact H.
Qed.

Lemma holdersTryBody_fuel (E : Env) (bn : Z) (w : World) (fuel fuel' : nat) r :
  (fuel <= fuel')%nat ->
  holdersTryBody fuel E bn w = Some r ->
  holdersTryBody fuel' E bn w = Some r.
Proof.
  intros Hle. unfold holdersTryBody.
  destruct (provider_getBlock E bn); try (intros H; exact H).
  destruct (lookupByTime _ _); try (intros H; exact H).
  destruct (lookupByNumber _ _); try (intros H; exact H).
  destruct (queryGraph fuel E bn _) as [q |] eqn:Hq; [| discriminate].
  rewrite (queryGraph_fuel _ _ _ _ _ _ Hle Hq).
  intros H; exact H.
Qed.

Lemma getBAYCHoldersAtBlock_fuel (E : Env) (bn : Z) (w : World) (fuel fuel' : nat) r :
  (fuel <= fuel')%nat ->
  getBAYCHoldersAtBlock fuel E bn w = Some r ->
  getBAYCHoldersAtBlock fuel' E bn w = Some r.
Proof.
  intros Hle. unfold getBAYCHoldersAtBlock.
  destruct (obj_get bn _); [intros H; exact H |].
  destruct (holdersTryBody fuel E bn w) as [b |] eqn:Hb; [| discriminate].
  rewrite (holdersTryBody_fuel _ _ _ _ _ _ Hle Hb).
  intros H; exact H.
Qed.

(** The transfer-log replay filters the null address out, and the demo
    addresses it falls back on do not contain it. *)
Lemma transfers_exclude_null (E : Env) (bn : Z) :
  ~ In ZERO_ADDRESS (getHoldersFromTokenTransfers E bn).
Proof.
  unfold getHoldersFromTokenTransfers.
  destruct (transferPages E bn 5 1 []) as [m | msg].
  - rewrite filter_In. intros [_ Hnz]. unfold nonZeroAddress in Hnz.
    rewrite String.eqb_refl in Hnz. discriminate Hnz.
  - vm_compute. intuition discriminate.
Qed.

(** [getBAYCHoldersAtBlock] has no path that raises. *)
Lemma getBAYCHoldersAtBlock_never_throws (fuel : nat) (E : Env) (bn : Z) (w : World) :
  forall msg w', getBAYCHoldersAtBlock fuel E bn w <> Some (Throws msg, w').
Proof.
  intros msg w'. unfold getBAYCHoldersAtBlock, holdersCatch.
  destruct (obj_get bn _); [discriminate |].
  destruct (holdersTryBody fuel E bn w) as [[[holders | msg'] w1] |]; discriminate.
Qed.

(** *** The indexed path on a cold cache *)

Lemma addOwners_keeps (tokens : list Token) :
  forall holders x, In x holders -> In x (addOwners tokens holders).
Proof.
  unfold addOwners. induction tokens as [| t rest IH]; intros holders x Hx; simpl.
  - exact Hx.
  - apply IH. unfold set_add. destruct (set_has _ holders); [exact Hx |].
    apply in_or_app. left. exact Hx.
Qed.

Lemma addOwners_In (tokens : list Token) (t : Token) :
  forall holders,
    In t tokens -> In (toLowerCase (token_owner t)) (addOwners tokens holders).
Proof.
  induction tokens as [| t0 rest IH]; intros holders Hin; [destruct Hin |].
  destruct Hin as [-> | Hin].
  - unfold addOwners. simpl. apply addOwners_keeps.
    unfold set_add, set_has.
    destruct (existsb _ holders) eqn:Hhas.
    + apply existsb_exists in Hhas. destruct Hhas as (y & Hy & Heq).
      apply String.eqb_eq in Heq. subst y. exact Hy.
    + apply in_or_app. right. left. reflexivity.
  - unfold addOwners. simpl. apply IH. exact Hin.
Qed.

Lemma ensureTimestampIndex_blocks (E : Env) (hc : HoldersCache) :
  hc_blocks (ensureTimestampIndex E hc) = hc_blocks hc.
Proof. unfold ensureTimestampIndex. destruct (hc_timestamps hc); reflexivity. Qed.

Lemma lookupByTime_cold (t : Z) (hc : HoldersCache) :
  hc_blocks hc = [] -> lookupByTime t hc = None.
Proof.
  intros Hcold. unfold lookupByTime. rewrite Hcold.
  destruct (hc_timestamps hc); [| reflexivity].
  destruct (array_sort _ _); reflexivity.
Qed.

Lemma lookupByNumber_cold (bn : Z) (hc : HoldersCache) :
  hc_blocks hc = [] -> lookupByNumber bn hc = None.
Proof. intros Hcold. unfold lookupByNumber. rewrite Hcold. reflexivity. Qed.

(** On a cold cache the [try] block goes straight to the subgraph. *)
Lemma cold_cache_queries (fuel : nat) (E : Env) (bn blockTimestamp : Z) (w : World) :
  hc_blocks (holdersCache w) = [] ->
  provider_getBlock E bn = BlockData blockTimestamp ->
  holdersTryBody fuel E bn w =
  let w1 := set_holdersCache (ensureTimestampIndex E (holdersCache w)) w in
  match queryGraph fuel E bn w1 with
  | None => None
  | Some (Throws msg, w2) => Some (Throws msg, w2)
  | Some (Returns holderArray, w2) =>
      Some (Returns holderArray,
            saveHoldersCache E
              (set_holdersCache
                 (cacheTimestamp bn blockTimestamp
                    (cacheHolders bn holderArray (holdersCache w2))) w2))
  end.
Proof.
  intros Hcold Hblock. unfold holdersTryBody. rewrite Hblock. simpl.
  rewrite lookupByTime_cold by (rewrite ensureTimestampIndex_blocks; exact Hcold).
  rewrite lookupByNumber_cold by (rewrite ensureTimestampIndex_blocks; exact Hcold).
  reflexivity.
Qed.

(** A first page shorter than the page size is the whole answer. *)
Lemma queryGraph_short_page (fuel : nat) (E : Env) (bn : Z) (w : World)
    (tokens : list Token) :
  graph_tokens E bn "" (optimalGraphQLBatchSize w) = GraphTokens tokens ->
  Z.of_nat (length tokens) < optimalGraphQLBatchSize w ->
  queryGraph fuel E bn w
  = Some (Returns (addOwners tokens []),
          updateBatchSize true (optimalGraphQLBatchSize w) w).
Proof.
  intros Hpage Hshort. unfold queryGraph, primaryAttempt,
    BatchSize.getSuggestedGraphQLBatchSize.
  rewrite Hpage.
  destruct (Z.ltb_spec (Z.of_nat (length tokens)) (optimalGraphQLBatchSize w));
    [reflexivity | lia].
Qed.

End HolderFacts.

(** C3 fails on the indexed-query path: the owners of a page go into the
    holder set unfiltered.  With a cold cache, whenever the first page of
    the subgraph is shorter than the page size and lists a token whose
    owner is the null address, the null address is in the set
    [getBAYCHoldersAtBlock] returns.  (The transfer-log replay does
    filter it: [transfers_exclude_null].) *)
Theorem C3_indexed_path_returns_null_address
    (fuel : nat) (E : Env) (bn blockTimestamp : Z) (w : World)
    (tokens : list Token) (burned : Token) :
  hc_blocks (holdersCache w) = [] ->
  provider_getBlock E bn = BlockData blockTimestamp ->
  graph_tokens E bn "" (optimalGraphQLBatchSize w) = GraphTokens tokens ->
  Z.of_nat (length tokens) < optimalGraphQLBatchSize w ->
  In burned tokens ->
  toLowerCase (token_owner burned) = ZERO_ADDRESS ->
  exists w',
    Holders.getBAYCHoldersAtBlock fuel E bn w
      = Some (Returns (Holders.addOwners tokens []), w') /\
    In ZERO_ADDRESS (Holders.addOwners tokens []).
Proof.
  intros Hcold Hblock Hpage Hshort Hin Hnull.
  pose proof (cold_cache_queries fuel E bn blockTimestamp w Hcold Hblock) as Hbody.
  unfold Holders.getBAYCHoldersAtBlock. rewrite Hcold. simpl obj_get. cbv iota.
  rewrite Hbody. cbv zeta.
  rewrite (queryGraph_short_page fuel E bn _ tokens) by assumption.
  eexists. split; [reflexivity |].
  rewrite <- Hnull. apply addOwners_In. exact Hin.
Qed.

Lemma C3_indexed_path_returns_null_address_witness :
  exists w',
    Holders.getBAYCHoldersAtBlock 1 burnedTokenSubgraph 14723000 initialWorld
      = Some (Returns [ ZERO_ADDRESS;
                        "0xb88f61e6fbda83fbfffabe364112137480398018"%string ], w').
Proof.
  destruct (C3_indexed_path_returns_null_address 1 burnedTokenSubgraph 14723000
              1651363200 initialWorld
              [ {| token_id := "1"; token_owner := ZERO_ADDRESS |};
                {| token_id := "2";
                   token_owner := "0xb88F61E6FbdA83fbfffAbE364112137480398018" |} ]
              {| token_id := "1"; token_owner := ZERO_ADDRESS |})
    as (w' & Hrun & _); try reflexivity.
  - left. reflexivity.
  - exists w'. exact Hrun.
Defined.

(** C4, as stated, fails: with the subgraph and Etherscan both
    unreachable the builder does not raise; it returns the five built-in
    demo addresses. *)
Lemma C4_counterexample :
  (exists msg w1,
     Holders.queryGraph 1 tenSecondChain 5 initialWorld = Some (Throws msg, w1)) /\
  (exists msg, Holders.transferPages tenSecondChain 5 5 1 [] = Throws msg) /\
  exists w',
    Holders.getBAYCHoldersAtBlock 1 tenSecondChain 5 initialWorld
      = Some (Returns Holders.FALLBACK_sampleHolders, w').
Proof.
  split; [eexists; eexists; vm_compute; reflexivity |].
  split; [eexists; vm_compute; reflexivity |].
  eexists. vm_compute. reflexivity.
Qed.

(** C4, amended.  [getBAYCHoldersAtBlock] never raises to its caller.
    Whenever its indexed path raises (the block cannot be fetched, or the
    subgraph query fails at the suggested and at the fallback page size),
    it returns what the transfer-log replay returns; and when the
    Etherscan request of the replay is rejected, that is the list of the
    five built-in demo addresses, a stand-in for the failed computation.
    An answer obtained within some number of subgraph requests is the
    answer for any larger number. *)
Theorem C4_holders_never_raise (fuel : nat) (E : Env) (bn : Z) (w : World) :
  (forall msg w', Holders.getBAYCHoldersAtBlock fuel E bn w <> Some (Throws msg, w')) /\
  (forall msg w1,
     obj_get bn (hc_blocks (holdersCache w)) = None ->
     Holders.holdersTryBody fuel E bn w = Some (Throws msg, w1) ->
     exists w',
       Holders.getBAYCHoldersAtBlock fuel E bn w
         = Some (Returns (Holders.getHoldersFromTokenTransfers E bn), w')) /\
  (forall msg,
     Holders.transferPages E bn 5 1 [] = Throws msg ->
     Holders.getHoldersFromTokenTransfers E bn = Holders.FALLBACK_sampleHolders) /\
  (forall fuel' r,
     (fuel <= fuel')%nat ->
     Holders.getBAYCHoldersAtBlock fuel E bn w = Some r ->
     Holders.getBAYCHoldersAtBlock fuel' E bn w = Some r).
Proof.
  split; [apply getBAYCHoldersAtBlock_never_throws |].
  split.
  - intros msg w1 Hmiss Hbody. unfold Holders.getBAYCHoldersAtBlock.
    rewrite Hmiss, Hbody. unfold Holders.holdersCatch. eexists. reflexivity.
  - split.
    + intros msg Hthrows. unfold Holders.getHoldersFromTokenTransfers.
      rewrite Hthrows. reflexivity.
    + intros fuel' r Hle. apply getBAYCHoldersAtBlock_fuel. exact Hle.
Qed.

Lemma C4_holders_never_raise_witness :
  exists w',
    Holders.getBAYCHoldersAtBlock 1 tenSecondChain 5 initialWorld
      = Some (Returns Holders.FALLBACK_sampleHolders, w').
Proof.
  destruct (C4_holders_never_raise 1 tenSecondChain 5 initialWorld)
    as (_ & Hcatch & Hdemo & _).
  destruct (Hcatch "network"%string
              (set_optimalGraphQLBatchSize 7500
                 (set_holdersCache {| hc_blocks := []; hc_timestamps := Some [] |}
                    initialWorld)))
    as [w' Hw'].
  - reflexivity.
  - vm_compute. reflexivity.
  - exists w'. rewrite Hw'.
    rewrite (Hdemo "network"%string) by (vm_compute; reflexivity).
    reflexivity.
Defined.

(** ** The transfer-log replay *)

Section TransferFacts.
Import Holders.

(** *** Sets and maps *)

Lemma set_has_In (x : string) (s : list string) :
  set_has x s = true <-> In x s.
Proof.
  unfold set_has. rewrite existsb_exists. split.
  - intros (y & Hy & Heq). apply String.eqb_eq in Heq. subst y. exact Hy.
  - intros Hx. exists x. split; [exact Hx | apply String.eqb_refl].
Qed.

Lemma set_add_In (x y : string) (s : list string) :
  In x (set_add y s) <-> x = y \/ In x s.
Proof.
  unfold set_add. destruct (set_has y s) eqn:Hhas.
  - apply set_has_In in Hhas. split; [tauto |].
    intros [-> | Hx]; assumption.
  - rewrite in_app_iff. simpl. intuition congruence.
Qed.

Lemma set_delete_In (x y : string) (s : list string) :
  In x (set_delete y s) <-> x <> y /\ In x s.
Proof.
  unfold set_delete. rewrite filter_In.
  destruct (String.eqb_spec y x) as [-> | Hne]; simpl; intuition congruence.
Qed.

Lemma map_get_set_eq {V : Type} (k : string) (v : V) (m : list (string * V)) :
  map_get k (map_set k v m) = Some v.
Proof.
  induction m as [| [k' v'] m IH]; simpl.
  - rewrite String.eqb_refl. reflexivity.
  - destruct (String.eqb_spec k k') as [-> | Hne]; simpl.
    + rewrite String.eqb_refl. reflexivity.
    + destruct (String.eqb_spec k k'); [contradiction | exact IH].
Qed.

Lemma map_get_set_ne {V : Type} (k k' : string) (v : V) (m : list (string * V)) :
  k <> k' -> map_get k' (map_set k v m) = map_get k' m.
Proof.
  intros Hne. induction m as [| [k0 v0] m IH]; simpl.
  - destruct (String.eqb_spec k' k); [congruence | reflexivity].
  - destruct (String.eqb_spec k k0) as [-> | Hne0]; simpl.
    + destruct (String.eqb_spec k' k0); [congruence | reflexivity].
    + destruct (String.eqb_spec k' k0); [reflexivity | exact IH].
Qed.

Lemma map_get_delete_eq {V : Type} (k : string) (m : list (string * V)) :
  map_get k (map_delete k m) = None.
Proof.
  induction m as [| [k' v'] m IH]; simpl; [reflexivity |].
  destruct (String.eqb_spec k k') as [-> | Hne]; simpl; [exact IH |].
  destruct (String.eqb_spec k k'); [contradiction | exact IH].
Qed.

Lemma map_get_delete_ne {V : Type} (k k' : string) (m : list (string * V)) :
  k <> k' -> map_get k' (map_delete k m) = map_get k' m.
Proof.
  intros Hne. induction m as [| [k0 v0] m IH]; simpl; [reflexivity |].
  destruct (String.eqb_spec k k0) as [-> | Hne0]; simpl.
  - destruct (String.eqb_spec k' k0); [congruence | exact IH].
  - destruct (String.eqb_spec k' k0); [reflexivity | exact IH].
Qed.

Lemma map_keys_get {V : Type} (k : string) (m : list (string * V)) :
  In k (map_keys m) <-> exists v, map_get k m = Some v.
Proof.
  unfold map_keys. induction m as [| [k' v'] m IH]; simpl.
  - split; [tauto | intros [v Hv]; discriminate Hv].
  - destruct (String.eqb_spec k k') as [-> | Hne].
    + split; [intros _; exists v'; reflexivity | intros _; left; reflexivity].
    + rewrite <- IH. split; [intros [Heq | Hin]; [congruence | exact Hin] | tauto].
Qed.

(** *** What one transfer does to the ownership map *)

Lemma applyTransfer_steps (e : Transfer) (m : list (string * list string)) :
  applyTransfer e m =
  addToken (toLowerCase (tx_to e)) (tx_tokenID e)
    (if negb (String.eqb (toLowerCase (tx_from e)) ZERO_ADDRESS)
     then removeToken (toLowerCase (tx_from e)) (tx_tokenID e) m
     else m).
Proof. reflexivity. Qed.

Lemma removeToken_holds (from token : string) (m : list (string * list string))
    (a k : string) :
  holds (removeToken from token m) a k <-> holds m a k /\ ~ (a = from /\ k = token).
Proof.
  unfold removeToken, holds.
  destruct (map_get from m) as [tokens |] eqn:Hfrom.
  - destruct (String.eqb_spec from a) as [<- | Hne].
    + destruct (set_delete token tokens) as [| t0 rest] eqn:Hdel.
      * rewrite map_get_delete_eq. split.
        -- intros (tokens' & Hnone & _). discriminate Hnone.
        -- intros ((tokens' & Hget & Hin) & Hnot). exfalso.
           rewrite Hfrom in Hget. injection Hget as <-.
           assert (In k (set_delete token tokens)) as Habs
             by (apply set_delete_In; split; [intros ->; tauto | exact Hin]).
           rewrite Hdel in Habs. exact Habs.
      * rewrite map_get_set_eq. rewrite <- Hdel. split.
        -- intros (tokens' & Hget & Hin). injection Hget as <-.
           apply set_delete_In in Hin. destruct Hin as [Hk Hin].
           split; [exists tokens; split; [exact Hfrom | exact Hin] | tauto].
        -- intros ((tokens' & Hget & Hin) & Hnot).
           rewrite Hfrom in Hget. injection Hget as <-.
           exists (set_delete token tokens). split; [reflexivity |].
           apply set_delete_In. split; [intros ->; tauto | exact Hin].
    + assert (forall m', map_get a m' = map_get a m ->
                ((exists tokens', map_get a m' = Some tokens' /\ In k tokens') <->
                 (exists tokens', map_get a m = Some tokens' /\ In k tokens') /\
                 ~ (a = from /\ k = token))) as Hsame.
      { intros m' ->. split; [intros H; split; [exact H |] | tauto].
        intros [-> _]. congruence. }
      destruct (set_delete token tokens); apply Hsame;
        [apply map_get_delete_ne | apply map_get_set_ne]; exact Hne.
  - split; [| tauto]. intros (tokens & Hget & Hin).
    split; [exists tokens; tauto |]. intros [-> _]. congruence.
Qed.

Lemma removeToken_noEmpty (from token : string) (m : list (string * list string)) :
  noEmptyOwner m -> noEmptyOwner (removeToken from token m).
Proof.
  intros Hne a tokens. unfold removeToken.
  destruct (map_get from m) as [tokens0 |] eqn:Hfrom; [| apply Hne].
  destruct (String.eqb_spec from a) as [<- | Hother].
  - destruct (set_delete token tokens0) as [| t0 rest] eqn:Hdel.
    + rewrite map_get_delete_eq. discriminate.
    + rewrite map_get_set_eq. intros [= <-]. discriminate.
  - destruct (set_delete token tokens0).
    + rewrite map_get_delete_ne by exact Hother. apply Hne.
    + rewrite map_get_set_ne by exact Hother. apply Hne.
Qed.

Lemma addToken_holds (to token : string) (m : list (string * list string))
    (a k : string) :
  holds (addToken to token m) a k <-> holds m a k \/ (a = to /\ k = token).
Proof.
  unfold addToken, holds.
  destruct (String.eqb_spec to a) as [<- | Hne].
  - destruct (map_get to m) as [tokens |] eqn:Hto; rewrite map_get_set_eq.
    + split.
      * intros (tokens' & [= <-] & Hin). apply set_add_In in Hin.
        destruct Hin as [-> | Hin]; [right; tauto | left; exists tokens; tauto].
      * intros [(tokens' & [= <-] & Hin) | [_ ->]];
          (eexists; split; [reflexivity |]); apply set_add_In; tauto.
    + split.
      * intros (tokens' & [= <-] & Hin). apply set_add_In in Hin.
        destruct Hin as [-> | []]. right; tauto.
      * intros [(tokens' & Hnone & _) | [_ ->]]; [discriminate |].
        eexists; split; [reflexivity |]. apply set_add_In. tauto.
  - assert (map_get a (match map_get to m with
                       | Some tokens => map_set to (set_add token tokens) m
                       | None => map_set to (set_add token []) m
                       end) = map_get a m) as ->.
    { destruct (map_get to m); apply map_get_set_ne; exact Hne. }
    split; [tauto |]. intros [H | [-> _]]; [exact H | congruence].
Qed.

Lemma set_add_nonempty (x : string) (s : list string) : set_add x s <> [].
Proof.
  intros Hnil. assert (In x (set_add x s)) as Hin by (apply set_add_In; tauto).
  rewrite Hnil in Hin. exact Hin.
Qed.

Lemma addToken_noEmpty (to token : string) (m : list (string * list string)) :
  noEmptyOwner m -> noEmptyOwner (addToken to token m).
Proof.
  intros Hne a tokens. unfold addToken.
  destruct (String.eqb_spec to a) as [<- | Hother].
  - destruct (map_get to m); rewrite map_get_set_eq; intros [= <-];
      apply set_add_nonempty.
  - destruct (map_get to m); rewrite map_get_set_ne by exact Hother; apply Hne.
Qed.

(** *** Replaying a list of transfers *)

Lemma latestRecipient_snoc (token : string) (seen : list Transfer) (e : Transfer) :
  latestRecipient token (seen ++ [e]) =
  if String.eqb (tx_tokenID e) token then Some (toLowerCase (tx_to e))
  else latestRecipient token seen.
Proof. unfold latestRecipient. rewrite fold_left_app. reflexivity. Qed.

Lemma tracks_step (m : list (string * list string)) (seen : list Transfer)
    (e : Transfer) :
  tracks m seen -> sentByHolder seen e ->
  tracks (applyTransfer e m) (seen ++ [e]).
Proof.
  intros [Hne Hagree] Hsent. rewrite applyTransfer_steps. split.
  - apply addToken_noEmpty.
    destruct (negb _); [apply removeToken_noEmpty |]; exact Hne.
  - intros a k Ha. rewrite latestRecipient_snoc, addToken_holds.
    assert (holds (if negb (String.eqb (toLowerCase (tx_from e)) ZERO_ADDRESS)
                   then removeToken (toLowerCase (tx_from e)) (tx_tokenID e) m
                   else m) a k
            <-> holds m a k /\ ~ (a = toLowerCase (tx_from e) /\ k = tx_tokenID e))
      as ->.
    { destruct (String.eqb_spec (toLowerCase (tx_from e)) ZERO_ADDRESS) as [Hz | Hnz];
        simpl.
      - split; [| tauto]. intros H. split; [exact H |]. intros [-> _]. congruence.
      - apply removeToken_holds. }
    rewrite (Hagree a k Ha).
    destruct (String.eqb_spec (tx_tokenID e) k) as [<- | Hk].
    + unfold sentByHolder in Hsent. split.
      * intros [[Hlatest Hnot] | [-> _]]; [| reflexivity].
        rewrite Hlatest in Hsent. exfalso. apply Hnot. split; congruence.
      * intros [= <-]. right. tauto.
    + split; [intros [[H _] | [_ ->]]; [exact H | congruence] |].
      intros H. left. split; [exact H |]. intros [_ ->]. congruence.
Qed.

Lemma tracks_replay (events : list Transfer) :
  forall m seen,
    tracks m seen -> consistentFrom seen events ->
    tracks (replay events m) (seen ++ events).
Proof.
  induction events as [| e rest IH]; intros m seen Htracks Hcons; simpl.
  - rewrite app_nil_r. exact Htracks.
  - destruct Hcons as [Hsent Hrest].
    replace (seen ++ e :: rest) with ((seen ++ [e]) ++ rest)
      by (rewrite <- app_assoc; reflexivity).
    apply IH; [apply tracks_step; assumption | exact Hrest].
Qed.

Lemma tracks_empty : tracks [] [].
Proof.
  split.
  - intros a tokens H. discriminate H.
  - intros a k _. split; [intros (tokens & H & _) | intros H]; discriminate H.
Qed.

(** The addresses the replay reports: those, other than the null
    address, that are the latest recipient of some token. *)
Lemma holders_of_tracked (m : list (string * list string)) (seen : list Transfer)
    (a : string) :
  tracks m seen ->
  (In a (List.filter nonZeroAddress (map_keys m)) <->
   a <> ZERO_ADDRESS /\ exists k, latestRecipient k seen = Some a).
Proof.
  intros [Hne Hagree]. rewrite filter_In, map_keys_get. unfold nonZeroAddress.
  destruct (String.eqb_spec a ZERO_ADDRESS) as [-> | Ha]; simpl.
  - split; [intros [_ H]; discriminate H | intros [H _]; congruence].
  - split.
    + intros [[tokens Hget] _]. split; [exact Ha |].
      destruct tokens as [| k rest]; [exfalso; exact (Hne a [] Hget eq_refl) |].
      exists k. apply Hagree; [exact Ha |].
      exists (k :: rest). split; [exact Hget | left; reflexivity].
    + intros [_ [k Hk]]. split; [| reflexivity].
      apply Hagree in Hk; [| exact Ha]. destruct Hk as (tokens & Hget & _).
      exists tokens. exact Hget.
Qed.

(** *** Which transfers are replayed *)

Lemma processTransfers_upToBlock (bn : Z) (transfers : list Transfer) :
  forall m,
    processTransfers bn transfers m =
    (replay (fst (upToBlock bn transfers)) m, snd (upToBlock bn transfers)).
Proof.
  induction transfers as [| e rest IH]; intros m; simpl.
  - reflexivity.
  - destruct (bn <? tx_blockNumber e); [reflexivity |].
    rewrite IH. destruct (upToBlock bn rest) as [kept whole]. reflexivity.
Qed.

Lemma transferPages_replayed (E : Env) (bn : Z) (remaining : nat) :
  forall page m m',
    transferPages E bn remaining page m = Returns m' ->
    m' = replay (replayed E bn remaining page) m.
Proof.
  induction remaining as [| remaining IH]; intros page m m'; simpl.
  - intros [= <-]. reflexivity.
  - destruct (etherscan_tokennfttx E page) as [msg | message | transfers].
    + discriminate.
    + intros [= <-]. reflexivity.
    + destruct transfers as [| e rest]; [intros [= <-]; reflexivity |].
      rewrite processTransfers_upToBlock.
      destruct (upToBlock bn (e :: rest)) as [kept whole]. simpl.
      destruct whole.
      * intros H. apply IH in H. rewrite H. unfold replay.
        rewrite fold_left_app. reflexivity.
      * intros [= <-]. reflexivity.
Qed.

Lemma upToBlock_prefix (bn : Z) (transfers : list Transfer) :
  exists rest, transfers = fst (upToBlock bn transfers) ++ rest.
Proof.
  induction transfers as [| e l IH]; simpl.
  - exists []. reflexivity.
  - destruct (bn <? tx_blockNumber e).
    + exists (e :: l). reflexivity.
    + destruct IH as [rest Hrest]. destruct (upToBlock bn l) as [kept whole].
      exists rest. simpl in *. congruence.
Qed.

Lemma upToBlock_whole (bn : Z) (transfers : list Transfer) :
  snd (upToBlock bn transfers) = true -> fst (upToBlock bn transfers) = transfers.
Proof.
  induction transfers as [| e l IH]; simpl; [reflexivity |].
  destruct (bn <? tx_blockNumber e); [discriminate |].
  destruct (upToBlock bn l) as [kept whole]. simpl in *.
  intros H. rewrite (IH H). reflexivity.
Qed.

Lemma upToBlock_bounded (bn : Z) (transfers : list Transfer) :
  Forall (fun e => tx_blockNumber e <= bn) (fst (upToBlock bn transfers)).
Proof.
  induction transfers as [| e l IH]; simpl; [constructor |].
  destruct (Z.ltb_spec bn (tx_blockNumber e)); [constructor |].
  destruct (upToBlock bn l) as [kept whole]. simpl in *.
  constructor; [lia | exact IH].
Qed.

(** Only rows of the allowed pages are replayed, in their order, and none
    from after the target block. *)
Lemma replayed_prefix (E : Env) (bn : Z) (remaining : nat) :
  forall page,
    (exists rest, pagesFrom E remaining page = replayed E bn remaining page ++ rest) /\
    Forall (fun e => tx_blockNumber e <= bn) (replayed E bn remaining page).
Proof.
  induction remaining as [| remaining IH]; intros page; simpl.
  - split; [exists []; reflexivity | constructor].
  - destruct (etherscan_tokennfttx E page) as [msg | message | transfers];
      try (split; [eexists; reflexivity | constructor]).
    destruct transfers as [| e l].
    { destruct (upToBlock bn []); split; [eexists; reflexivity | constructor]. }
    pose proof (upToBlock_prefix bn (e :: l)) as [rest Hrest].
    pose proof (upToBlock_whole bn (e :: l)) as Hwhole.
    pose proof (upToBlock_bounded bn (e :: l)) as Hbound.
    destruct (upToBlock bn (e :: l)) as [kept whole]. simpl in Hrest, Hwhole, Hbound.
    destruct whole.
    + rewrite (Hwhole eq_refl). destruct (IH (page + 1)) as [[rest' Hrest'] Hb'].
      split.
      * exists rest'. rewrite Hrest'. rewrite <- app_assoc. reflexivity.
      * rewrite <- (Hwhole eq_refl). apply Forall_app. split; assumption.
    + split; [| exact Hbound].
      exists (rest ++ pagesFrom E remaining (page + 1)).
      rewrite Hrest at 1. rewrite <- app_assoc. reflexivity.
Qed.

End TransferFacts.

(** C5, as stated, fails: the replay stops after five pages.  The sixth
    page holds 100 mints in block 6, before the target block 100, yet
    their recipient is not among the holders returned. *)
Lemma C5_counterexample :
  etherscan_tokennfttx sixPagesOfMints 6 = TransfersOk (mintPage 6) /\
  forallb (fun e => (tx_blockNumber e <=? 100) &&
                    String.eqb (tx_to e) (mintRecipient 6)) (mintPage 6) = true /\
  Holders.getHoldersFromTokenTransfers sixPagesOfMints 100 =
    [ mintRecipient 1; mintRecipient 2; mintRecipient 3;
      mintRecipient 4; mintRecipient 5 ] /\
  ~ In (mintRecipient 6) (Holders.getHoldersFromTokenTransfers sixPagesOfMints 100).
Proof.
  split; [reflexivity |].
  split; [vm_compute; reflexivity |].
  assert (Holders.getHoldersFromTokenTransfers sixPagesOfMints 100 =
          [ mintRecipient 1; mintRecipient 2; mintRecipient 3;
            mintRecipient 4; mintRecipient 5 ]) as Hholders
    by (vm_compute; reflexivity).
  split; [exact Hholders |].
  rewrite Hholders. vm_compute. intuition discriminate.
Qed.

(** C5, amended.  When no Etherscan request is rejected, the replay
    applies, in their order, the transfers of at most the first five
    result pages, stopping at the first page that is empty or not
    successful and at the first transfer after the target block; none of
    the transfers applied is after the target block.  It returns the
    addresses that own a token after those transfers, the null address
    excepted: when each of these transfers is sent by the latest
    recipient of its token (by the null address for a first mint), an
    address is returned exactly when it is not the null address and is
    the latest recipient of some token. *)
Theorem C5_transfer_replay (E : Env) (bn : Z) (m : list (string * list string)) :
  Holders.transferPages E bn 5 1 [] = Returns m ->
  Holders.getHoldersFromTokenTransfers E bn =
    List.filter Holders.nonZeroAddress (map_keys (replay (replayed E bn 5 1) [])) /\
  (exists rest, pagesFrom E 5 1 = replayed E bn 5 1 ++ rest) /\
  Forall (fun e => tx_blockNumber e <= bn) (replayed E bn 5 1) /\
  (consistentFrom [] (replayed E bn 5 1) ->
   forall a,
     In a (Holders.getHoldersFromTokenTransfers E bn) <->
     a <> ZERO_ADDRESS /\ exists k, latestRecipient k (replayed E bn 5 1) = Some a).
Proof.
  intros Hpages.
  assert (Holders.getHoldersFromTokenTransfers E bn =
          List.filter Holders.nonZeroAddress (map_keys (replay (replayed E bn 5 1) [])))
    as Hholders.
  { unfold Holders.getHoldersFromTokenTransfers. rewrite Hpages.
    rewrite (transferPages_replayed E bn 5 1 [] m Hpages). reflexivity. }
  split; [exact Hholders |].
  destruct (replayed_prefix E bn 5 1) as [Hprefix Hbound].
  split; [exact Hprefix |]. split; [exact Hbound |].
  intros Hcons a. rewrite Hholders.
  apply holders_of_tracked.
  apply (tracks_replay (replayed E bn 5 1) [] []); [apply tracks_empty | exact Hcons].
Qed.

Lemma C5_transfer_replay_witness :
  Holders.getHoldersFromTokenTransfers oneTokenHistory 5 =
    [ "0xbbbbbbbbbbbbbbbbbbbbbbbbbbbbbbbbbbbbbbb2"%string ] /\
  forall a,
    In a (Holders.getHoldersFromTokenTransfers oneTokenHistory 5) <->
    a <> ZERO_ADDRESS /\
    exists k, latestRecipient k (replayed oneTokenHistory 5 5 1) = Some a.
Proof.
  destruct (C5_transfer_replay oneTokenHistory 5
              [ ("0xbbbbbbbbbbbbbbbbbbbbbbbbbbbbbbbbbbbbbbb2"%string, [ "7"%string ]) ])
    as (Hholders & _ & _ & Hlatest).
  - vm_compute. reflexivity.
  - split; [rewrite Hholders; vm_compute; reflexivity |].
    apply Hlatest. vm_compute. repeat split; reflexivity.
Defined.

(** ** The balance aggregator *)

Section BalanceFacts.
Import Balances.

(** *** Slicing *)

Lemma slices_concat {A : Type} (size : nat) (fuel : nat) :
  (0 < size)%nat ->
  forall l : list A, (length l <= fuel)%nat -> concat (slices fuel size l) = l.
Proof.
  intros Hsize. induction fuel as [| fuel IH]; intros l Hlen.
  - destruct l; [reflexivity | simpl in Hlen; lia].
  - destruct l as [| x l]; [reflexivity |].
    change (slices (S fuel) size (x :: l))
      with (take size (x :: l) :: slices fuel size (drop size (x :: l))).
    rewrite concat_cons, IH, take_drop; [reflexivity |].
    rewrite length_drop. simpl in *. lia.
Qed.

Lemma chunked_concat {A : Type} (size : nat) (l : list A) :
  (0 < size)%nat -> concat (chunked size l) = l.
Proof. intros Hsize. apply slices_concat; [exact Hsize | reflexivity]. Qed.

(** *** Writing into the zero-filled array *)

Lemma array_set_next (filled : list Z) (k : nat) (v : Z) :
  array_set 0 (length filled) v (filled ++ replicate (S k) 0)
  = (filled ++ [v]) ++ replicate k 0.
Proof.
  unfold array_set. rewrite length_app, length_replicate.
  destruct (Nat.ltb_spec (length filled) (length filled + S k)) as [_ | Hge]; [| lia].
  replace (length filled) with (length filled + 0)%nat at 1 by lia.
  rewrite insert_app_r. simpl. rewrite <- app_assoc. reflexivity.
Qed.

Lemma storeChunkResults_fill (chunkResults : list CallResult) :
  forall (filled : list Z) (k : nat),
    (length chunkResults <= k)%nat ->
    storeChunkResults chunkResults (length filled) (filled ++ replicate k 0)
    = (filled ++ map decodedBalance chunkResults)
        ++ replicate (k - length chunkResults) 0.
Proof.
  induction chunkResults as [| r rest IH]; intros filled k Hk; simpl.
  - rewrite app_nil_r, Nat.sub_0_r. reflexivity.
  - simpl in Hk. destruct k as [| k]; [lia |].
    assert ((match decodeResult r with
             | Some balance =>
                 array_set 0 (length filled) balance (filled ++ replicate (S k) 0)
             | None => filled ++ replicate (S k) 0
             end) = (filled ++ [decodedBalance r]) ++ replicate k 0) as ->.
    { unfold decodedBalance. destruct (decodeResult r) as [z |]; simpl.
      - apply array_set_next.
      - rewrite <- app_assoc. reflexivity. }
    replace (S (length filled)) with (length (filled ++ [decodedBalance r]))
      by (rewrite length_app; simpl; lia).
    rewrite IH by lia. simpl. rewrite <- !app_assoc. reflexivity.
Qed.

Lemma storeBatch_fill (E : Env) (bn : Z) (addresses : list string) :
  forall (filled : list Z) (k : nat),
    (length addresses <= k)%nat ->
    storeBatch E bn (length filled) addresses (filled ++ replicate k 0)
    = (filled ++ map (balanceOrZero E bn) addresses)
        ++ replicate (k - length addresses) 0.
Proof.
  induction addresses as [| a rest IH]; intros filled k Hk; simpl.
  - rewrite app_nil_r, Nat.sub_0_r. reflexivity.
  - simpl in Hk. destruct k as [| k]; [lia |].
    rewrite array_set_next.
    replace (S (length filled)) with (length (filled ++ [balanceOrZero E bn a]))
      by (rewrite length_app; simpl; lia).
    rewrite IH by lia. simpl. rewrite <- !app_assoc. reflexivity.
Qed.

(** *** The individual queries *)

Lemma fold_left_concat {A B : Type} (f : A -> B -> A) (ls : list (list B)) :
  forall a,
    fold_left (fun a l => fold_left f l a) ls a = fold_left f (concat ls) a.
Proof.
  induction ls as [| l ls IH]; intros a; simpl; [reflexivity |].
  rewrite fold_left_app. apply IH.
Qed.

Lemma makeBatches_fill (E : Env) (bn : Z) (fuel : nat) :
  forall (addresses : list string) (filled : list Z),
    (length addresses <= fuel)%nat ->
    fold_left (fun balances batch =>
                 storeBatch E bn (fst batch) (snd batch) balances)
      (makeBatches fuel (length filled) addresses)
      (filled ++ replicate (length addresses) 0)
    = filled ++ map (balanceOrZero E bn) addresses.
Proof.
  induction fuel as [| fuel IH]; intros addresses filled Hlen.
  - destruct addresses; [simpl; rewrite app_nil_r; reflexivity | simpl in Hlen; lia].
  - destruct addresses as [| a rest]; [simpl; rewrite app_nil_r; reflexivity |].
    set (l := a :: rest) in *.
    change (makeBatches (S fuel) (length filled) l)
      with ((length filled, take 50 l)
              :: makeBatches fuel (length filled + 50) (drop 50 l)).
    cbn [fold_left fst snd].
    rewrite storeBatch_fill by (rewrite length_take; lia).
    assert (length l - length (take 50 l) = length (drop 50 l))%nat as ->
      by (rewrite length_take, length_drop; lia).
    destruct (Nat.le_gt_cases 50 (length l)) as [Hfull | Hshort].
    + replace (length filled + 50)%nat
        with (length (filled ++ map (balanceOrZero E bn) (take 50 l)))
        by (rewrite length_app, length_map, length_take; lia).
      rewrite IH by (rewrite length_drop; subst l; simpl in *; lia).
      rewrite <- app_assoc, <- map_app, take_drop. reflexivity.
    + rewrite drop_ge by lia. rewrite take_ge by lia.
      destruct fuel; simpl; rewrite app_nil_r; reflexivity.
Qed.

Lemma getFallbackBalances_map (E : Env) (addresses : list string) (bn : Z) :
  getFallbackBalances E addresses bn = map (balanceOrZero E bn) addresses.
Proof.
  unfold getFallbackBalances.
  rewrite (fold_left_concat
             (fun balances batch => storeBatch E bn (fst batch) (snd batch) balances)).
  rewrite chunked_concat by lia.
  apply (makeBatches_fill E bn (length addresses) addresses []). reflexivity.
Qed.

(** *** The aggregate call *)

Lemma storeAll_app (answers1 answers2 : list (list CallResult)) :
  forall i balances,
    storeAll i (answers1 ++ answers2) balances
    = storeAll (i + length answers1) answers2 (storeAll i answers1 balances).
Proof.
  induction answers1 as [| rs rest IH]; intros i balances; simpl.
  - rewrite Nat.add_0_r. reflexivity.
  - rewrite IH. replace (S i + length rest)%nat with (i + S (length rest))%nat by lia.
    reflexivity.
Qed.

Lemma processBatch_answered (E : Env) (bn : Z) (batch : list (list string))
    (answers : list (list CallResult)) :
  Forall2 (answered E bn) batch answers ->
  forall i balances,
    processBatch E bn i batch balances = (Returns tt, storeAll i answers balances).
Proof.
  induction 1 as [| chunk results batch answers [Hcall _] _ IH]; intros i balances.
  - reflexivity.
  - simpl. unfold processChunk. rewrite Hcall. rewrite IH. reflexivity.
Qed.

Lemma processBatch_abandoned (E : Env) (bn : Z) (batch : list (list string)) :
  Exists (abandoned E bn) batch ->
  forall i balances,
    exists error balances',
      processBatch E bn i batch balances = (Throws error, balances').
Proof.
  induction 1 as [chunk batch [error Hcall] | chunk batch _ IH]; intros i balances.
  - simpl. unfold processChunk. rewrite Hcall.
    destruct (processBatch E bn (S i) batch balances) as [others balances2].
    eexists. eexists. reflexivity.
  - simpl. destruct (processChunk E bn i chunk balances) as [first balances1].
    destruct (IH (S i) balances1) as (error & balances2 & ->).
    destruct first; eexists; eexists; reflexivity.
Qed.

Lemma processBatches_answered (E : Env) (bn : Z) (fuel : nat) :
  forall (chunks : list (list string)) (answers : list (list CallResult)) i balances,
    (length chunks <= fuel)%nat ->
    Forall2 (answered E bn) chunks answers ->
    processBatches E bn i (slices fuel concurrencyLimit chunks) balances
    = Returns (storeAll i answers balances).
Proof.
  induction fuel as [| fuel IH]; intros chunks answers i balances Hlen Hans.
  - destruct chunks; [| simpl in Hlen; lia].
    apply Forall2_nil_inv_l in Hans. subst answers. reflexivity.
  - destruct chunks as [| c cs].
    { apply Forall2_nil_inv_l in Hans. subst answers. reflexivity. }
    set (l := c :: cs) in *.
    change (slices (S fuel) concurrencyLimit l)
      with (take concurrencyLimit l :: slices fuel concurrencyLimit (drop concurrencyLimit l)).
    cbn [processBatches].
    rewrite (processBatch_answered E bn _ (take concurrencyLimit answers))
      by (apply Forall2_take; exact Hans).
    rewrite (IH _ (drop concurrencyLimit answers))
      by (first [ rewrite length_drop; subst l; simpl in *; unfold concurrencyLimit; lia
                | apply Forall2_drop; exact Hans ]).
    f_equal.
    rewrite <- (take_drop concurrencyLimit answers) at 3.
    rewrite storeAll_app.
    destruct (Nat.le_gt_cases concurrencyLimit (length answers)) as [Hfull | Hshort].
    + rewrite length_take. replace (concurrencyLimit `min` length answers)%nat
        with concurrencyLimit by lia. reflexivity.
    + rewrite (drop_ge answers) by lia. reflexivity.
Qed.

Lemma processBatches_abandoned (E : Env) (bn : Z) (fuel : nat) :
  forall (chunks : list (list string)) i balances,
    (length chunks <= fuel)%nat ->
    Exists (abandoned E bn) chunks ->
    exists error,
      processBatches E bn i (slices fuel concurrencyLimit chunks) balances
      = Throws error.
Proof.
  induction fuel as [| fuel IH]; intros chunks i balances Hlen Hex.
  - destruct chunks; [inversion Hex | simpl in Hlen; lia].
  - destruct chunks as [| c cs]; [inversion Hex |].
    set (l := c :: cs) in *.
    change (slices (S fuel) concurrencyLimit l)
      with (take concurrencyLimit l :: slices fuel concurrencyLimit (drop concurrencyLimit l)).
    cbn [processBatches].
    rewrite <- (take_drop concurrencyLimit l) in Hex.
    apply Exists_app in Hex. destruct Hex as [Hfirst | Hlater].
    + destruct (processBatch_abandoned E bn _ Hfirst i balances)
        as (error & balances' & ->).
      exists error. reflexivity.
    + destruct (processBatch E bn i (take concurrencyLimit l) balances)
        as [[[] | error] balances']; [| exists error; reflexivity].
      apply IH; [| exact Hlater].
      rewrite length_drop. subst l. simpl in *. unfold concurrencyLimit. lia.
Qed.

(** With one result per call, the writes of all chunks fill the array
    from left to right. *)
Lemma storeAll_fill (fuel : nat) :
  forall (addresses : list string) (answers : list (list CallResult))
         (filled : list Z) i,
    (length addresses <= fuel)%nat ->
    Forall2 (fun chunk results => length results = length chunk)
      (slices fuel chunkSize addresses) answers ->
    (i * chunkSize)%nat = length filled ->
    storeAll i answers (filled ++ replicate (length addresses) 0)
    = filled ++ concat (map (map decodedBalance) answers).
Proof.
  induction fuel as [| fuel IH]; intros addresses answers filled i Hlen Hans Hi.
  - destruct addresses; [| simpl in Hlen; lia].
    apply Forall2_nil_inv_l in Hans. subst answers. reflexivity.
  - destruct addresses as [| a rest].
    { apply Forall2_nil_inv_l in Hans. subst answers. reflexivity. }
    set (l := a :: rest) in *.
    change (slices (S fuel) chunkSize l)
      with (take chunkSize l :: slices fuel chunkSize (drop chunkSize l)) in Hans.
    apply Forall2_cons_inv_l in Hans.
    destruct Hans as (results & answers' & Hres & Hrest & ->).
    cbn [storeAll map concat]. rewrite Hi.
    rewrite length_take in Hres.
    rewrite storeChunkResults_fill by lia.
    assert (length l - length results = length (drop chunkSize l))%nat as ->
      by (rewrite length_drop; lia).
    destruct (Nat.le_gt_cases chunkSize (length l)) as [Hfull | Hshort].
    + rewrite (IH (drop chunkSize l) answers'
                 (filled ++ map decodedBalance results) (S i)).
      * rewrite <- app_assoc. reflexivity.
      * rewrite length_drop. subst l. simpl in *. unfold chunkSize. lia.
      * exact Hrest.
      * rewrite length_app, length_map. lia.
    + rewrite (drop_ge l) in * by lia.
      assert (answers' = []) as ->.
      { destruct fuel; simpl in Hrest; apply Forall2_nil_inv_l in Hrest; exact Hrest. }
      simpl. rewrite !app_nil_r. reflexivity.
Qed.




Lemma getEthBalancesgraph_answered (E : Env) (addresses : list string) (bn : Z)
    (w : World) (answers : list (list CallResult)) :
  graphContract w = true ->
  Forall2 (answered E bn) (chunked chunkSize addresses) answers ->
  getEthBalancesgraph E addresses bn w
  = (Returns (map decodedBalance (concat answers)), w).
Proof.
  intros Hready Hans. unfold getEthBalancesgraph, initGraph. rewrite Hready.
  unfold chunked at 1.
  rewrite (processBatches_answered E bn _ _ answers) by (first [reflexivity | exact Hans]).
  change (replicate (length addresses) 0)
    with ([] ++ replicate (length addresses) 0).
  rewrite (storeAll_fill (length addresses) addresses answers [] 0).
  - rewrite concat_map. reflexivity.
  - reflexivity.
  - eapply Forall2_impl; [exact Hans |]. intros chunk results [_ Hlen]. exact Hlen.
  - reflexivity.
Qed.

Lemma getEthBalancesgraph_abandoned (E : Env) (addresses : list string) (bn : Z)
    (w : World) :
  graphContract w = true ->
  Exists (abandoned E bn) (chunked chunkSize addresses) ->
  getEthBalancesgraph E addresses bn w
  = (Returns (getFallbackBalances E addresses bn), w).
Proof.
  intros Hready Hex. unfold getEthBalancesgraph, initGraph. rewrite Hready.
  unfold chunked at 1.
  destruct (processBatches_abandoned E bn _ _ 0 (replicate (length addresses) 0)
              (Nat.le_refl _) Hex) as [error ->].
  reflexivity.
Qed.

Lemma getEthBalancesgraph_returns (E : Env) (addresses : list string) (bn : Z)
    (w : World) :
  graphContract w = true ->
  exists balances, getEthBalancesgraph E addresses bn w = (Returns balances, w).
Proof.
  intros Hready. unfold getEthBalancesgraph, initGraph. rewrite Hready.
  destruct (processBatches E bn 0 _ _); eexists; reflexivity.
Qed.

Lemma decodedBalance_failed (r : CallResult) :
  success r = false -> decodedBalance r = 0.
Proof. intros H. unfold decodedBalance, decodeResult. rewrite H. reflexivity. Qed.

End BalanceFacts.

(** *** Sums *)

Lemma sumBalances_from (balances : list Z) :
  forall start,
    fold_left (fun sum balance => sum + balance) balances start
    = start + fold_right Z.add 0 balances.
Proof.
  induction balances as [| b rest IH]; intros start; simpl.
  - lia.
  - rewrite IH. lia.
Qed.

Lemma sumBalances_exact (balances : list Z) :
  Orchestrator.sumBalances balances = fold_right Z.add 0 balances.
Proof. unfold Orchestrator.sumBalances. rewrite sumBalances_from. lia. Qed.

Lemma sum_without_failed (results : list CallResult) :
  Orchestrator.sumBalances (map decodedBalance results)
  = Orchestrator.sumBalances (map decodedBalance (List.filter success results)).
Proof.
  rewrite !sumBalances_exact.
  induction results as [| r rest IH]; simpl; [reflexivity |].
  destruct (success r) eqn:Hs; simpl.
  - rewrite IH. reflexivity.
  - rewrite (decodedBalance_failed r Hs), IH. reflexivity.
Qed.


Lemma lookup_map {A B : Type} (f : A -> B) (l : list A) :
  forall i, map f l !! i = option_map f (l !! i).
Proof.
  induction l as [| x l IH]; intros [| i]; simpl; try reflexivity. apply IH.
Qed.




(** C6.  Once the contract object exists (module initialisation sets it),
    [getEthBalancesgraph] always returns an array and never raises.  When
    every chunk is answered, the results flagged as failed do not abort
    anything: the array holds the decoded value of every result, 0 for a
    failed one, so the total is the total of the successful results
    alone.  When a chunk is abandoned after its four attempts, the array
    is the one the individual-query tier [getFallbackBalances] computes. *)
Theorem C6_aggregation_never_fails (E : Env) (addresses : list string) (bn : Z)
    (w : World) :
  graphContract w = true ->
  (exists balances,
     Balances.getEthBalancesgraph E addresses bn w = (Returns balances, w)) /\
  (forall answers,
     Forall2 (answered E bn) (Balances.chunked Balances.chunkSize addresses) answers ->
     fst (Balances.getEthBalancesgraph E addresses bn w)
       = Returns (map decodedBalance (concat answers)) /\
     Orchestrator.sumBalances (map decodedBalance (concat answers))
       = Orchestrator.sumBalances
           (map decodedBalance (List.filter success (concat answers)))) /\
  (Exists (abandoned E bn) (Balances.chunked Balances.chunkSize addresses) ->
   fst (Balances.getEthBalancesgraph E addresses bn w)
     = Returns (Balances.getFallbackBalances E addresses bn)) /\
  (forall r, success r = false -> decodedBalance r = 0).
Proof.
  intros Hready.
  split; [apply getEthBalancesgraph_returns; exact Hready |].
  split.
  - intros answers Hans.
    rewrite (getEthBalancesgraph_answered E addresses bn w answers Hready Hans).
    split; [reflexivity | apply sum_without_failed].
  - split; [| apply decodedBalance_failed].
    intros Hex. rewrite (getEthBalancesgraph_abandoned E addresses bn w Hready Hex).
    reflexivity.
Qed.

Lemma C6_aggregation_never_fails_witness :
  fst (Balances.getEthBalancesgraph (demoEnv true false) demoHolders 14723000 initialWorld)
    = Returns (map decodedBalance (map (demoCall true) demoHolders)) /\
  fst (Balances.getEthBalancesgraph (demoEnv true true) demoHolders 14723000 initialWorld)
    = Returns (Balances.getFallbackBalances (demoEnv true true) demoHolders 14723000) /\
  Balances.getFallbackBalances (demoEnv true true) demoHolders 14723000
    = [ 1000000000000000000; 0; 3000000000000000000;
        4000000000000000000; 5000000000000000000 ].
Proof.
  split; [| split].
  - destruct (C6_aggregation_never_fails (demoEnv true false) demoHolders 14723000
                initialWorld eq_refl) as (_ & Hanswered & _ & _).
    destruct (Hanswered [map (demoCall true) demoHolders]) as [Hret _].
    + constructor; [| constructor]. split; [reflexivity | apply length_map].
    + rewrite Hret. reflexivity.
  - destruct (C6_aggregation_never_fails (demoEnv true true) demoHolders 14723000
                initialWorld eq_refl) as (_ & _ & Habandoned & _).
    apply Habandoned. constructor. exists "call revert exception"%string. reflexivity.
  - vm_compute. reflexivity.
Defined.

(** ** The orchestrator and the result store *)

Section StoreFacts.

(** *** What the resolver and the builder leave alone

    The resolver writes [blockNumberCache]; the builder writes
    [holdersCache] and [optimalGraphQLBatchSize].  Any other part of the
    state is the same before and after. *)

Section Frame.
Context {A : Type} (field : World -> A).
Hypothesis field_blockNumberCache :
  forall c w, field (set_blockNumberCache c w) = field w.
Hypothesis field_holdersCache :
  forall c w, field (set_holdersCache c w) = field w.
Hypothesis field_batchSize :
  forall n w, field (set_optimalGraphQLBatchSize n w) = field w.

Lemma binarySearchBlock_frame (E : Env) (low high t : Z) (w : World) r w' :
  Resolver.binarySearchBlock E low high t w = (r, w') -> field w' = field w.
Proof.
  unfold Resolver.binarySearchBlock, Resolver.cacheBlock. intros [= _ <-].
  apply field_blockNumberCache.
Qed.

Lemma viaEtherscan_frame (E : Env) (timestamp : Z) (w : World) r w' :
  Resolver.viaEtherscan E timestamp w = Some (r, w') -> field w' = field w.
Proof.
  unfold Resolver.viaEtherscan.
  destruct (etherscan_getblocknobytime E timestamp) as [msg | message | bn];
    try discriminate.
  destruct (provider_getBlock E bn) as [blockTimestamp | | msg].
  - destruct (Z.abs (blockTimestamp - timestamp) <? 120);
      [intros [= _ <-]; apply field_blockNumberCache |].
    destruct (blockTimestamp <? timestamp); intros H; apply (inj Some) in H;
      exact (binarySearchBlock_frame _ _ _ _ _ _ _ H).
  - intros [= _ <-]. apply field_blockNumberCache.
  - discriminate.
Qed.

Lemma getBlockNumberAtTimestamp_frame (E : Env) (timestamp : Z) (w : World) r w' :
  Resolver.getBlockNumberAtTimestamp E timestamp w = (r, w') -> field w' = field w.
Proof.
  unfold Resolver.getBlockNumberAtTimestamp.
  destruct (match obj_get timestamp (blockNumberCache w) with
            | Some c => if c =? 0 then None else Some c
            | None => None
            end); [intros [= _ <-]; reflexivity |].
  destruct (match Resolver.closestNearby timestamp (blockNumberCache w) with
            | Some (closestTimestamp, block) =>
                if Z.abs (timestamp - closestTimestamp) <? 30 then Some block else None
            | None => None
            end); [intros [= _ <-]; apply field_blockNumberCache |].
  destruct (Resolver.viaEtherscan E timestamp w) as [[bn w1] |] eqn:Hvia.
  - intros [= _ <-]. exact (viaEtherscan_frame _ _ _ _ _ Hvia).
  - destruct (provider_getBlockNumber E) as [currentBlock | error].
    + destruct (Resolver.binarySearchBlock E 0 currentBlock timestamp w)
        as [result w1] eqn:Hsearch.
      intros [= _ <-]. exact (binarySearchBlock_frame _ _ _ _ _ _ _ Hsearch).
    + destruct (Resolver.hasFallbackData timestamp); intros [= _ <-];
        [apply field_blockNumberCache | reflexivity].
Qed.

Lemma saveHoldersCache_frame (E : Env) (w : World) :
  field (Holders.saveHoldersCache E w) = field w.
Proof.
  unfold Holders.saveHoldersCache.
  destruct (fs_write_holders_cache E); [apply field_holdersCache | reflexivity].
Qed.

Lemma queryGraph_frame (fuel : nat) (E : Env) (bn : Z) (w : World) r w' :
  Holders.queryGraph fuel E bn w = Some (r, w') -> field w' = field w.
Proof.
  unfold Holders.queryGraph, Holders.updateBatchSize.
  destruct (Holders.primaryAttempt fuel E bn _) as [[holders | msg] |];
    [intros [= _ <-]; apply field_batchSize | | discriminate].
  destruct (Holders.fallbackPaging fuel E bn _ "" []) as [[holders | msg'] |];
    [| | discriminate]; intros [= _ <-]; rewrite ?field_batchSize; reflexivity.
Qed.

Lemma holdersTryBody_frame (fuel : nat) (E : Env) (bn : Z) (w : World) r w' :
  Holders.holdersTryBody fuel E bn w = Some (r, w') -> field w' = field w.
Proof.
  unfold Holders.holdersTryBody.
  destruct (provider_getBlock E bn); try (intros [= _ <-]; reflexivity).
  destruct (Holders.lookupByTime _ _); [intros [= _ <-]; apply field_holdersCache |].
  destruct (Holders.lookupByNumber _ _); [intros [= _ <-]; apply field_holdersCache |].
  destruct (Holders.queryGraph fuel E bn _) as [[[holders | msg] w2] |] eqn:Hq;
    [| | discriminate]; intros [= _ <-];
    rewrite ?saveHoldersCache_frame, ?field_holdersCache;
    rewrite (queryGraph_frame _ _ _ _ _ _ Hq); apply field_holdersCache.
Qed.

Lemma getBAYCHoldersAtBlock_frame (fuel : nat) (E : Env) (bn : Z) (w : World) r w' :
  Holders.getBAYCHoldersAtBlock fuel E bn w = Some (r, w') -> field w' = field w.
Proof.
  unfold Holders.getBAYCHoldersAtBlock.
  destruct (obj_get bn _); [intros [= _ <-]; reflexivity |].
  destruct (Holders.holdersTryBody fuel E bn w) as [[[holders | msg] w1] |] eqn:Hb;
    [| | discriminate].
  - intros [= _ <-]. exact (holdersTryBody_frame _ _ _ _ _ _ Hb).
  - unfold Holders.holdersCatch. intros [= _ <-].
    rewrite saveHoldersCache_frame, field_holdersCache.
    exact (holdersTryBody_frame _ _ _ _ _ _ Hb).
Qed.

End Frame.

(** No stage before the save touches results.json. *)
Lemma getBlockNumberAtTimestamp_resultsFile (E : Env) (timestamp : Z) (w : World) r w' :
  Resolver.getBlockNumberAtTimestamp E timestamp w = (r, w') ->
  resultsFile w' = resultsFile w.
Proof.
  apply (getBlockNumberAtTimestamp_frame resultsFile). intros c w0. reflexivity.
Qed.

Lemma getBAYCHoldersAtBlock_resultsFile (fuel : nat) (E : Env) (bn : Z) (w : World) r w' :
  Holders.getBAYCHoldersAtBlock fuel E bn w = Some (r, w') ->
  resultsFile w' = resultsFile w.
Proof.
  apply (getBAYCHoldersAtBlock_frame resultsFile); intros c w0; reflexivity.
Qed.

(** Neither the resolver nor the builder unsets the contract object. *)
Lemma getBlockNumberAtTimestamp_graphContract (E : Env) (timestamp : Z) (w : World) r w' :
  Resolver.getBlockNumberAtTimestamp E timestamp w = (r, w') ->
  graphContract w' = graphContract w.
Proof.
  apply (getBlockNumberAtTimestamp_frame graphContract). intros c w0. reflexivity.
Qed.

Lemma getBAYCHoldersAtBlock_graphContract (fuel : nat) (E : Env) (bn : Z) (w : World) r w' :
  Holders.getBAYCHoldersAtBlock fuel E bn w = Some (r, w') ->
  graphContract w' = graphContract w.
Proof.
  apply (getBAYCHoldersAtBlock_frame graphContract); intros c w0; reflexivity.
Qed.

Lemma getEthBalancesgraph_resultsFile (E : Env) (addresses : list string) (bn : Z)
    (w : World) r w' :
  Balances.getEthBalancesgraph E addresses bn w = (r, w') ->
  resultsFile w' = resultsFile w.
Proof.
  unfold Balances.getEthBalancesgraph, Balances.initGraph.
  destruct (graphContract w); [| destruct (contract_constructs E)];
    [| | intros [= _ <-]; reflexivity];
    destruct (Balances.processBatches E bn 0 _ _); intros [= _ <-]; reflexivity.
Qed.

(** *** The contract object stays set

    The hypothesis [graphContract w = true] of the balance theorems holds
    in every state the pipeline can be in: loading the module sets the
    variable, and no stage unsets it. *)

Lemma loadModule_graphContract (E : Env) blockCache holders results (w : World) :
  Orchestrator.loadModule E blockCache holders results = Returns w ->
  graphContract w = true.
Proof.
  unfold Orchestrator.loadModule, Balances.initGraph. simpl.
  destruct (contract_constructs E); [intros [= <-]; reflexivity | discriminate].
Qed.

Lemma getEthBalancesgraph_graphContract (E : Env) (addresses : list string) (bn : Z)
    (w : World) r w' :
  graphContract w = true ->
  Balances.getEthBalancesgraph E addresses bn w = (r, w') ->
  graphContract w' = true.
Proof.
  intros Hready. unfold Balances.getEthBalancesgraph, Balances.initGraph.
  rewrite Hready.
  destruct (Balances.processBatches E bn 0 _ _); intros [= _ <-]; exact Hready.
Qed.

Lemma saveResultsToFile_graphContract (E : Env) (C : Clock) (impl key : string)
    (result : DetailedHolderResult) (w : World) :
  graphContract (Store.saveResultsToFile E C impl key result w) = graphContract w.
Proof.
  unfold Store.saveResultsToFile.
  destruct (resultsFile w); [| reflexivity |];
    destruct (fs_write_results E); reflexivity.
Qed.

Lemma getTotalEthValueOfHolders_graphContract (fuel : nat) (E : Env) (C : Clock)
    (timestamp : Z) (w : World) r w' :
  graphContract w = true ->
  Orchestrator.getTotalEthValueOfHolders fuel E C timestamp w = Some (r, w') ->
  graphContract w' = true.
Proof.
  intros Hready. unfold Orchestrator.getTotalEthValueOfHolders.
  destruct (Store.cachedResultFor timestamp w).
  { destruct (BigNumber.from _); intros [= _ <-]; exact Hready. }
  unfold Orchestrator.computeFresh.
  destruct (Resolver.getBlockNumberAtTimestamp E timestamp w) as [[bn | msg] w1] eqn:Hblock;
    pose proof (getBlockNumberAtTimestamp_graphContract _ _ _ _ _ Hblock) as H1;
    [| intros [= _ <-]; congruence].
  destruct (Holders.getBAYCHoldersAtBlock fuel E bn w1)
    as [[[holders | msg] w2] |] eqn:Hholders; [| | discriminate];
    pose proof (getBAYCHoldersAtBlock_graphContract _ _ _ _ _ _ Hholders) as H2;
    [| intros [= _ <-]; congruence].
  assert (graphContract w2 = true) as Hready2 by congruence.
  destruct holders as [| h hs]; [intros [= _ <-]; exact Hready2 |].
  destruct (Balances.getEthBalancesgraph E (h :: hs) bn w2) as [[balances | msg] w3]
    eqn:Hbalances;
    pose proof (getEthBalancesgraph_graphContract E _ _ _ _ _ Hready2 Hbalances) as H3;
    intros [= _ <-]; [rewrite saveResultsToFile_graphContract |]; exact H3.
Qed.

(** *** Decimal strings *)

Lemma to_int_not_nil (n : Z) :
  Z.to_int n <> Decimal.Pos Decimal.Nil /\ Z.to_int n <> Decimal.Neg Decimal.Nil.
Proof.
  destruct n as [| p | p]; simpl; split; try discriminate;
    intros [= H]; exact (Unsigned.to_uint_nonnil p H).
Qed.

(** The decimal string of a big number reads back as the same number. *)
Lemma BigNumber_round_trip (n : Z) :
  BigNumber.from (BigNumber.toString n) = Some n.
Proof.
  unfold BigNumber.from, BigNumber.toString.
  destruct (to_int_not_nil n) as [Hpos Hneg].
  rewrite (NilZero.isi _ Hpos Hneg), DecimalZ.of_to. reflexivity.
Qed.

Lemma BigNumber_toString_nonempty (n : Z) : BigNumber.toString n <> EmptyString.
Proof.
  intros Hempty. pose proof (BigNumber_round_trip n) as H.
  rewrite Hempty in H. discriminate H.
Qed.

Lemma append_nonempty_r (s1 s2 : string) :
  s2 <> EmptyString -> (s1 ++ s2)%string <> EmptyString.
Proof. destruct s1; simpl; [tauto | discriminate]. Qed.

Lemma formatEther_nonempty (wei : Z) : BigNumber.formatEther wei <> EmptyString.
Proof.
  unfold BigNumber.formatEther.
  apply append_nonempty_r, append_nonempty_r. discriminate.
Qed.

Lemma orString_nonempty (s fallback : string) :
  s <> EmptyString -> Store.orString s fallback = s.
Proof. destruct s; [tauto | reflexivity]. Qed.

(** *** Saving and reading back *)

Lemma saveResultsToFile_lookup (E : Env) (C : Clock) (implementationId key : string)
    (result : DetailedHolderResult) (w : World) :
  resultsFile w <> FileCorrupt ->
  fs_write_results E = true ->
  Store.getPreviousResults
    (Store.saveResultsToFile E C implementationId key result w)
    !! implementationId
  ≫= (fun forImplementation => forImplementation !! key)
  = Some (Store.resultToSave C implementationId result).
Proof.
  intros Hfile Hwrite. unfold Store.saveResultsToFile. rewrite Hwrite.
  destruct (resultsFile w) as [| | results]; [| contradiction |];
    unfold Store.getPreviousResults; simpl;
    rewrite lookup_insert_eq; simpl; apply lookup_insert_eq.
Qed.

(** Saving one entry leaves every other entry as it was. *)
Lemma saveResultsToFile_other (E : Env) (C : Clock) (implementationId key : string)
    (result : DetailedHolderResult) (w : World) (implementationId' key' : string) :
  (implementationId', key') <> (implementationId, key) ->
  Store.getPreviousResults
    (Store.saveResultsToFile E C implementationId key result w)
    !! implementationId'
  ≫= (fun forImplementation => forImplementation !! key')
  = Store.getPreviousResults w !! implementationId'
    ≫= (fun forImplementation => forImplementation !! key').
Proof.
  intros Hother. unfold Store.saveResultsToFile, Store.getPreviousResults.
  destruct (resultsFile w) as [| | results] eqn:Hfile;
    [| rewrite Hfile; reflexivity |];
    (destruct (fs_write_results E); [| rewrite Hfile; reflexivity]); simpl;
    (destruct (decide (implementationId = implementationId')) as [<- | Himpl];
     [| rewrite lookup_insert_ne by exact Himpl; reflexivity]);
    rewrite lookup_insert_eq; simpl;
    (rewrite lookup_insert_ne by (intros ->; apply Hother; reflexivity)).
  - rewrite lookup_empty. reflexivity.
  - destruct (results !! implementationId); reflexivity.
Qed.

Lemma saveResultsToFile_cached (E : Env) (C : Clock) (timestamp : Z)
    (result : DetailedHolderResult) (w : World) :
  resultsFile w <> FileCorrupt ->
  fs_write_results E = true ->
  Store.cachedResultFor timestamp
    (Store.saveResultsToFile E C "optimizedSolution"
       (Store.numberToString timestamp) result w)
  = Some (Store.resultToSave C "optimizedSolution" result).
Proof.
  intros Hfile Hwrite.
  pose proof (saveResultsToFile_lookup E C "optimizedSolution"
                (Store.numberToString timestamp) result w Hfile Hwrite) as H.
  unfold Store.cachedResultFor.
  destruct (Store.getPreviousResults _ !! "optimizedSolution"%string); exact H.
Qed.

End StoreFacts.

Lemma saved_total_reads_back (C : Clock) (implementationId : string)
    (result : DetailedHolderResult) :
  BigNumber.from
    (Store.orString
       (default "" (rd_totalWei (Store.resultToSave C implementationId result))) "0")
  = Some (r_totalWei result).
Proof.
  unfold Store.resultToSave. simpl.
  rewrite (orString_nonempty _ _ (BigNumber_toString_nonempty _)).
  apply BigNumber_round_trip.
Qed.



(** *** The pipeline *)

(** The shape of a fresh computation: either the three stages delivered
    and the result is the success object, saved; or the catch block built
    the error object and nothing was saved. *)
Lemma computeFresh_cases (fuel : nat) (E : Env) (C : Clock) (timestamp : Z) (w : World)
    (result : DetailedHolderResult) (w' : World) :
  Orchestrator.computeFresh fuel E C timestamp w = Some (result, w') ->
  (exists bn w1 holders w2 balances w3 metrics,
     Resolver.getBlockNumberAtTimestamp E timestamp w = (Returns bn, w1) /\
     Holders.getBAYCHoldersAtBlock fuel E bn w1 = Some (Returns holders, w2) /\
     holders <> [] /\
     Balances.getEthBalancesgraph E holders bn w2 = (Returns balances, w3) /\
     result = Orchestrator.successResult bn holders
                (Orchestrator.sumBalances balances) metrics /\
     w' = Store.saveResultsToFile E C "optimizedSolution"
            (Store.numberToString timestamp) result w3 /\
     resultsFile w3 = resultsFile w) \/
  (exists message metrics,
     partialMetrics C metrics /\
     result = Orchestrator.errorResult C message metrics /\
     resultsFile w' = resultsFile w).
Proof.
  unfold Orchestrator.computeFresh.
  destruct (Resolver.getBlockNumberAtTimestamp E timestamp w) as [[bn | msg] w1] eqn:Hblock.
  2:{ intros [= <- <-]. right. eexists. eexists.
      split; [| split; [reflexivity |
                        exact (getBlockNumberAtTimestamp_resultsFile _ _ _ _ _ Hblock)]].
      unfold partialMetrics. simpl. tauto. }
  pose proof (getBlockNumberAtTimestamp_resultsFile _ _ _ _ _ Hblock) as Hf1.
  destruct (Holders.getBAYCHoldersAtBlock fuel E bn w1)
    as [[[holders | msg] w2] |] eqn:Hholders; [| | discriminate].
  2:{ intros [= <- <-]. right. eexists. eexists.
      split; [| split; [reflexivity |]].
      - unfold partialMetrics. simpl. tauto.
      - rewrite (getBAYCHoldersAtBlock_resultsFile _ _ _ _ _ _ Hholders). exact Hf1. }
  pose proof (getBAYCHoldersAtBlock_resultsFile _ _ _ _ _ _ Hholders) as Hf2.
  destruct holders as [| h hs].
  { intros [= <- <-]. right. eexists. eexists.
    split; [| split; [reflexivity | congruence]].
    unfold partialMetrics. simpl. tauto. }
  destruct (Balances.getEthBalancesgraph E (h :: hs) bn w2)
    as [[balances | msg] w3] eqn:Hbalances.
  - intros [= <- <-]. left.
    exists bn, w1, (h :: hs), w2, balances, w3. eexists.
    split; [reflexivity |]. split; [exact Hholders |]. split; [discriminate |].
    split; [exact Hbalances |]. split; [reflexivity |]. split; [reflexivity |].
    rewrite (getEthBalancesgraph_resultsFile _ _ _ _ _ _ Hbalances). congruence.
  - intros [= <- <-]. right. eexists. eexists.
    split; [| split; [reflexivity |]].
    + unfold partialMetrics. simpl. tauto.
    + rewrite (getEthBalancesgraph_resultsFile _ _ _ _ _ _ Hbalances). congruence.
Qed.

(** C1.  The reduction over the balances array is the exact integer sum:
    big numbers are unbounded integers, so nothing is rounded, also past
    2^53.  The total of a successful fresh run is that sum over the array
    [getEthBalancesgraph] returned for the holders at the resolved
    block. *)
Theorem C1_total_is_exact_sum
    (fuel : nat) (E : Env) (C : Clock) (timestamp : Z) (w : World)
    (result : DetailedHolderResult) (w' : World) :
  (forall balances,
     Orchestrator.sumBalances balances = fold_right Z.add 0 balances) /\
  Orchestrator.sumBalances [2 ^ 53; 1] = 9007199254740993 /\
  (Store.cachedResultFor timestamp w = None ->
   Orchestrator.getTotalEthValueOfHolders fuel E C timestamp w = Some (result, w') ->
   r_error result = None ->
   exists bn w1 holders w2 balances w3,
     Resolver.getBlockNumberAtTimestamp E timestamp w = (Returns bn, w1) /\
     Holders.getBAYCHoldersAtBlock fuel E bn w1 = Some (Returns holders, w2) /\
     Balances.getEthBalancesgraph E holders bn w2 = (Returns balances, w3) /\
     r_blockNumber result = bn /\
     r_holderCount result = Z.of_nat (length holders) /\
     r_totalWei result = fold_right Z.add 0 balances).
Proof.
  split; [apply sumBalances_exact |]. split; [reflexivity |].
  intros Hmiss Hrun Hok. unfold Orchestrator.getTotalEthValueOfHolders in Hrun.
  rewrite Hmiss in Hrun.
  destruct (computeFresh_cases _ _ _ _ _ _ _ Hrun)
    as [(bn & w1 & holders & w2 & balances & w3 & metrics
         & Hblock & Hholders & _ & Hbalances & -> & _ & _)
       | (message & metrics & _ & -> & _)].
  - exists bn, w1, holders, w2, balances, w3.
    split; [exact Hblock |]. split; [exact Hholders |]. split; [exact Hbalances |].
    split; [reflexivity |]. split; [reflexivity |]. apply sumBalances_exact.
  - discriminate Hok.
Qed.

Lemma C1_total_is_exact_sum_witness :
  exists result w',
    Orchestrator.getTotalEthValueOfHolders 1 (demoEnv false false) demoClock
      1651363200 initialWorld = Some (result, w') /\
    r_totalWei result = 15000000000000000000 /\
    exists balances, r_totalWei result = fold_right Z.add 0 balances.
Proof.
  destruct (Orchestrator.getTotalEthValueOfHolders 1 (demoEnv false false) demoClock
              1651363200 initialWorld) as [[result w'] |] eqn:Hrun;
    [| vm_compute in Hrun; discriminate Hrun].
  assert (option_map (fun p => (r_error (fst p), r_totalWei (fst p)))
            (Orchestrator.getTotalEthValueOfHolders 1 (demoEnv false false) demoClock
               1651363200 initialWorld)
          = Some (None, 15000000000000000000)) as Hfields
    by (vm_compute; reflexivity).
  rewrite Hrun in Hfields. simpl in Hfields. injection Hfields as Herr Htotal.
  exists result, w'. split; [reflexivity |]. split; [exact Htotal |].
  destruct (C1_total_is_exact_sum 1 (demoEnv false false) demoClock 1651363200
              initialWorld result w') as (_ & _ & Hsum).
  destruct (Hsum eq_refl Hrun Herr)
    as (bn & w1 & holders & w2 & balances & w3 & _ & _ & _ & _ & _ & Hexact).
  exists balances. exact Hexact.
Defined.




(* ================================================================== *)
(** * Part IV: further properties of the modules *)
(* ================================================================== *)

(** ** Objects keyed by integers *)

Section ObjFacts.
Context {V : Type}.

Lemma obj_get_set_eq (k : Z) (v : V) (o : list (Z * V)) :
  obj_get k (obj_set k v o) = Some v.
Proof.
  induction o as [| [k' v'] o IH]; simpl.
  - rewrite Z.eqb_refl. reflexivity.
  - destruct (Z.ltb_spec k k'); simpl.
    + rewrite Z.eqb_refl. reflexivity.
    + destruct (Z.eqb_spec k k') as [-> | Hne]; simpl.
      * rewrite Z.eqb_refl. reflexivity.
      * destruct (Z.eqb_spec k k'); [contradiction | exact IH].
Qed.

Lemma obj_get_set_ne (k k' : Z) (v : V) (o : list (Z * V)) :
  k <> k' -> obj_get k' (obj_set k v o) = obj_get k' o.
Proof.
  intros Hne. induction o as [| [k0 v0] o IH]; simpl.
  - destruct (Z.eqb_spec k' k); [congruence | reflexivity].
  - destruct (Z.ltb_spec k k0); simpl.
    + destruct (Z.eqb_spec k' k); [congruence | reflexivity].
    + destruct (Z.eqb_spec k k0) as [-> | Hne0]; simpl.
      * destruct (Z.eqb_spec k' k0); [congruence | reflexivity].
      * destruct (Z.eqb_spec k' k0); [reflexivity | exact IH].
Qed.

Lemma obj_get_In (k : Z) (v : V) (o : list (Z * V)) :
  obj_get k o = Some v -> In (k, v) o.
Proof.
  induction o as [| [k' v'] o IH]; simpl; [discriminate |].
  destruct (Z.eqb_spec k k') as [-> | _].
  - intros [= ->]. left. reflexivity.
  - intros H. right. exact (IH H).
Qed.

Lemma obj_get_None (k : Z) (o : list (Z * V)) :
  obj_get k o = None <-> ~ In k (obj_keys o).
Proof.
  induction o as [| [k' v'] o IH]; simpl.
  - split; [intros _ [] | reflexivity].
  - destruct (Z.eqb_spec k k') as [-> | Hne].
    + split; [discriminate | intros H; exfalso; apply H; left; reflexivity].
    + rewrite IH. split.
      * intros H [Heq | Hin]; [congruence | exact (H Hin)].
      * intros H Hin. apply H. right. exact Hin.
Qed.

Lemma obj_get_Some_key (k : Z) (v : V) (o : list (Z * V)) :
  obj_get k o = Some v -> In k (obj_keys o).
Proof.
  intros H. apply obj_get_In in H.
  unfold obj_keys. apply (in_map fst) in H. exact H.
Qed.

Lemma obj_set_length (k : Z) (v : V) (o : list (Z * V)) :
  (length (obj_set k v o) <= S (length o))%nat.
Proof.
  induction o as [| [k' v'] o IH]; simpl; [lia |].
  destruct (k <? k'); simpl; [lia |].
  destruct (k =? k'); simpl; lia.
Qed.

Lemma obj_keys_set (k k' : Z) (v : V) (o : list (Z * V)) :
  In k' (obj_keys (obj_set k v o)) <-> k' = k \/ In k' (obj_keys o).
Proof.
  unfold obj_keys. induction o as [| [k0 v0] o IH]; simpl.
  - intuition congruence.
  - destruct (Z.ltb_spec k k0); simpl.
    + intuition congruence.
    + destruct (Z.eqb_spec k k0) as [-> | Hne]; simpl.
      * intuition congruence.
      * rewrite IH. intuition congruence.
Qed.

End ObjFacts.

(** ** The chain block resolver *)

Section ResolverFacts.
Import Resolver.

(** Whatever the node answers, the search stays inside the range it was
    given, and a block other than [high0] is returned only after the
    node reported for it a timestamp at or after the target. *)
Lemma searchLoop_sound (getBlock : Z -> block_reply) (t low0 high0 : Z) (fuel : nat) :
  forall low high result lastMid errors,
    low0 <= low -> high <= high0 ->
    (low0 <= result <= high0 /\
     (result = high0 \/ exists ts, getBlock result = BlockData ts /\ t <= ts)) ->
    low0 <= searchLoop getBlock t fuel low high result lastMid errors <= high0 /\
    (searchLoop getBlock t fuel low high result lastMid errors = high0 \/
     exists ts,
       getBlock (searchLoop getBlock t fuel low high result lastMid errors)
         = BlockData ts /\ t <= ts).
Proof.
  induction fuel as [| fuel IH]; intros low high result lastMid errors Hlow Hhigh Hres.
  - exact Hres.
  - simpl. destruct (Z.leb_spec low high) as [Hin | _]; [| exact Hres].
    assert (low <= (low + high) / 2 <= high) as Hmid by lia_div.
    destruct (Z.eqb_spec ((low + high) / 2) lastMid) as [_ | _]; [exact Hres |].
    destruct (getBlock ((low + high) / 2)) as [ts | | msg] eqn:Hblock.
    + destruct (Z.ltb_spec ts t) as [Hlt | Hge].
      * apply IH; [lia | lia | exact Hres].
      * apply IH; [lia | lia |].
        split; [lia |]. right. exists ts. split; [exact Hblock | exact Hge].
    + destruct errors as [| [| errors]]; try exact Hres;
        (apply IH; [lia | lia | exact Hres]).
    + destruct errors as [| [| errors]]; try exact Hres;
        (destruct (Z.eqb_spec ((low + high) / 2) low) as [_ | _];
         apply IH; try lia; exact Hres).
Qed.

Lemma cacheBlock_lookup (t b : Z) (w : World) :
  obj_get t (blockNumberCache (cacheBlock t b w)) = Some b.
Proof. unfold cacheBlock. simpl. apply obj_get_set_eq. Qed.

Lemma cacheBlock_other (t t' b : Z) (w : World) :
  t' <> t ->
  obj_get t' (blockNumberCache (cacheBlock t b w)) = obj_get t' (blockNumberCache w).
Proof.
  intros Hne. unfold cacheBlock. simpl. apply obj_get_set_ne. congruence.
Qed.

Lemma viaEtherscan_writes (E : Env) (t : Z) (w : World) (b : Z) (w' : World) :
  viaEtherscan E t w = Some (b, w') -> w' = cacheBlock t b w.
Proof.
  unfold viaEtherscan, binarySearchBlock.
  destruct (etherscan_getblocknobytime E t) as [| | n]; try discriminate.
  destruct (provider_getBlock E n) as [bt | | msg]; try discriminate.
  - destruct (Z.abs (bt - t) <? 120).
    + intros H. apply (inj Some) in H. congruence.
    + destruct (bt <? t); intros H; apply (inj Some) in H; congruence.
  - intros H. apply (inj Some) in H. congruence.
Qed.

(** What a call that returns did to the state: nothing, or one write of
    the returned block under the requested timestamp. *)
Lemma getBlockNumberAtTimestamp_writes (E : Env) (t : Z) (w : World) (b : Z) (w' : World) :
  getBlockNumberAtTimestamp E t w = (Returns b, w') ->
  (w' = w /\ obj_get t (blockNumberCache w) = Some b) \/ w' = cacheBlock t b w.
Proof.
  unfold getBlockNumberAtTimestamp.
  destruct (obj_get t (blockNumberCache w)) as [c |] eqn:Hexact.
  - destruct (Z.eqb_spec c 0) as [-> | Hc].
    + intros H. right. revert H.
      destruct (closestNearby t (blockNumberCache w)) as [[ct block] |].
      * destruct (Z.abs (t - ct) <? 30); [intros [= <- <-]; reflexivity |].
        destruct (viaEtherscan E t w) as [[n w1] |] eqn:Hvia.
        { intros [= <- <-]. exact (viaEtherscan_writes _ _ _ _ _ Hvia). }
        destruct (provider_getBlockNumber E) as [head | error].
        { unfold binarySearchBlock. intros H. congruence. }
        destruct (hasFallbackData t); [| discriminate].
        intros H. congruence.
      * destruct (viaEtherscan E t w) as [[n w1] |] eqn:Hvia.
        { intros [= <- <-]. exact (viaEtherscan_writes _ _ _ _ _ Hvia). }
        destruct (provider_getBlockNumber E) as [head | error].
        { unfold binarySearchBlock. intros H. congruence. }
        destruct (hasFallbackData t); [| discriminate].
        intros H. congruence.
    + intros [= <- <-]. left. split; reflexivity.
  - intros H. right. revert H.
    destruct (closestNearby t (blockNumberCache w)) as [[ct block] |].
    + destruct (Z.abs (t - ct) <? 30); [intros [= <- <-]; reflexivity |].
      destruct (viaEtherscan E t w) as [[n w1] |] eqn:Hvia.
      { intros [= <- <-]. exact (viaEtherscan_writes _ _ _ _ _ Hvia). }
      destruct (provider_getBlockNumber E) as [head | error].
      { unfold binarySearchBlock. intros H. congruence. }
      destruct (hasFallbackData t); [| discriminate].
      intros H. congruence.
    + destruct (viaEtherscan E t w) as [[n w1] |] eqn:Hvia.
      { intros [= <- <-]. exact (viaEtherscan_writes _ _ _ _ _ Hvia). }
      destruct (provider_getBlockNumber E) as [head | error].
      { unfold binarySearchBlock. intros H. congruence. }
      destruct (hasFallbackData t); [| discriminate].
      intros H. congruence.
Qed.

End ResolverFacts.

Section ResolverCacheFacts.
Import Resolver.

Lemma closer_fold_min (t : Z) (es : list (Z * Z)) :
  forall e,
    (fold_left (closer t) es e = e \/ In (fold_left (closer t) es e) es) /\
    Z.abs (fst (fold_left (closer t) es e) - t) <= Z.abs (fst e - t) /\
    forall e', In e' es ->
      Z.abs (fst (fold_left (closer t) es e) - t) <= Z.abs (fst e' - t).
Proof.
  induction es as [| x es IH]; intros e; simpl.
  - split; [left; reflexivity |]. split; [lia | intros e' []].
  - destruct (IH (closer t e x)) as (Hin & Hle & Hmin).
    assert (Z.abs (fst (closer t e x) - t) <= Z.abs (fst e - t) /\
            Z.abs (fst (closer t e x) - t) <= Z.abs (fst x - t) /\
            (closer t e x = e \/ closer t e x = x)) as (He & Hx & Hc).
    { unfold closer.
      destruct (Z.ltb_spec (Z.abs (fst x - t)) (Z.abs (fst e - t)));
        (split; [lia |]; split; [lia |]); [right | left]; reflexivity. }
    split; [| split].
    + destruct Hin as [Heq | Hin]; [| right; right; exact Hin].
      rewrite Heq. destruct Hc as [-> | ->]; [left | right; left]; reflexivity.
    + lia.
    + intros e' [<- | Hin']; [lia | exact (Hmin e' Hin')].
Qed.

(** [closestNearby] returns a cached entry less than 600 s away that no
    other cached entry beats. *)
Lemma closestNearby_nearest (t : Z) (cache : list (Z * Z)) (e : Z * Z) :
  closestNearby t cache = Some e ->
  In e cache /\ Z.abs (fst e - t) < 600 /\
  forall e', In e' cache -> Z.abs (fst e - t) <= Z.abs (fst e' - t).
Proof.
  unfold closestNearby.
  destruct (List.filter (fun e => Z.abs (fst e - t) <? 600) cache) as [| e0 es] eqn:Hf;
    [discriminate |].
  intros [= <-].
  destruct (closer_fold_min t es e0) as (Hin & Hle & Hmin).
  assert (In (fold_left (closer t) es e0) (e0 :: es)) as Hin'.
  { destruct Hin as [-> | Hin]; [left; reflexivity | right; exact Hin]. }
  rewrite <- Hf in Hin'. apply filter_In in Hin'. destruct Hin' as [Hcache Hnear].
  apply Z.ltb_lt in Hnear.
  split; [exact Hcache |]. split; [exact Hnear |].
  intros e' He'.
  destruct (Z.ltb_spec (Z.abs (fst e' - t)) 600) as [Hlt | Hge]; [| lia].
  assert (In e' (e0 :: es)) as [<- | Hes].
  { rewrite <- Hf. apply filter_In. split; [exact He' |]. apply Z.ltb_lt. exact Hlt. }
  - exact Hle.
  - exact (Hmin e' Hes).
Qed.

Lemma closestNearby_None (t : Z) (cache : list (Z * Z)) :
  closestNearby t cache = None ->
  forall e, In e cache -> 600 <= Z.abs (fst e - t).
Proof.
  unfold closestNearby.
  destruct (List.filter (fun e => Z.abs (fst e - t) <? 600) cache) as [| e0 es] eqn:Hf;
    [| discriminate].
  intros _ e He.
  destruct (Z.ltb_spec (Z.abs (fst e - t)) 600) as [Hlt | Hge]; [| exact Hge].
  exfalso.
  assert (In e []) as [].
  rewrite <- Hf. apply filter_In. split; [exact He |]. apply Z.ltb_lt. exact Hlt.
Qed.

Lemma closer_fold_stays (t : Z) (es : list (Z * Z)) :
  forall e, fst e = t -> fold_left (closer t) es e = e.
Proof.
  induction es as [| x es IH]; intros e He; simpl; [reflexivity |].
  unfold closer at 2. rewrite He.
  destruct (Z.ltb_spec (Z.abs (fst x - t)) (Z.abs (t - t))) as [Hlt | _]; [lia |].
  apply IH. exact He.
Qed.

Lemma closer_fold_exact (t v : Z) (es : list (Z * Z)) :
  forall e, obj_get t (e :: es) = Some v -> fold_left (closer t) es e = (t, v).
Proof.
  induction es as [| x es IH]; intros [k0 v0]; simpl.
  - destruct (Z.eqb_spec t k0) as [-> | _]; [| discriminate].
    intros [= ->]. reflexivity.
  - destruct (Z.eqb_spec t k0) as [-> | Hne0].
    + intros [= ->].
      rewrite (closer_fold_stays k0 es (closer k0 (k0, v) x)).
      * unfold closer. simpl.
        destruct (Z.ltb_spec (Z.abs (fst x - k0)) (Z.abs (k0 - k0))); [lia | reflexivity].
      * unfold closer. simpl.
        destruct (Z.ltb_spec (Z.abs (fst x - k0)) (Z.abs (k0 - k0))); [lia | reflexivity].
    + destruct x as [k1 v1]. intros Hget. apply IH.
      unfold closer. simpl fst.
      destruct (Z.eqb_spec t k1) as [-> | Hne1].
      * destruct (Z.ltb_spec (Z.abs (k1 - k1)) (Z.abs (k0 - k1))) as [_ | Hge]; [| lia].
        simpl. rewrite Z.eqb_refl. exact Hget.
      * destruct (Z.abs (k1 - t) <? Z.abs (k0 - t)); simpl.
        -- destruct (Z.eqb_spec t k1); [contradiction | exact Hget].
        -- destruct (Z.eqb_spec t k0); [contradiction | exact Hget].
Qed.

Lemma obj_get_nearby (t : Z) (cache : list (Z * Z)) :
  obj_get t (List.filter (fun e => Z.abs (fst e - t) <? 600) cache) = obj_get t cache.
Proof.
  induction cache as [| [k v] cache IH]; simpl; [reflexivity |].
  destruct (Z.ltb_spec (Z.abs (k - t)) 600) as [Hlt | Hge]; simpl.
  - rewrite IH. reflexivity.
  - destruct (Z.eqb_spec t k) as [-> | _]; [lia | exact IH].
Qed.

(** An entry stored under the requested timestamp is the nearest one. *)
Lemma closestNearby_exact (t v : Z) (cache : list (Z * Z)) :
  obj_get t cache = Some v -> closestNearby t cache = Some (t, v).
Proof.
  intros Hget. rewrite <- obj_get_nearby in Hget. unfold closestNearby.
  destruct (List.filter (fun e => Z.abs (fst e - t) <? 600) cache) as [| e es];
    [discriminate |].
  rewrite (closer_fold_exact t v es e Hget). reflexivity.
Qed.

(** An entry of the block cache answers for its timestamp, whatever the
    upstreams would say, also when the block stored is 0. *)
Lemma cached_block_served (E : Env) (t v : Z) (w : World) :
  obj_get t (blockNumberCache w) = Some v ->
  fst (getBlockNumberAtTimestamp E t w) = Returns v.
Proof.
  intros Hget. unfold getBlockNumberAtTimestamp. rewrite Hget.
  destruct (Z.eqb_spec v 0) as [-> | _]; [| reflexivity].
  rewrite (closestNearby_exact t 0 _ Hget).
  replace (t - t) with 0 by lia. reflexivity.
Qed.

Lemma hasFallbackData_spec (t : Z) :
  hasFallbackData t = true <->
  exists k b, In (k, b) FALLBACK_blocks /\ Z.abs (k - t) < 86400.
Proof.
  unfold hasFallbackData. split.
  - destruct (obj_get t FALLBACK_blocks) as [b |] eqn:Hget.
    + intros _. exists t, b. split; [exact (obj_get_In _ _ _ Hget) | lia].
    + intros H. apply existsb_exists in H. destruct H as (k & Hk & Hnear).
      unfold obj_keys in Hk. apply in_map_iff in Hk.
      destruct Hk as ([k' b] & <- & Hin).
      exists k', b. split; [exact Hin |]. apply Z.ltb_lt. exact Hnear.
  - intros (k & b & Hin & Hnear).
    destruct (obj_get t FALLBACK_blocks); [reflexivity |].
    apply existsb_exists. exists k. split.
    + unfold obj_keys. apply in_map_iff. exists (k, b). split; [reflexivity | exact Hin].
    + apply Z.ltb_lt. exact Hnear.
Qed.

Lemma closestKey_min (t : Z) (rest : list Z) :
  forall closest,
    (closestKey t rest closest (Z.abs (closest - t)) = closest \/
     In (closestKey t rest closest (Z.abs (closest - t))) rest) /\
    Z.abs (closestKey t rest closest (Z.abs (closest - t)) - t) <= Z.abs (closest - t) /\
    forall k, In k rest ->
      Z.abs (closestKey t rest closest (Z.abs (closest - t)) - t) <= Z.abs (k - t).
Proof.
  induction rest as [| x rest IH]; intros closest; simpl.
  - split; [left; reflexivity |]. split; [lia | intros k []].
  - destruct (Z.ltb_spec (Z.abs (x - t)) (Z.abs (closest - t))) as [Hlt | Hge].
    + destruct (IH x) as (Hin & Hle & Hmin).
      split; [| split].
      * right. destruct Hin as [-> | Hin]; [left; reflexivity | right; exact Hin].
      * lia.
      * intros k [<- | Hk]; [exact Hle | exact (Hmin k Hk)].
    + destruct (IH closest) as (Hin & Hle & Hmin).
      split; [| split].
      * destruct Hin as [-> | Hin]; [left; reflexivity | right; right; exact Hin].
      * exact Hle.
      * intros k [<- | Hk]; [lia | exact (Hmin k Hk)].
Qed.

(** [getFallbackBlockNumber] returns the block the table gives for a
    timestamp of the table that no other one is nearer than. *)
Lemma getFallbackBlockNumber_nearest (t : Z) :
  exists k, In (k, getFallbackBlockNumber t) FALLBACK_blocks /\
            forall k' b', In (k', b') FALLBACK_blocks -> Z.abs (k - t) <= Z.abs (k' - t).
Proof.
  unfold getFallbackBlockNumber.
  destruct (obj_get t FALLBACK_blocks) as [b |] eqn:Hget.
  - exists t. split; [exact (obj_get_In _ _ _ Hget) | intros; lia].
  - change (obj_keys FALLBACK_blocks)
      with (1546300800 :: [1577836800; 1609459200; 1651363200]).
    destruct (closestKey_min t [1577836800; 1609459200; 1651363200] 1546300800)
      as (Hin & Hle & Hmin).
    set (k := closestKey t [1577836800; 1609459200; 1651363200] 1546300800
                (Z.abs (1546300800 - t))) in *.
    assert (In k (obj_keys FALLBACK_blocks)) as Hkey.
    { change (obj_keys FALLBACK_blocks)
        with (1546300800 :: [1577836800; 1609459200; 1651363200]).
      destruct Hin as [-> | Hin]; [left; reflexivity | right; exact Hin]. }
    destruct (obj_get k FALLBACK_blocks) as [b |] eqn:Hk.
    + exists k. split; [exact (obj_get_In _ _ _ Hk) |].
      intros k' b' Hin'. apply (in_map fst) in Hin'.
      change (map fst FALLBACK_blocks)
        with (1546300800 :: [1577836800; 1609459200; 1651363200]) in Hin'.
      cbn [fst] in Hin'.
      destruct Hin' as [<- | Hin']; [exact Hle | exact (Hmin k' Hin')].
    + exfalso. apply obj_get_None in Hk. exact (Hk Hkey).
Qed.

End ResolverCacheFacts.

Section ResolverPaths.
Import Resolver.

Lemma viaEtherscan_None (E : Env) (t : Z) (w : World) :
  viaEtherscan E t w = None <->
  forall n, etherscan_getblocknobytime E t = NoByTimeOk n ->
            exists msg, provider_getBlock E n = BlockError msg.
Proof.
  unfold viaEtherscan. split.
  - destruct (etherscan_getblocknobytime E t) as [| | n]; try discriminate.
    intros H n' [= <-]. revert H.
    destruct (provider_getBlock E n) as [bt | | msg]; try discriminate.
    + destruct (Z.abs (bt - t) <? 120); [discriminate |].
      destruct (bt <? t); discriminate.
    + intros _. exists msg. reflexivity.
  - intros H. destruct (etherscan_getblocknobytime E t) as [| | n]; try reflexivity.
    destruct (H n eq_refl) as [msg ->]. reflexivity.
Qed.

(** With no cached timestamp less than 30 s away the cache is not used. *)
Lemma getBlockNumberAtTimestamp_far (E : Env) (t : Z) (w : World) :
  (forall e, In e (blockNumberCache w) -> 30 <= Z.abs (fst e - t)) ->
  getBlockNumberAtTimestamp E t w =
  match viaEtherscan E t w with
  | Some (blockNumber, w') => (Returns blockNumber, w')
  | None =>
      match provider_getBlockNumber E with
      | Returns currentBlock =>
          (Returns (searchResult (provider_getBlock E) t 0 currentBlock),
           cacheBlock t (searchResult (provider_getBlock E) t 0 currentBlock) w)
      | Throws error =>
          if hasFallbackData t
          then (Returns (getFallbackBlockNumber t),
                cacheBlock t (getFallbackBlockNumber t) w)
          else (Throws error, w)
      end
  end.
Proof.
  intros Hfar. unfold getBlockNumberAtTimestamp, binarySearchBlock.
  destruct (obj_get t (blockNumberCache w)) as [c |] eqn:Hexact.
  { apply obj_get_In in Hexact. apply Hfar in Hexact. simpl in Hexact. lia. }
  destruct (closestNearby t (blockNumberCache w)) as [[ct block] |] eqn:Hnear;
    [| reflexivity].
  apply closestNearby_nearest in Hnear. destruct Hnear as (Hin & _ & _).
  apply Hfar in Hin. simpl in Hin.
  destruct (Z.ltb_spec (Z.abs (t - ct)) 30) as [Hlt | _]; [lia | reflexivity].
Qed.

Lemma getBlockNumberAtTimestamp_throws (E : Env) (t : Z) (w : World)
    (msg : string) (w' : World) :
  getBlockNumberAtTimestamp E t w = (Throws msg, w') ->
  w' = w /\ viaEtherscan E t w = None /\ provider_getBlockNumber E = Throws msg /\
  hasFallbackData t = false /\
  (forall c, obj_get t (blockNumberCache w) = Some c -> c = 0).
Proof.
  unfold getBlockNumberAtTimestamp, binarySearchBlock.
  assert (forall o : outcome Z * World,
            o = match viaEtherscan E t w with
                | Some (blockNumber, w1) => (Returns blockNumber, w1)
                | None =>
                    match provider_getBlockNumber E with
                    | Returns currentBlock =>
                        (Returns (searchResult (provider_getBlock E) t 0 currentBlock),
                         cacheBlock t
                           (searchResult (provider_getBlock E) t 0 currentBlock) w)
                    | Throws error =>
                        if hasFallbackData t
                        then (Returns (getFallbackBlockNumber t),
                              cacheBlock t (getFallbackBlockNumber t) w)
                        else (Throws error, w)
                    end
                end ->
            o = (Throws msg, w') ->
            w' = w /\ viaEtherscan E t w = None /\
            provider_getBlockNumber E = Throws msg /\ hasFallbackData t = false)
    as Hlast.
  { intros o ->.
    destruct (viaEtherscan E t w) as [[n w1] |]; [discriminate |].
    destruct (provider_getBlockNumber E) as [head | error]; [discriminate |].
    destruct (hasFallbackData t); [discriminate |].
    intros [= -> ->]. repeat split; reflexivity. }
  destruct (obj_get t (blockNumberCache w)) as [c |] eqn:Hexact.
  - destruct (Z.eqb_spec c 0) as [-> | Hc]; [| discriminate].
    destruct (closestNearby t (blockNumberCache w)) as [[ct block] |].
    + destruct (Z.abs (t - ct) <? 30); [discriminate |].
      intros H. destruct (Hlast _ eq_refl H) as (H1 & H2 & H3 & H4).
      repeat split; try assumption. intros c [= <-]. reflexivity.
    + intros H. destruct (Hlast _ eq_refl H) as (H1 & H2 & H3 & H4).
      repeat split; try assumption. intros c [= <-]. reflexivity.
  - destruct (closestNearby t (blockNumberCache w)) as [[ct block] |].
    + destruct (Z.abs (t - ct) <? 30); [discriminate |].
      intros H. destruct (Hlast _ eq_refl H) as (H1 & H2 & H3 & H4).
      repeat split; try assumption. intros c; discriminate.
    + intros H. destruct (Hlast _ eq_refl H) as (H1 & H2 & H3 & H4).
      repeat split; try assumption. intros c; discriminate.
Qed.

End ResolverPaths.

(** X1.  [binarySearchBlock] on a range [low <= high], whatever the node
    answers (blocks, nulls or errors, in any order): the block it returns
    lies in [low..high]; unless it is [high], the node has reported for
    it a timestamp at or after the target; and it is stored in the block
    cache under the target timestamp. *)
Theorem binarySearchBlock_stays_in_range (E : Env) (low high t : Z) (w : World) :
  low <= high ->
  low <= fst (Resolver.binarySearchBlock E low high t w) <= high /\
  (fst (Resolver.binarySearchBlock E low high t w) = high \/
   exists ts,
     provider_getBlock E (fst (Resolver.binarySearchBlock E low high t w))
       = BlockData ts /\ t <= ts) /\
  obj_get t (blockNumberCache (snd (Resolver.binarySearchBlock E low high t w)))
    = Some (fst (Resolver.binarySearchBlock E low high t w)).
Proof.
  intros Hrange. unfold Resolver.binarySearchBlock. cbn [fst snd].
  unfold Resolver.searchResult.
  destruct (searchLoop_sound (provider_getBlock E) t low high 20 low high high 0 0)
    as [Hin Hfound]; [lia | lia | split; [lia | left; reflexivity] |].
  split; [exact Hin |]. split; [exact Hfound |].
  apply cacheBlock_lookup.
Qed.

Lemma binarySearchBlock_stays_in_range_witness :
  0 <= fst (Resolver.binarySearchBlock allDown 0 10 15 initialWorld) <= 10 /\
  (fst (Resolver.binarySearchBlock allDown 0 10 15 initialWorld) = 10 \/
   exists ts,
     provider_getBlock allDown (fst (Resolver.binarySearchBlock allDown 0 10 15 initialWorld))
       = BlockData ts /\ 15 <= ts) /\
  obj_get 15 (blockNumberCache (snd (Resolver.binarySearchBlock allDown 0 10 15 initialWorld)))
    = Some (fst (Resolver.binarySearchBlock allDown 0 10 15 initialWorld)).
Proof.
  apply (binarySearchBlock_stays_in_range allDown 0 10 15 initialWorld). lia.
Defined.

(** X2.  A call of [getBlockNumberAtTimestamp] that returns a block
    leaves that block in the block cache under the requested timestamp,
    leaves the entry of every other timestamp as it was, and touches no
    other module variable. *)
Theorem resolver_caches_its_result (E : Env) (t : Z) (w : World) (b : Z) (w' : World) :
  Resolver.getBlockNumberAtTimestamp E t w = (Returns b, w') ->
  obj_get t (blockNumberCache w') = Some b /\
  (forall t', t' <> t ->
     obj_get t' (blockNumberCache w') = obj_get t' (blockNumberCache w)) /\
  holdersCache w' = holdersCache w /\
  optimalGraphQLBatchSize w' = optimalGraphQLBatchSize w /\
  graphContract w' = graphContract w /\
  resultsFile w' = resultsFile w.
Proof.
  intros Hrun. apply getBlockNumberAtTimestamp_writes in Hrun.
  destruct Hrun as [[-> Hget] | ->].
  - split; [exact Hget |]. repeat split; reflexivity.
  - split; [apply cacheBlock_lookup |].
    split; [intros t' Hne; apply cacheBlock_other; exact Hne |].
    repeat split; reflexivity.
Qed.

Lemma resolver_caches_its_result_witness :
  obj_get 15 (blockNumberCache (Resolver.cacheBlock 15 2 initialWorld)) = Some 2 /\
  (forall t', t' <> 15 ->
     obj_get t' (blockNumberCache (Resolver.cacheBlock 15 2 initialWorld))
       = obj_get t' (blockNumberCache initialWorld)) /\
  holdersCache (Resolver.cacheBlock 15 2 initialWorld) = holdersCache initialWorld /\
  optimalGraphQLBatchSize (Resolver.cacheBlock 15 2 initialWorld)
    = optimalGraphQLBatchSize initialWorld /\
  graphContract (Resolver.cacheBlock 15 2 initialWorld) = graphContract initialWorld /\
  resultsFile (Resolver.cacheBlock 15 2 initialWorld) = resultsFile initialWorld.
Proof.
  apply (resolver_caches_its_result tenSecondChain 15 initialWorld 2).
  vm_compute. reflexivity.
Defined.

(** X3.  Resolver idempotence.  After a call that returned block [b] for
    a timestamp, every later call for that timestamp returns [b] again,
    whatever Etherscan and the node would answer by then; when [b] is not
    0 the later call changes nothing. *)
Theorem resolver_idempotent (E : Env) (t : Z) (w : World) (b : Z) (w' : World) :
  Resolver.getBlockNumberAtTimestamp E t w = (Returns b, w') ->
  forall E',
    fst (Resolver.getBlockNumberAtTimestamp E' t w') = Returns b /\
    (b <> 0 -> snd (Resolver.getBlockNumberAtTimestamp E' t w') = w').
Proof.
  intros Hrun E'.
  assert (obj_get t (blockNumberCache w') = Some b) as Hget.
  { apply getBlockNumberAtTimestamp_writes in Hrun.
    destruct Hrun as [[-> Hget] | ->]; [exact Hget | apply cacheBlock_lookup]. }
  split; [apply cached_block_served; exact Hget |].
  intros Hb. unfold Resolver.getBlockNumberAtTimestamp. rewrite Hget.
  destruct (Z.eqb_spec b 0); [contradiction | reflexivity].
Qed.

Lemma resolver_idempotent_witness :
  fst (Resolver.getBlockNumberAtTimestamp allDown 15 (Resolver.cacheBlock 15 2 initialWorld))
    = Returns 2 /\
  (2 <> 0 ->
   snd (Resolver.getBlockNumberAtTimestamp allDown 15 (Resolver.cacheBlock 15 2 initialWorld))
     = Resolver.cacheBlock 15 2 initialWorld).
Proof.
  apply (resolver_idempotent tenSecondChain 15 initialWorld 2).
  vm_compute. reflexivity.
Defined.

(** X4.  Nearby reuse.  When the block cache has no entry for the
    requested timestamp but has one less than 30 s away, the resolver
    asks nobody: it returns the block of a cached timestamp that no other
    cached timestamp is nearer than, and stores it under the requested
    timestamp as well. *)
Theorem resolver_reuses_nearest_cached (E : Env) (t : Z) (w : World) (e : Z * Z) :
  obj_get t (blockNumberCache w) = None ->
  In e (blockNumberCache w) ->
  Z.abs (fst e - t) < 30 ->
  exists e0,
    In e0 (blockNumberCache w) /\
    (forall e', In e' (blockNumberCache w) -> Z.abs (fst e0 - t) <= Z.abs (fst e' - t)) /\
    Resolver.getBlockNumberAtTimestamp E t w
      = (Returns (snd e0), Resolver.cacheBlock t (snd e0) w).
Proof.
  intros Hnone He Hnear.
  destruct (Resolver.closestNearby t (blockNumberCache w)) as [[ct block] |] eqn:Hclosest.
  - destruct (closestNearby_nearest _ _ _ Hclosest) as (Hin & _ & Hmin).
    exists (ct, block). split; [exact Hin |]. split; [exact Hmin |].
    unfold Resolver.getBlockNumberAtTimestamp. rewrite Hnone, Hclosest.
    specialize (Hmin e He). simpl in Hmin.
    destruct (Z.ltb_spec (Z.abs (t - ct)) 30) as [_ | Hge]; [reflexivity | lia].
  - pose proof (closestNearby_None _ _ Hclosest e He). lia.
Qed.

Lemma resolver_reuses_nearest_cached_witness :
  exists e0,
    In e0 [(100, 7); (140, 9)] /\
    (forall e', In e' [(100, 7); (140, 9)] ->
       Z.abs (fst e0 - 110) <= Z.abs (fst e' - 110)) /\
    Resolver.getBlockNumberAtTimestamp allDown 110
        (set_blockNumberCache [(100, 7); (140, 9)] initialWorld)
      = (Returns (snd e0),
         Resolver.cacheBlock 110 (snd e0)
           (set_blockNumberCache [(100, 7); (140, 9)] initialWorld)).
Proof.
  apply (resolver_reuses_nearest_cached allDown 110
           (set_blockNumberCache [(100, 7); (140, 9)] initialWorld) (100, 7)).
  - reflexivity.
  - simpl. left. reflexivity.
  - simpl. lia.
Defined.

(** X5.  The demo table as last resort.  With no cached timestamp less
    than 30 s away, no usable answer from Etherscan and a node that
    rejects [getBlockNumber]: when some timestamp of the demo table is
    less than a day from the requested one, the resolver returns (and
    caches) the table's block for a table timestamp that no other one is
    nearer than; otherwise it raises the node's error and changes
    nothing. *)
Theorem resolver_fallback_table (E : Env) (t : Z) (w : World) (msg : string) :
  (forall e, In e (blockNumberCache w) -> 30 <= Z.abs (fst e - t)) ->
  (forall n, etherscan_getblocknobytime E t = NoByTimeOk n ->
             exists m, provider_getBlock E n = BlockError m) ->
  provider_getBlockNumber E = Throws msg ->
  (exists k b,
     In (k, b) Resolver.FALLBACK_blocks /\ Z.abs (k - t) < 86400 /\
     (forall k' b', In (k', b') Resolver.FALLBACK_blocks ->
        Z.abs (k - t) <= Z.abs (k' - t)) /\
     Resolver.getBlockNumberAtTimestamp E t w
       = (Returns b, Resolver.cacheBlock t b w)) \/
  ((forall k b, In (k, b) Resolver.FALLBACK_blocks -> 86400 <= Z.abs (k - t)) /\
   Resolver.getBlockNumberAtTimestamp E t w = (Throws msg, w)).
Proof.
  intros Hfar Hscan Hhead.
  rewrite (getBlockNumberAtTimestamp_far E t w Hfar).
  rewrite (proj2 (viaEtherscan_None E t w) Hscan), Hhead.
  destruct (Resolver.hasFallbackData t) eqn:Hdata.
  - left. apply hasFallbackData_spec in Hdata.
    destruct Hdata as (k1 & b1 & Hin1 & Hnear1).
    destruct (getFallbackBlockNumber_nearest t) as (k & Hin & Hmin).
    exists k, (Resolver.getFallbackBlockNumber t).
    split; [exact Hin |]. split; [specialize (Hmin k1 b1 Hin1); lia |].
    split; [exact Hmin | reflexivity].
  - right. split; [| reflexivity].
    intros k b Hin.
    destruct (Z.ltb_spec (Z.abs (k - t)) 86400) as [Hlt | Hge]; [| exact Hge].
    exfalso.
    assert (Resolver.hasFallbackData t = true) as Htrue
      by (apply hasFallbackData_spec; exists k, b; split; assumption).
    congruence.
Qed.

Lemma resolver_fallback_table_witness :
  (exists k b,
     In (k, b) Resolver.FALLBACK_blocks /\ Z.abs (k - 1651363205) < 86400 /\
     (forall k' b', In (k', b') Resolver.FALLBACK_blocks ->
        Z.abs (k - 1651363205) <= Z.abs (k' - 1651363205)) /\
     Resolver.getBlockNumberAtTimestamp allDown 1651363205 initialWorld
       = (Returns b, Resolver.cacheBlock 1651363205 b initialWorld)) \/
  ((forall k b, In (k, b) Resolver.FALLBACK_blocks -> 86400 <= Z.abs (k - 1651363205)) /\
   Resolver.getBlockNumberAtTimestamp allDown 1651363205 initialWorld
     = (Throws "network", initialWorld)).
Proof.
  apply (resolver_fallback_table allDown 1651363205 initialWorld "network").
  - intros e [].
  - intros n H. simpl in H. discriminate.
  - reflexivity.
Defined.

(** X6.  When the resolver raises.  [getBlockNumberAtTimestamp] raises
    only when the block cache holds no usable block for the timestamp,
    Etherscan gave no usable answer, [provider.getBlockNumber] was
    rejected -- its error is the one raised -- and no timestamp of the
    demo table is less than a day away; the module state is then left as
    it was.  In particular it returns whenever the node reports a head
    block. *)
Theorem resolver_raises_only_when_all_sources_fail
    (E : Env) (t : Z) (w : World) (msg : string) (w' : World) :
  Resolver.getBlockNumberAtTimestamp E t w = (Throws msg, w') ->
  w' = w /\
  provider_getBlockNumber E = Throws msg /\
  (forall n, etherscan_getblocknobytime E t = NoByTimeOk n ->
             exists m, provider_getBlock E n = BlockError m) /\
  (forall k b, In (k, b) Resolver.FALLBACK_blocks -> 86400 <= Z.abs (k - t)) /\
  (forall c, obj_get t (blockNumberCache w) = Some c -> c = 0).
Proof.
  intros Hrun. apply getBlockNumberAtTimestamp_throws in Hrun.
  destruct Hrun as (Hw & Hscan & Hhead & Hdata & Hcache).
  split; [exact Hw |]. split; [exact Hhead |].
  split; [apply (viaEtherscan_None E t w); exact Hscan |].
  split; [| exact Hcache].
  intros k b Hin.
  destruct (Z.ltb_spec (Z.abs (k - t)) 86400) as [Hlt | Hge]; [| exact Hge].
  exfalso.
  assert (Resolver.hasFallbackData t = true) as Htrue
    by (apply hasFallbackData_spec; exists k, b; split; assumption).
  congruence.
Qed.

Lemma resolver_raises_only_when_all_sources_fail_witness :
  initialWorld = initialWorld /\
  provider_getBlockNumber allDown = Throws "network" /\
  (forall n, etherscan_getblocknobytime allDown 1700000000 = NoByTimeOk n ->
             exists m, provider_getBlock allDown n = BlockError m) /\
  (forall k b, In (k, b) Resolver.FALLBACK_blocks -> 86400 <= Z.abs (k - 1700000000)) /\
  (forall c, obj_get 1700000000 (blockNumberCache initialWorld) = Some c -> c = 0).
Proof.
  apply (resolver_raises_only_when_all_sources_fail allDown 1700000000 initialWorld
           "network" initialWorld).
  vm_compute. reflexivity.
Defined.

(** ** The subgraph query *)

Section GraphQueryFacts.
Import Holders.

Lemma addOwners_app (tokens tokens' : list Token) (holders : list string) :
  addOwners (tokens ++ tokens') holders = addOwners tokens' (addOwners tokens holders).
Proof. unfold addOwners. apply fold_left_app. Qed.

Lemma last_take_drop (all : list Token) (k n : nat) (lastToken : Token) :
  last (take n (drop k all)) = Some lastToken ->
  length (take n (drop k all)) = n ->
  cursorAt all (k + n) = token_id lastToken.
Proof.
  intros Hlast Hlen. rewrite last_lookup in Hlast. rewrite Hlen in Hlast.
  destruct n as [| n]; [rewrite take_0 in Hlast; discriminate |].
  simpl in Hlast. apply lookup_take_Some in Hlast. destruct Hlast as [Hlookup _].
  rewrite lookup_drop in Hlookup.
  replace (k + S n)%nat with (S (k + n)) by lia. simpl. rewrite Hlookup. reflexivity.
Qed.

Section Paging.
Variables (E : Env) (bn size : Z) (all : list Token).
Hypothesis positive : 0 < size.
Hypothesis served : servesPages E bn size all.

Lemma page_length (k : nat) :
  length (take (Z.to_nat size) (drop k all))
    = Nat.min (Z.to_nat size) (length all - k).
Proof. rewrite length_take, length_drop. reflexivity. Qed.

Lemma page_short (k : nat) :
  (Z.of_nat (length (take (Z.to_nat size) (drop k all))) <? size) = true ->
  take (k + Z.to_nat size) all = all.
Proof.
  intros Hshort. apply Z.ltb_lt in Hshort. rewrite page_length in Hshort.
  apply take_ge. lia.
Qed.

Lemma page_full (k : nat) :
  (Z.of_nat (length (take (Z.to_nat size) (drop k all))) <? size) = false ->
  length (take (Z.to_nat size) (drop k all)) = Z.to_nat size /\
  (k + Z.to_nat size <= length all)%nat.
Proof.
  intros Hfull. apply Z.ltb_ge in Hfull. rewrite page_length in *. lia.
Qed.

Lemma primaryFollowUp_complete (fuel : nat) :
  forall k,
    (k <= length all)%nat -> (length all - k < fuel)%nat ->
    primaryFollowUp fuel E bn size (cursorAt all k) (addOwners (take k all) [])
      = Some (Returns (addOwners all [])).
Proof.
  induction fuel as [| fuel IH]; intros k Hk Hfuel; [lia |].
  simpl. rewrite (served k Hk).
  destruct (last (take (Z.to_nat size) (drop k all))) as [lastToken |] eqn:Hlast.
  - rewrite <- addOwners_app, take_take_drop.
    destruct (Z.of_nat (length (take (Z.to_nat size) (drop k all))) <? size) eqn:Hshort.
    + rewrite (page_short k Hshort). reflexivity.
    + destruct (page_full k Hshort) as [Hlen Hroom].
      rewrite <- (last_take_drop all k (Z.to_nat size) lastToken Hlast Hlen).
      apply IH; lia.
  - apply last_None in Hlast.
    assert (length (take (Z.to_nat size) (drop k all)) = 0%nat) as Hlen
      by (rewrite Hlast; reflexivity).
    rewrite page_length in Hlen.
    rewrite (take_ge all k) by lia. reflexivity.
Qed.

Lemma fallbackPaging_complete (fuel : nat) :
  forall k,
    (k <= length all)%nat -> (length all - k < fuel)%nat ->
    fallbackPaging fuel E bn size (cursorAt all k) (addOwners (take k all) [])
      = Some (Returns (addOwners all [])).
Proof.
  induction fuel as [| fuel IH]; intros k Hk Hfuel; [lia |].
  simpl. rewrite (served k Hk).
  destruct (last (take (Z.to_nat size) (drop k all))) as [lastToken |] eqn:Hlast.
  - rewrite <- addOwners_app, take_take_drop.
    destruct (Z.of_nat (length (take (Z.to_nat size) (drop k all))) <? size) eqn:Hshort.
    + rewrite (page_short k Hshort). reflexivity.
    + destruct (page_full k Hshort) as [Hlen Hroom].
      rewrite <- (last_take_drop all k (Z.to_nat size) lastToken Hlast Hlen).
      apply IH; lia.
  - apply last_None in Hlast.
    assert (length (take (Z.to_nat size) (drop k all)) = 0%nat) as Hlen
      by (rewrite Hlast; reflexivity).
    rewrite page_length in Hlen.
    rewrite (take_ge all k) by lia. reflexivity.
Qed.

Lemma primaryAttempt_complete (fuel : nat) :
  (length all < fuel)%nat ->
  primaryAttempt fuel E bn size = Some (Returns (addOwners all [])).
Proof.
  intros Hfuel. unfold primaryAttempt.
  change ""%string with (cursorAt all 0). rewrite (served 0%nat) by lia.
  rewrite drop_0.
  pose proof (page_short 0) as Hshort. pose proof (page_full 0) as Hfull.
  rewrite drop_0 in Hshort, Hfull. simpl in Hshort, Hfull.
  destruct (Z.of_nat (length (take (Z.to_nat size) all)) <? size).
  - rewrite <- (Hshort eq_refl) at 2. reflexivity.
  - destruct (Hfull eq_refl) as [Hlen Hroom].
    destruct (last (take (Z.to_nat size) all)) as [lastToken |] eqn:Hlast.
    + pose proof (last_take_drop all 0 (Z.to_nat size) lastToken) as Hcursor.
      rewrite drop_0 in Hcursor. simpl in Hcursor.
      rewrite <- (Hcursor Hlast Hlen).
      apply primaryFollowUp_complete; lia.
    + apply last_None in Hlast. rewrite Hlast in Hlen. simpl in Hlen. lia.
Qed.

End Paging.
End GraphQueryFacts.

Section HolderSetFacts.
Import Holders.

Lemma lower_ascii_idem (c : ascii) : lower_ascii (lower_ascii c) = lower_ascii c.
Proof. destruct c as [[] [] [] [] [] [] [] []]; reflexivity. Qed.

Lemma toLowerCase_idem (s : string) : lowerCase (toLowerCase s).
Proof.
  unfold lowerCase. induction s as [| c s IH]; simpl; [reflexivity |].
  rewrite lower_ascii_idem, IH. reflexivity.
Qed.

Lemma set_add_NoDup (x : string) (s : list string) :
  NoDup s -> NoDup (set_add x s).
Proof.
  intros Hs. unfold set_add. destruct (set_has x s) eqn:Hhas; [exact Hs |].
  apply NoDup_app. split; [exact Hs |]. split; [| apply NoDup_singleton].
  intros y Hy Hy'. apply list_elem_of_singleton in Hy'. subst y.
  apply list_elem_of_In in Hy. apply set_has_In in Hy. congruence.
Qed.

Lemma set_add_Forall (P : string -> Prop) (x : string) (s : list string) :
  P x -> Forall P s -> Forall P (set_add x s).
Proof.
  intros Hx Hs. unfold set_add. destruct (set_has x s); [exact Hs |].
  apply Forall_app. split; [exact Hs |]. constructor; [exact Hx | constructor].
Qed.

Lemma addOwners_holderSet (tokens : list Token) :
  forall holders, holderSet holders -> holderSet (addOwners tokens holders).
Proof.
  unfold addOwners.
  induction tokens as [| t tokens IH]; intros holders Hset; simpl; [exact Hset |].
  apply IH. destruct Hset as [Hnd Hlow]. split.
  - apply set_add_NoDup. exact Hnd.
  - apply set_add_Forall; [apply toLowerCase_idem | exact Hlow].
Qed.

Lemma addOwners_from (tokens : list Token) :
  forall holders h,
    In h (addOwners tokens holders) ->
    In h holders \/ exists t, In t tokens /\ h = toLowerCase (token_owner t).
Proof.
  unfold addOwners.
  induction tokens as [| t tokens IH]; intros holders h Hin; simpl in Hin.
  - left. exact Hin.
  - apply IH in Hin. destruct Hin as [Hin | (t' & Ht' & ->)].
    + apply set_add_In in Hin. destruct Hin as [-> | Hin].
      * right. exists t. split; [left; reflexivity | reflexivity].
      * left. exact Hin.
    + right. exists t'. split; [right; exact Ht' | reflexivity].
Qed.

Lemma addOwners_members (tokens : list Token) (h : string) :
  In h (addOwners tokens []) <->
  exists t, In t tokens /\ h = toLowerCase (token_owner t).
Proof.
  split.
  - intros Hin. apply addOwners_from in Hin. destruct Hin as [[] | Hin]. exact Hin.
  - intros (t & Ht & ->). apply addOwners_In. exact Ht.
Qed.

Lemma primaryFollowUp_holderSet (E : Env) (bn size : Z) (fuel : nat) :
  forall lastId holders result,
    holderSet holders ->
    primaryFollowUp fuel E bn size lastId holders = Some (Returns result) ->
    holderSet result.
Proof.
  induction fuel as [| fuel IH]; intros lastId holders result Hset; simpl;
    [discriminate |].
  destruct (graph_tokens E bn lastId size) as [msg | | tokens]; try discriminate.
  - intros [= <-]. exact Hset.
  - destruct (last tokens) as [lastToken |]; [| intros [= <-]; exact Hset].
    destruct (Z.of_nat (length tokens) <? size).
    + intros [= <-]. apply addOwners_holderSet. exact Hset.
    + apply IH. apply addOwners_holderSet. exact Hset.
Qed.

Lemma fallbackPaging_holderSet (E : Env) (bn size : Z) (fuel : nat) :
  forall lastId holders result,
    holderSet holders ->
    fallbackPaging fuel E bn size lastId holders = Some (Returns result) ->
    holderSet result.
Proof.
  induction fuel as [| fuel IH]; intros lastId holders result Hset; simpl;
    [discriminate |].
  destruct (graph_tokens E bn lastId size) as [msg | | tokens]; try discriminate.
  destruct (last tokens) as [lastToken |]; [| intros [= <-]; exact Hset].
  destruct (Z.of_nat (length tokens) <? size).
  - intros [= <-]. apply addOwners_holderSet. exact Hset.
  - apply IH. apply addOwners_holderSet. exact Hset.
Qed.

Lemma holderSet_empty : holderSet [].
Proof. split; constructor. Qed.

Lemma queryGraph_holderSet (fuel : nat) (E : Env) (bn : Z) (w : World)
    (holders : list string) (w' : World) :
  queryGraph fuel E bn w = Some (Returns holders, w') -> holderSet holders.
Proof.
  unfold queryGraph, primaryAttempt, BatchSize.getSuggestedGraphQLBatchSize.
  assert (forall o,
            o = fallbackPaging fuel E bn
                  (BatchSize.fallbackPageSize (optimalGraphQLBatchSize w)) "" [] ->
            match o with
            | Some (Returns hs) =>
                Some (Returns hs,
                      updateBatchSize true
                        (BatchSize.fallbackPageSize (optimalGraphQLBatchSize w))
                        (updateBatchSize false (optimalGraphQLBatchSize w) w))
            | Some (Throws msg) =>
                Some (Throws msg, updateBatchSize false (optimalGraphQLBatchSize w) w)
            | None => None
            end = Some (Returns holders, w') ->
            holderSet holders) as Hfallback.
  { intros o Ho. destruct o as [[hs | msg] |] eqn:Hcase; try discriminate.
    intros [= <- _]. symmetry in Ho.
    exact (fallbackPaging_holderSet _ _ _ _ _ _ _ holderSet_empty Ho). }
  destruct (graph_tokens E bn "" (optimalGraphQLBatchSize w)) as [msg | | tokens].
  - apply Hfallback. reflexivity.
  - apply Hfallback. reflexivity.
  - destruct (Z.of_nat (length tokens) <? optimalGraphQLBatchSize w).
    + intros [= <- _]. apply addOwners_holderSet. exact holderSet_empty.
    + destruct (last tokens) as [lastToken |]; [| apply Hfallback; reflexivity].
      destruct (primaryFollowUp fuel E bn (optimalGraphQLBatchSize w)
                  (token_id lastToken) (addOwners tokens []))
        as [[hs | msg] |] eqn:Hfollow.
      * intros [= <- _].
        apply (primaryFollowUp_holderSet _ _ _ _ _ _ _
                 (addOwners_holderSet tokens [] holderSet_empty) Hfollow).
      * apply Hfallback. reflexivity.
      * discriminate.
Qed.

End HolderSetFacts.

(** X7.  Paging is complete.  When the subgraph serves the token
    listing of the block page by page at the suggested page size (each
    request answered with the rows that follow its cursor), the query
    returns the lower-cased owner of every token of the listing and no
    other address, whatever the page size, and leaves the suggested page
    size as it was. *)
Theorem queryGraph_collects_every_owner
    (fuel : nat) (E : Env) (bn : Z) (w : World) (tokens : list Token) :
  0 < optimalGraphQLBatchSize w ->
  servesPages E bn (optimalGraphQLBatchSize w) tokens ->
  (length tokens < fuel)%nat ->
  exists holders w',
    Holders.queryGraph fuel E bn w = Some (Returns holders, w') /\
    holders = Holders.addOwners tokens [] /\
    (forall h, In h holders <->
               exists t, In t tokens /\ h = toLowerCase (token_owner t)) /\
    optimalGraphQLBatchSize w' = optimalGraphQLBatchSize w.
Proof.
  intros Hpos Hserved Hfuel.
  exists (Holders.addOwners tokens []),
         (Holders.updateBatchSize true (optimalGraphQLBatchSize w) w).
  split; [| split; [reflexivity | split]].
  - unfold Holders.queryGraph, BatchSize.getSuggestedGraphQLBatchSize.
    rewrite (primaryAttempt_complete E bn _ tokens Hpos Hserved fuel Hfuel).
    reflexivity.
  - intros h. apply addOwners_members.
  - unfold Holders.updateBatchSize, BatchSize.updateOptimalGraphQLBatchSize. simpl.
    rewrite Z.ltb_irrefl. reflexivity.
Qed.

Lemma pagedSubgraph_serves (size : Z) : servesPages pagedSubgraph 14723000 size demoTokens.
Proof.
  intros k Hk.
  destruct k as [| [| [| [| [| [| k]]]]]]; try reflexivity.
  simpl in Hk. lia.
Qed.

Lemma queryGraph_collects_every_owner_witness :
  exists holders w',
    Holders.queryGraph 6 pagedSubgraph 14723000
        (set_optimalGraphQLBatchSize 2 initialWorld)
      = Some (Returns holders, w') /\
    holders = Holders.addOwners demoTokens [] /\
    (forall h, In h holders <->
               exists t, In t demoTokens /\ h = toLowerCase (token_owner t)) /\
    optimalGraphQLBatchSize w'
      = optimalGraphQLBatchSize (set_optimalGraphQLBatchSize 2 initialWorld).
Proof.
  apply (queryGraph_collects_every_owner 6 pagedSubgraph 14723000
           (set_optimalGraphQLBatchSize 2 initialWorld) demoTokens).
  - simpl. lia.
  - apply pagedSubgraph_serves.
  - simpl. lia.
Defined.

(** X8.  Recovery with smaller pages.  When the first request, made at
    the suggested page size, is rejected or answered with GraphQL errors,
    the query is repeated from the start at the fallback page size.  If
    that succeeds the suggested size ends between 500 and 1250; if it
    fails too the suggested size ends as max(500, floor(3/4 of the old
    one)).  When the subgraph serves the listing page by page at the
    fallback size, the retry returns the owners of the whole listing. *)
Theorem queryGraph_recovers_with_smaller_pages
    (fuel : nat) (E : Env) (bn : Z) (w : World) :
  (graph_tokens E bn "" (optimalGraphQLBatchSize w) = GraphErrors \/
   exists msg, graph_tokens E bn "" (optimalGraphQLBatchSize w) = GraphThrows msg) ->
  (forall r w',
     Holders.queryGraph fuel E bn w = Some (r, w') ->
     match r with
     | Returns _ => 500 <= optimalGraphQLBatchSize w' <= 1250
     | Throws _ =>
         optimalGraphQLBatchSize w' = Z.max 500 (3 * optimalGraphQLBatchSize w / 4)
     end) /\
  (forall tokens,
     servesPages E bn (BatchSize.fallbackPageSize (optimalGraphQLBatchSize w)) tokens ->
     (length tokens < fuel)%nat ->
     exists w',
       Holders.queryGraph fuel E bn w
         = Some (Returns (Holders.addOwners tokens []), w')).
Proof.
  intros Hfirst.
  assert (exists msg,
            Holders.primaryAttempt fuel E bn (optimalGraphQLBatchSize w)
              = Some (Throws msg)) as [msg Hprimary].
  { unfold Holders.primaryAttempt.
    destruct Hfirst as [-> | [msg ->]]; eexists; reflexivity. }
  unfold Holders.queryGraph, BatchSize.getSuggestedGraphQLBatchSize.
  rewrite Hprimary. cbv zeta. split.
  - intros r w'.
    destruct (Holders.fallbackPaging fuel E bn
                (BatchSize.fallbackPageSize (optimalGraphQLBatchSize w)) "" [])
      as [[hs | m] |]; [| | discriminate].
    + intros H. apply (inj Some) in H. injection H as <- <-.
      unfold Holders.updateBatchSize, BatchSize.updateOptimalGraphQLBatchSize,
        BatchSize.fallbackPageSize. simpl.
      destruct (Z.ltb_spec
                  (Z.min 1000 (Z.max 500 (optimalGraphQLBatchSize w / 2)))
                  (Z.max 500 (3 * optimalGraphQLBatchSize w / 4))); lia_div.
    + intros H. apply (inj Some) in H. injection H as <- <-. reflexivity.
  - intros tokens Hserved Hfuel.
    assert (0 < BatchSize.fallbackPageSize (optimalGraphQLBatchSize w)) as Hpos
      by (unfold BatchSize.fallbackPageSize; lia).
    pose proof (fallbackPaging_complete E bn _ tokens Hpos Hserved fuel 0%nat
                  ltac:(lia) ltac:(lia)) as Hpaging.
    change (cursorAt tokens 0) with ""%string in Hpaging.
    change (take 0 tokens) with (@nil Token) in Hpaging.
    change (Holders.addOwners [] []) with (@nil string) in Hpaging.
    rewrite Hpaging. eexists. reflexivity.
Qed.

Lemma flakySubgraph_serves : servesPages flakySubgraph 14723000 1000 demoTokens.
Proof.
  intros k Hk.
  destruct k as [| [| [| [| [| [| k]]]]]]; try reflexivity.
  simpl in Hk. lia.
Qed.

Lemma queryGraph_recovers_with_smaller_pages_witness :
  500 <= optimalGraphQLBatchSize (set_optimalGraphQLBatchSize 1250 initialWorld) <= 1250 /\
  exists w',
    Holders.queryGraph 6 flakySubgraph 14723000 initialWorld
      = Some (Returns (Holders.addOwners demoTokens []), w').
Proof.
  destruct (queryGraph_recovers_with_smaller_pages 6 flakySubgraph 14723000 initialWorld)
    as [Hsize Hall].
  - left. reflexivity.
  - split.
    + apply (Hsize (Returns demoHolders) (set_optimalGraphQLBatchSize 1250 initialWorld)).
      vm_compute. reflexivity.
    + apply Hall; [exact flakySubgraph_serves | simpl; lia].
Defined.

(** X9.  A GraphQL error on a follow-up page is not a failure.  When the
    first page is full and the request for the second page is answered
    with GraphQL errors, the first attempt ends there: the owners of the
    first page alone are returned as the holder set, and the suggested
    page size is kept. *)
Theorem followup_error_returns_first_page
    (fuel : nat) (E : Env) (bn : Z) (w : World) (page : list Token) (lastToken : Token) :
  graph_tokens E bn "" (optimalGraphQLBatchSize w) = GraphTokens page ->
  optimalGraphQLBatchSize w <= Z.of_nat (length page) ->
  last page = Some lastToken ->
  graph_tokens E bn (token_id lastToken) (optimalGraphQLBatchSize w) = GraphErrors ->
  exists w',
    Holders.queryGraph (S fuel) E bn w
      = Some (Returns (Holders.addOwners page []), w') /\
    optimalGraphQLBatchSize w' = optimalGraphQLBatchSize w.
Proof.
  intros Hfirst Hfull Hlast Hsecond.
  exists (Holders.updateBatchSize true (optimalGraphQLBatchSize w) w). split.
  - unfold Holders.queryGraph, Holders.primaryAttempt,
      BatchSize.getSuggestedGraphQLBatchSize.
    rewrite Hfirst.
    destruct (Z.ltb_spec (Z.of_nat (length page)) (optimalGraphQLBatchSize w));
      [lia |].
    rewrite Hlast. simpl. rewrite Hsecond. reflexivity.
  - unfold Holders.updateBatchSize, BatchSize.updateOptimalGraphQLBatchSize. simpl.
    rewrite Z.ltb_irrefl. reflexivity.
Qed.

Lemma followup_error_returns_first_page_witness :
  exists w',
    Holders.queryGraph 1 truncatingSubgraph 14723000
        (set_optimalGraphQLBatchSize 5 initialWorld)
      = Some (Returns (Holders.addOwners demoTokens []), w') /\
    optimalGraphQLBatchSize w'
      = optimalGraphQLBatchSize (set_optimalGraphQLBatchSize 5 initialWorld).
Proof.
  apply (followup_error_returns_first_page 0 truncatingSubgraph 14723000
           (set_optimalGraphQLBatchSize 5 initialWorld) demoTokens
           {| token_id := "4";
              token_owner := "0x1b523DC1cB8B17B0170aa9234cA1CFF3E1Ea36bF" |}).
  - reflexivity.
  - simpl. lia.
  - reflexivity.
  - reflexivity.
Defined.

(** X10.  The holder array the subgraph query returns, on the first
    attempt or on the retry, lists no address twice and only lower-case
    addresses. *)
Theorem queryGraph_returns_a_set
    (fuel : nat) (E : Env) (bn : Z) (w : World) (holders : list string) (w' : World) :
  Holders.queryGraph fuel E bn w = Some (Returns holders, w') ->
  NoDup holders /\ Forall lowerCase holders.
Proof. apply queryGraph_holderSet. Qed.

Lemma queryGraph_returns_a_set_witness :
  NoDup demoHolders /\ Forall lowerCase demoHolders.
Proof.
  apply (queryGraph_returns_a_set 1 (demoEnv false false) 14723000 initialWorld
           demoHolders
           (Holders.updateBatchSize true 10000 initialWorld)).
  vm_compute. reflexivity.
Defined.

(** ** The transfer-log replay *)

Section ReplaySetFacts.
Import Holders.

Lemma map_keys_set {V : Type} (k : string) (v : V) (m : list (string * V)) :
  map_keys (map_set k v m) = set_add k (map_keys m).
Proof.
  unfold map_keys, set_add, set_has.
  induction m as [| [k' v'] m IH]; simpl; [reflexivity |].
  destruct (String.eqb_spec k k') as [-> | Hne]; simpl; [reflexivity |].
  rewrite IH. destruct (existsb (String.eqb k) (map fst m)); reflexivity.
Qed.

Lemma map_keys_delete {V : Type} (k : string) (m : list (string * V)) :
  map_keys (map_delete k m) = set_delete k (map_keys m).
Proof.
  unfold map_keys, map_delete, set_delete.
  induction m as [| [k' v'] m IH]; simpl; [reflexivity |].
  destruct (String.eqb k k'); simpl; [exact IH | rewrite IH; reflexivity].
Qed.

Lemma filter_holderSet (f : string -> bool) (s : list string) :
  holderSet s -> holderSet (List.filter f s).
Proof.
  intros [Hnd Hlow]. split.
  - apply NoDup_ListNoDup. apply List.NoDup_filter. apply NoDup_ListNoDup. exact Hnd.
  - apply List.Forall_forall. intros x Hx. apply filter_In in Hx.
    destruct Hx as [Hx _]. revert x Hx. apply List.Forall_forall. exact Hlow.
Qed.

Lemma set_add_holderSet (x : string) (s : list string) :
  lowerCase x -> holderSet s -> holderSet (set_add x s).
Proof.
  intros Hx [Hnd Hlow]. split.
  - apply set_add_NoDup. exact Hnd.
  - apply set_add_Forall; assumption.
Qed.

Lemma applyTransfer_holderSet (e : Transfer) (m : list (string * list string)) :
  holderSet (map_keys m) -> holderSet (map_keys (applyTransfer e m)).
Proof.
  intros Hset. unfold applyTransfer. cbv zeta.
  assert (holderSet
            (map_keys
               (if negb (String.eqb (toLowerCase (tx_from e)) ZERO_ADDRESS)
                then match map_get (toLowerCase (tx_from e)) m with
                     | Some tokens =>
                         match set_delete (tx_tokenID e) tokens with
                         | [] => map_delete (toLowerCase (tx_from e)) m
                         | _ :: _ =>
                             map_set (toLowerCase (tx_from e))
                               (set_delete (tx_tokenID e) tokens) m
                         end
                     | None => m
                     end
                else m))) as Hafter.
  { destruct (negb (String.eqb (toLowerCase (tx_from e)) ZERO_ADDRESS)); [| exact Hset].
    destruct (map_get (toLowerCase (tx_from e)) m) as [tokens |]; [| exact Hset].
    destruct (set_delete (tx_tokenID e) tokens).
    - rewrite map_keys_delete. apply filter_holderSet. exact Hset.
    - rewrite map_keys_set. apply set_add_holderSet; [apply toLowerCase_idem | exact Hset]. }
  destruct (map_get (toLowerCase (tx_to e)) _);
    rewrite map_keys_set; (apply set_add_holderSet; [apply toLowerCase_idem | exact Hafter]).
Qed.

Lemma replay_holderSet (events : list Transfer) :
  forall m, holderSet (map_keys m) -> holderSet (map_keys (replay events m)).
Proof.
  unfold replay. induction events as [| e events IH]; intros m Hset; simpl;
    [exact Hset |].
  apply IH. apply applyTransfer_holderSet. exact Hset.
Qed.

(** A replay that raises was refused one of the pages it asked for. *)
Lemma transferPages_throws (E : Env) (bn : Z) (remaining : nat) :
  forall page m msg,
    transferPages E bn remaining page m = Throws msg ->
    exists p, page <= p < page + Z.of_nat remaining /\
              etherscan_tokennfttx E p = TransfersThrows msg.
Proof.
  induction remaining as [| remaining IH]; intros page m msg; simpl; [discriminate |].
  destruct (etherscan_tokennfttx E page) as [msg' | message | transfers] eqn:Hpage.
  - intros [= <-]. exists page. split; [lia | exact Hpage].
  - discriminate.
  - destruct transfers as [| e rest]; [discriminate |].
    destruct (processTransfers bn (e :: rest) m) as [m' more].
    destruct more; [| discriminate].
    intros H. apply IH in H. destruct H as (p & Hp & Hthrown).
    exists p. split; [lia | exact Hthrown].
Qed.

End ReplaySetFacts.

(** X11.  The holder array of the transfer replay.  When Etherscan
    refuses none of the pages 1 to 5, [getHoldersFromTokenTransfers]
    returns an array with no address twice, only lower-case addresses,
    and without the null address.  When the request for page 1 is
    refused it returns the five demo addresses instead, which are not
    lower-case. *)
Theorem transfer_replay_returns_a_set (E : Env) (bn : Z) :
  ((forall p msg, 1 <= p <= 5 -> etherscan_tokennfttx E p <> TransfersThrows msg) ->
   NoDup (Holders.getHoldersFromTokenTransfers E bn) /\
   Forall lowerCase (Holders.getHoldersFromTokenTransfers E bn) /\
   ~ In ZERO_ADDRESS (Holders.getHoldersFromTokenTransfers E bn)) /\
  ((exists msg, etherscan_tokennfttx E 1 = TransfersThrows msg) ->
   Holders.getHoldersFromTokenTransfers E bn = Holders.FALLBACK_sampleHolders /\
   ~ Forall lowerCase (Holders.getHoldersFromTokenTransfers E bn)).
Proof.
  split.
  - intros Hserved. split; [| split; [| apply transfers_exclude_null]].
    + unfold Holders.getHoldersFromTokenTransfers.
      destruct (Holders.transferPages E bn 5 1 []) as [m | msg] eqn:Hpages.
      * apply transferPages_replayed in Hpages. subst m.
        apply (filter_holderSet Holders.nonZeroAddress).
        apply replay_holderSet. split; constructor.
      * apply transferPages_throws in Hpages. destruct Hpages as (p & Hp & Hthrown).
        exfalso. apply (Hserved p msg); [simpl in Hp; lia | exact Hthrown].
    + unfold Holders.getHoldersFromTokenTransfers.
      destruct (Holders.transferPages E bn 5 1 []) as [m | msg] eqn:Hpages.
      * apply transferPages_replayed in Hpages. subst m.
        apply (filter_holderSet Holders.nonZeroAddress).
        apply replay_holderSet. split; constructor.
      * apply transferPages_throws in Hpages. destruct Hpages as (p & Hp & Hthrown).
        exfalso. apply (Hserved p msg); [simpl in Hp; lia | exact Hthrown].
  - intros [msg Hrefused].
    assert (Holders.getHoldersFromTokenTransfers E bn = Holders.FALLBACK_sampleHolders)
      as Hdemo.
    { unfold Holders.getHoldersFromTokenTransfers. simpl. rewrite Hrefused. reflexivity. }
    split; [exact Hdemo |]. rewrite Hdemo. intros Hlow.
    apply List.Forall_inv in Hlow. vm_compute in Hlow. discriminate Hlow.
Qed.

Lemma transfer_replay_returns_a_set_witness :
  (NoDup (Holders.getHoldersFromTokenTransfers oneTokenHistory 5) /\
   Forall lowerCase (Holders.getHoldersFromTokenTransfers oneTokenHistory 5) /\
   ~ In ZERO_ADDRESS (Holders.getHoldersFromTokenTransfers oneTokenHistory 5)) /\
  (Holders.getHoldersFromTokenTransfers allDown 5 = Holders.FALLBACK_sampleHolders /\
   ~ Forall lowerCase (Holders.getHoldersFromTokenTransfers allDown 5)).
Proof.
  split.
  - apply (transfer_replay_returns_a_set oneTokenHistory 5).
    intros p msg _. simpl. destruct (p =? 1); discriminate.
  - apply (transfer_replay_returns_a_set allDown 5).
    exists "network"%string. reflexivity.
Defined.

(** ** Sorting *)

Section SortFacts.
Context {A : Type} (le : A -> A -> bool) (R : A -> A -> Prop).
Hypothesis le_true : forall a b, le a b = true -> R a b.
Hypothesis le_false : forall a b, le a b = false -> R b a.
Hypothesis R_trans : forall a b c, R a b -> R b c -> R a c.

Lemma sort_insert_In (x y : A) (l : list A) :
  In y (sort_insert le x l) <-> y = x \/ In y l.
Proof.
  induction l as [| z l IH]; simpl.
  - intuition congruence.
  - destruct (le x z); simpl; [intuition congruence |].
    rewrite IH. intuition congruence.
Qed.

Lemma array_sort_In (x : A) (l : list A) : In x (array_sort le l) <-> In x l.
Proof.
  unfold array_sort. induction l as [| z l IH]; simpl; [reflexivity |].
  rewrite sort_insert_In, IH. intuition congruence.
Qed.

Lemma sort_insert_length (x : A) (l : list A) :
  length (sort_insert le x l) = S (length l).
Proof.
  induction l as [| z l IH]; simpl; [reflexivity |].
  destruct (le x z); simpl; [reflexivity | rewrite IH; reflexivity].
Qed.

Lemma array_sort_length (l : list A) : length (array_sort le l) = length l.
Proof.
  unfold array_sort. induction l as [| z l IH]; simpl; [reflexivity |].
  rewrite sort_insert_length, IH. reflexivity.
Qed.

Lemma sort_insert_sorted (x : A) (l : list A) :
  StronglySorted R l -> StronglySorted R (sort_insert le x l).
Proof.
  induction l as [| z l IH]; intros Hsorted; simpl.
  - constructor; constructor.
  - apply StronglySorted_inv in Hsorted. destruct Hsorted as [Hl Hz].
    destruct (le x z) eqn:Hle.
    + constructor; [constructor; assumption |].
      constructor; [apply le_true; exact Hle |].
      apply List.Forall_forall. intros y Hy.
      apply (R_trans x z y); [apply le_true; exact Hle |].
      revert y Hy. apply List.Forall_forall. exact Hz.
    + constructor; [apply IH; exact Hl |].
      apply List.Forall_forall. intros y Hy. apply sort_insert_In in Hy.
      destruct Hy as [-> | Hy]; [apply le_false; exact Hle |].
      revert y Hy. apply List.Forall_forall. exact Hz.
Qed.

Lemma array_sort_sorted (l : list A) : StronglySorted R (array_sort le l).
Proof.
  unfold array_sort. induction l as [| z l IH]; simpl; [constructor |].
  apply sort_insert_sorted. exact IH.
Qed.

Lemma sorted_app (pre post : list A) :
  StronglySorted R (pre ++ post) ->
  forall x y, In x pre -> In y post -> R x y.
Proof.
  induction pre as [| z pre IH]; intros Hsorted x y Hx Hy; [destruct Hx |].
  simpl in Hsorted. apply StronglySorted_inv in Hsorted.
  destruct Hsorted as [Hrest Hz].
  destruct Hx as [<- | Hx].
  - apply (proj1 (List.Forall_forall _ _) Hz). apply in_or_app. right. exact Hy.
  - exact (IH Hrest x y Hx Hy).
Qed.

(** The first element of a sorted array comes before every other one. *)
Lemma array_sort_head (l : list A) (x : A) (rest : list A) :
  array_sort le l = x :: rest ->
  In x l /\ forall y, In y l -> y = x \/ R x y.
Proof.
  intros Hsort. split.
  - apply array_sort_In. rewrite Hsort. left. reflexivity.
  - intros y Hy. apply array_sort_In in Hy. rewrite Hsort in Hy.
    destruct Hy as [<- | Hy]; [left; reflexivity | right].
    pose proof (array_sort_sorted l) as Hsorted. rewrite Hsort in Hsorted.
    apply StronglySorted_inv in Hsorted. destruct Hsorted as [_ Hx].
    exact (proj1 (List.Forall_forall _ _) Hx y Hy).
Qed.

End SortFacts.

Lemma geb_true (a b : Z) : Z.geb a b = true -> b <= a.
Proof. intros H. apply Z.geb_le in H. exact H. Qed.

Lemma geb_false (a b : Z) : Z.geb a b = false -> a <= b.
Proof. rewrite Z.geb_leb. intros H. apply Z.leb_gt in H. lia. Qed.

Lemma leb_true (a b : Z) : Z.leb a b = true -> a <= b.
Proof. apply Z.leb_le. Qed.

Lemma leb_false (a b : Z) : Z.leb a b = false -> b <= a.
Proof. intros H. apply Z.leb_gt in H. lia. Qed.

(** ** The holders cache *)

Section HoldersCacheFacts.
Import Holders.

Lemma reduced_blocks (orig : list (Z * list string)) (timestamps : list (Z * Z))
    (keys : list Z) :
  forall acc,
    hc_blocks
      (fold_left
         (fun acc block =>
            {| hc_blocks :=
                 match obj_get block orig with
                 | Some holders => obj_set block holders (hc_blocks acc)
                 | None => hc_blocks acc
                 end;
               hc_timestamps :=
                 match truthy (obj_get block timestamps) with
                 | Some t => option_map (obj_set block t) (hc_timestamps acc)
                 | None => hc_timestamps acc
                 end |})
         keys acc)
    = fold_left
        (fun blocks block =>
           match obj_get block orig with
           | Some holders => obj_set block holders blocks
           | None => blocks
           end)
        keys (hc_blocks acc).
Proof.
  induction keys as [| k keys IH]; intros acc; simpl; [reflexivity |].
  rewrite IH. reflexivity.
Qed.

Section Kept.
Variable orig : list (Z * list string).

Lemma kept_get_inv (keys : list Z) :
  forall blocks b hs,
    obj_get b
      (fold_left
         (fun blocks block =>
            match obj_get block orig with
            | Some holders => obj_set block holders blocks
            | None => blocks
            end) keys blocks) = Some hs ->
    (In b keys /\ obj_get b orig = Some hs) \/ obj_get b blocks = Some hs.
Proof.
  induction keys as [| k keys IH]; intros blocks b hs; simpl; [tauto |].
  intros Hget. apply IH in Hget. destruct Hget as [[Hin Horig] | Hget]; [tauto |].
  destruct (obj_get k orig) as [h |] eqn:Hk; [| tauto].
  destruct (Z.eq_dec k b) as [-> | Hne].
  - rewrite obj_get_set_eq in Hget. left. split; [left; reflexivity | congruence].
  - rewrite obj_get_set_ne in Hget by exact Hne. right. exact Hget.
Qed.

Lemma kept_get (keys : list Z) :
  forall blocks b hs,
    obj_get b orig = Some hs ->
    In b keys \/ obj_get b blocks = Some hs ->
    obj_get b
      (fold_left
         (fun blocks block =>
            match obj_get block orig with
            | Some holders => obj_set block holders blocks
            | None => blocks
            end) keys blocks) = Some hs.
Proof.
  induction keys as [| k keys IH]; intros blocks b hs Horig; simpl.
  - intros [[] | Hget]. exact Hget.
  - intros Hcase. apply IH; [exact Horig |].
    destruct (Z.eq_dec k b) as [-> | Hne].
    + right. rewrite Horig. apply obj_get_set_eq.
    + destruct Hcase as [[Heq | Hin] | Hget]; [contradiction | left; exact Hin |].
      right. destruct (obj_get k orig); [| exact Hget].
      rewrite obj_get_set_ne by exact Hne. exact Hget.
Qed.

Lemma kept_length (keys : list Z) :
  forall blocks,
    (length
       (fold_left
          (fun blocks block =>
             match obj_get block orig with
             | Some holders => obj_set block holders blocks
             | None => blocks
             end) keys blocks) <= length blocks + length keys)%nat.
Proof.
  induction keys as [| k keys IH]; intros blocks; simpl; [lia |].
  etransitivity; [apply IH |].
  destruct (obj_get k orig); [| lia].
  pose proof (obj_set_length k l blocks). lia.
Qed.

End Kept.
End HoldersCacheFacts.

Section EvictionFacts.
Import Holders.

Lemma saveHoldersCache_blocks (E : Env) (w : World) :
  fs_write_holders_cache E = true ->
  hc_blocks (holdersCache (saveHoldersCache E w))
    = fold_left
        (fun blocks block =>
           match obj_get block (hc_blocks (holdersCache w)) with
           | Some holders => obj_set block holders blocks
           | None => blocks
           end)
        (take 100 (array_sort Z.geb (obj_keys (hc_blocks (holdersCache w))))) [].
Proof.
  intros Hwrite. unfold saveHoldersCache. rewrite Hwrite. cbv zeta.
  unfold set_holdersCache. cbn [holdersCache]. rewrite reduced_blocks. reflexivity.
Qed.

Lemma saveHoldersCache_get (E : Env) (w : World) (b : Z) (hs : list string) :
  fs_write_holders_cache E = true ->
  obj_get b (hc_blocks (holdersCache (saveHoldersCache E w))) = Some hs ->
  obj_get b (hc_blocks (holdersCache w)) = Some hs /\
  In b (take 100 (array_sort Z.geb (obj_keys (hc_blocks (holdersCache w))))).
Proof.
  intros Hwrite. rewrite (saveHoldersCache_blocks E w Hwrite).
  intros Hget. apply kept_get_inv in Hget.
  destruct Hget as [[Hin Horig] | Hnil]; [tauto | discriminate].
Qed.

Lemma saveHoldersCache_kept (E : Env) (w : World) (b : Z) (hs : list string) :
  fs_write_holders_cache E = true ->
  obj_get b (hc_blocks (holdersCache w)) = Some hs ->
  In b (take 100 (array_sort Z.geb (obj_keys (hc_blocks (holdersCache w))))) ->
  obj_get b (hc_blocks (holdersCache (saveHoldersCache E w))) = Some hs.
Proof.
  intros Hwrite Horig Hin. rewrite (saveHoldersCache_blocks E w Hwrite).
  apply kept_get; [exact Horig | left; exact Hin].
Qed.

(** With at most 100 cached blocks nothing is evicted. *)
Lemma saveHoldersCache_small (E : Env) (w : World) :
  (length (hc_blocks (holdersCache w)) <= 100)%nat ->
  forall b,
    obj_get b (hc_blocks (holdersCache (saveHoldersCache E w)))
      = obj_get b (hc_blocks (holdersCache w)).
Proof.
  intros Hsmall b.
  destruct (fs_write_holders_cache E) eqn:Hwrite;
    [| unfold saveHoldersCache; rewrite Hwrite; reflexivity].
  assert (forall hs, obj_get b (hc_blocks (holdersCache w)) = Some hs ->
            obj_get b (hc_blocks (holdersCache (saveHoldersCache E w))) = Some hs)
    as Hkeep.
  { intros hs Horig. apply saveHoldersCache_kept; [exact Hwrite | exact Horig |].
    rewrite take_ge.
    - apply array_sort_In. exact (obj_get_Some_key _ _ _ Horig).
    - rewrite array_sort_length. unfold obj_keys. rewrite length_map. exact Hsmall. }
  destruct (obj_get b (hc_blocks (holdersCache w))) as [hs |] eqn:Horig.
  - apply Hkeep. reflexivity.
  - destruct (obj_get b (hc_blocks (holdersCache (saveHoldersCache E w))))
      as [hs |] eqn:Hnew; [| reflexivity].
    apply saveHoldersCache_get in Hnew; [| exact Hwrite].
    destruct Hnew as [Hnew _]. congruence.
Qed.

End EvictionFacts.

(** X12.  Eviction in [saveHoldersCache].  After a successful write the
    holders cache has at most 100 block entries; every entry left is an
    entry that was there, unchanged; a block that lost its entry is lower
    than every block that kept one; with at most 100 entries before,
    nothing is lost; and nothing but the holders cache is touched. *)
Theorem saveHoldersCache_keeps_the_highest (E : Env) (w : World) :
  fs_write_holders_cache E = true ->
  (length (hc_blocks (holdersCache (Holders.saveHoldersCache E w))) <= 100)%nat /\
  (forall b hs,
     obj_get b (hc_blocks (holdersCache (Holders.saveHoldersCache E w))) = Some hs ->
     obj_get b (hc_blocks (holdersCache w)) = Some hs) /\
  (forall b b' hs,
     obj_get b (hc_blocks (holdersCache w)) = Some hs ->
     obj_get b (hc_blocks (holdersCache (Holders.saveHoldersCache E w))) = None ->
     In b' (obj_keys (hc_blocks (holdersCache (Holders.saveHoldersCache E w)))) ->
     b < b') /\
  ((length (hc_blocks (holdersCache w)) <= 100)%nat ->
   forall b,
     obj_get b (hc_blocks (holdersCache (Holders.saveHoldersCache E w)))
       = obj_get b (hc_blocks (holdersCache w))) /\
  blockNumberCache (Holders.saveHoldersCache E w) = blockNumberCache w /\
  optimalGraphQLBatchSize (Holders.saveHoldersCache E w) = optimalGraphQLBatchSize w /\
  resultsFile (Holders.saveHoldersCache E w) = resultsFile w.
Proof.
  intros Hwrite.
  split; [| split; [| split; [| split]]].
  - rewrite (saveHoldersCache_blocks E w Hwrite).
    etransitivity; [apply kept_length |]. simpl. rewrite length_take. lia.
  - intros b hs Hget. exact (proj1 (saveHoldersCache_get E w b hs Hwrite Hget)).
  - intros b b' hs Horig Hlost Hkept'.
    set (keys := obj_keys (hc_blocks (holdersCache w))).
    assert (~ In b (take 100 (array_sort Z.geb keys))) as Hout.
    { intros Hin. rewrite (saveHoldersCache_kept E w b hs Hwrite Horig Hin) in Hlost.
      discriminate. }
    assert (In b' (take 100 (array_sort Z.geb keys))) as Hin'.
    { destruct (obj_get b' (hc_blocks (holdersCache (Holders.saveHoldersCache E w))))
        as [hs' |] eqn:Hget'.
      - exact (proj2 (saveHoldersCache_get E w b' hs' Hwrite Hget')).
      - apply obj_get_None in Hget'. contradiction. }
    assert (In b (drop 100 (array_sort Z.geb keys))) as Hdropped.
    { assert (In b (array_sort Z.geb keys)) as Hsorted
        by (apply array_sort_In; exact (obj_get_Some_key _ _ _ Horig)).
      rewrite <- (take_drop 100 (array_sort Z.geb keys)) in Hsorted.
      apply in_app_or in Hsorted. tauto. }
    assert (b <= b') as Hle.
    { apply (sorted_app (fun x y => y <= x) (take 100 (array_sort Z.geb keys))
               (drop 100 (array_sort Z.geb keys))); [| exact Hin' | exact Hdropped].
      rewrite take_drop.
      apply (array_sort_sorted Z.geb (fun x y => y <= x) geb_true geb_false).
      intros x y z Hxy Hyz. lia. }
    assert (b <> b') by (intros ->; contradiction). lia.
  - apply saveHoldersCache_small.
  - unfold Holders.saveHoldersCache. rewrite Hwrite. repeat split; reflexivity.
Qed.

Lemma saveHoldersCache_keeps_the_highest_witness :
  (length (hc_blocks (holdersCache (Holders.saveHoldersCache tenSecondChain
                                      twoCachedBlocks))) <= 100)%nat /\
  (forall b hs,
     obj_get b (hc_blocks (holdersCache (Holders.saveHoldersCache tenSecondChain
                                           twoCachedBlocks))) = Some hs ->
     obj_get b (hc_blocks (holdersCache twoCachedBlocks)) = Some hs) /\
  (forall b b' hs,
     obj_get b (hc_blocks (holdersCache twoCachedBlocks)) = Some hs ->
     obj_get b (hc_blocks (holdersCache (Holders.saveHoldersCache tenSecondChain
                                           twoCachedBlocks))) = None ->
     In b' (obj_keys (hc_blocks (holdersCache (Holders.saveHoldersCache tenSecondChain
                                                 twoCachedBlocks)))) ->
     b < b') /\
  ((length (hc_blocks (holdersCache twoCachedBlocks)) <= 100)%nat ->
   forall b,
     obj_get b (hc_blocks (holdersCache (Holders.saveHoldersCache tenSecondChain
                                           twoCachedBlocks)))
       = obj_get b (hc_blocks (holdersCache twoCachedBlocks))) /\
  blockNumberCache (Holders.saveHoldersCache tenSecondChain twoCachedBlocks)
    = blockNumberCache twoCachedBlocks /\
  optimalGraphQLBatchSize (Holders.saveHoldersCache tenSecondChain twoCachedBlocks)
    = optimalGraphQLBatchSize twoCachedBlocks /\
  resultsFile (Holders.saveHoldersCache tenSecondChain twoCachedBlocks)
    = resultsFile twoCachedBlocks.
Proof.
  apply (saveHoldersCache_keeps_the_highest tenSecondChain twoCachedBlocks). reflexivity.
Defined.

Section LookupFacts.
Import Holders.

(** The "traditional" lookup answers with the entry of another block:
    the highest cached block below the requested one when it is fewer
    than 1000 blocks below, else the lowest cached block above when it is
    fewer than 100 blocks above. *)
Lemma lookupByNumber_near (bn : Z) (hc : HoldersCache) (hs : list string) :
  lookupByNumber bn hc = Some hs ->
  exists b,
    obj_get b (hc_blocks hc) = Some hs /\
    ((b < bn /\ bn - b < 1000 /\
      forall b', In b' (obj_keys (hc_blocks hc)) -> b' < bn -> b' <= b) \/
     (bn < b /\ b - bn < 100 /\
      forall b', In b' (obj_keys (hc_blocks hc)) -> bn < b' -> b <= b')).
Proof.
  unfold lookupByNumber. cbv zeta.
  assert (match array_sort Z.leb
                  (List.filter (fun b => bn <? b) (obj_keys (hc_blocks hc))) with
          | a0 :: _ =>
              if a0 - bn <? 100 then obj_get a0 (hc_blocks hc) else None
          | [] => None
          end = Some hs ->
          exists b,
            obj_get b (hc_blocks hc) = Some hs /\
            ((b < bn /\ bn - b < 1000 /\
              forall b', In b' (obj_keys (hc_blocks hc)) -> b' < bn -> b' <= b) \/
             (bn < b /\ b - bn < 100 /\
              forall b', In b' (obj_keys (hc_blocks hc)) -> bn < b' -> b <= b')))
    as Hafter.
  { destruct (array_sort Z.leb
                (List.filter (fun b => bn <? b) (obj_keys (hc_blocks hc))))
      as [| a0 rest] eqn:Hsort; [discriminate |].
    destruct (Z.ltb_spec (a0 - bn) 100) as [Hnear | _]; [| discriminate].
    intros Hget. exists a0. split; [exact Hget |]. right.
    destruct (array_sort_head Z.leb (fun x y => x <= y) leb_true leb_false
                ltac:(cbv beta; intros; lia) _ _ _ Hsort) as [Hin Hmin].
    apply filter_In in Hin. destruct Hin as [_ Hin]. apply Z.ltb_lt in Hin.
    split; [exact Hin |]. split; [exact Hnear |].
    intros b' Hb' Hgt.
    destruct (Hmin b') as [-> | Hle]; [| lia | exact Hle].
    apply filter_In. split; [exact Hb' | apply Z.ltb_lt; exact Hgt]. }
  destruct (array_sort Z.geb
              (List.filter (fun b => b <? bn) (obj_keys (hc_blocks hc))))
    as [| b0 rest] eqn:Hsort; [exact Hafter |].
  destruct (Z.ltb_spec (bn - b0) 1000) as [Hnear | _]; [| exact Hafter].
  destruct (obj_get b0 (hc_blocks hc)) as [holders |] eqn:Hget; [| exact Hafter].
  intros [= <-]. exists b0. split; [exact Hget |]. left.
  destruct (array_sort_head Z.geb (fun x y => y <= x) geb_true geb_false
              ltac:(cbv beta; intros; lia) _ _ _ Hsort) as [Hin Hmax].
  apply filter_In in Hin. destruct Hin as [_ Hin]. apply Z.ltb_lt in Hin.
  split; [exact Hin |]. split; [exact Hnear |].
  intros b' Hb' Hlt.
  destruct (Hmax b') as [-> | Hle]; [| lia | exact Hle].
  apply filter_In. split; [exact Hb' | apply Z.ltb_lt; exact Hlt].
Qed.

(** The lookup by time answers with the entry of a cached block whose
    indexed timestamp is less than an hour from the requested block's,
    and no indexed timestamp is nearer. *)
Lemma lookupByTime_near (t : Z) (hc : HoldersCache) (hs : list string) :
  lookupByTime t hc = Some hs ->
  exists index b ts,
    hc_timestamps hc = Some index /\ In (b, ts) index /\
    Z.abs (ts - t) < 3600 /\
    (forall b' ts', In (b', ts') index -> Z.abs (ts - t) <= Z.abs (ts' - t)) /\
    obj_get b (hc_blocks hc) = Some hs.
Proof.
  unfold lookupByTime, TIME_RADIUS.
  destruct (hc_timestamps hc) as [index |]; [| discriminate]. cbv zeta.
  destruct (array_sort (fun a b : Z * Z => snd a <=? snd b)
              (List.filter (fun entry : Z * Z => snd entry <? 3600)
                 (map (fun e : Z * Z => (fst e, Z.abs (snd e - t))) index)))
    as [| best rest] eqn:Hsort; [discriminate |].
  intros Hget.
  destruct (array_sort_head (fun a b : Z * Z => snd a <=? snd b)
              (fun a b : Z * Z => snd a <= snd b)
              ltac:(cbv beta; intros a b H; apply Z.leb_le in H; exact H)
              ltac:(cbv beta; intros a b H; apply Z.leb_gt in H; lia)
              ltac:(cbv beta; intros; lia) _ _ _ Hsort) as [Hin Hmin].
  apply filter_In in Hin. destruct Hin as [Hin Hnear]. apply Z.ltb_lt in Hnear.
  apply in_map_iff in Hin. destruct Hin as ([b ts] & Hbest & Hin).
  subst best. simpl in *.
  exists index, b, ts.
  split; [reflexivity |]. split; [exact Hin |]. split; [exact Hnear |].
  split; [| exact Hget].
  intros b' ts' Hin'.
  destruct (Z.ltb_spec (Z.abs (ts' - t)) 3600) as [Hnear' | Hfar]; [| lia].
  destruct (Hmin (b', Z.abs (ts' - t))) as [Heq | Hle].
  - apply filter_In. split; [| apply Z.ltb_lt; exact Hnear'].
    apply in_map_iff. exists (b', ts'). split; [reflexivity | exact Hin'].
  - injection Heq as _ Heq. lia.
  - exact Hle.
Qed.

Lemma ensureTimestampIndex_idem (E E' : Env) (hc : HoldersCache) :
  ensureTimestampIndex E' (ensureTimestampIndex E hc) = ensureTimestampIndex E hc.
Proof.
  unfold ensureTimestampIndex.
  destruct (hc_timestamps hc) as [index |] eqn:Hindex; simpl;
    [rewrite Hindex |]; reflexivity.
Qed.

Lemma queryGraph_state (fuel : nat) (E : Env) (bn : Z) (w : World) r w' :
  queryGraph fuel E bn w = Some (r, w') ->
  w' = set_optimalGraphQLBatchSize (optimalGraphQLBatchSize w') w.
Proof.
  unfold queryGraph, updateBatchSize.
  destruct (primaryAttempt fuel E bn _) as [[holders | msg] |];
    [intros [= _ <-]; reflexivity | | discriminate].
  destruct (fallbackPaging fuel E bn _ "" []) as [[holders | msg'] |];
    [| | discriminate]; intros [= _ <-]; reflexivity.
Qed.

End LookupFacts.

Section HolderPaths.
Import Holders.

Lemma getBAYCHoldersAtBlock_hit (fuel : nat) (E : Env) (bn : Z) (w : World)
    (hs : list string) :
  obj_get bn (hc_blocks (holdersCache w)) = Some hs ->
  getBAYCHoldersAtBlock fuel E bn w = Some (Returns hs, w).
Proof. intros Hget. unfold getBAYCHoldersAtBlock. rewrite Hget. reflexivity. Qed.

(** Storing a block in a cache of fewer than 100 blocks and saving keeps
    the block. *)
Lemma saved_block_stays (E : Env) (bn : Z) (hs : list string) (hc : HoldersCache)
    (w : World) :
  (length (hc_blocks hc) <= 100)%nat ->
  obj_get bn (hc_blocks hc) = Some hs ->
  obj_get bn (hc_blocks (holdersCache (saveHoldersCache E (set_holdersCache hc w))))
    = Some hs.
Proof.
  intros Hsmall Hget.
  rewrite saveHoldersCache_small; [exact Hget | exact Hsmall].
Qed.

Section Small.
Variables (fuel : nat) (E : Env) (bn : Z) (w : World).
Hypothesis small : (length (hc_blocks (holdersCache w)) < 100)%nat.

Lemma holdersTryBody_cases (r : outcome (list string)) (w' : World) :
  holdersTryBody fuel E bn w = Some (r, w') ->
  (exists msg, r = Throws msg /\
               hc_blocks (holdersCache w') = hc_blocks (holdersCache w)) \/
  (exists bts hs,
     r = Returns hs /\ provider_getBlock E bn = BlockData bts /\
     w' = set_holdersCache (ensureTimestampIndex E (holdersCache w)) w /\
     (lookupByTime bts (ensureTimestampIndex E (holdersCache w)) = Some hs \/
      (lookupByTime bts (ensureTimestampIndex E (holdersCache w)) = None /\
       lookupByNumber bn (ensureTimestampIndex E (holdersCache w)) = Some hs))) \/
  (exists hs, r = Returns hs /\
              obj_get bn (hc_blocks (holdersCache w')) = Some hs).
Proof.
  unfold holdersTryBody.
  destruct (provider_getBlock E bn) as [bts | | msg] eqn:Hblock.
  - cbn [holdersCache set_holdersCache].
    destruct (lookupByTime bts (ensureTimestampIndex E (holdersCache w)))
      as [hs |] eqn:Htime.
    { intros [= <- <-]. right. left. exists bts, hs.
      repeat split; try reflexivity; try exact Hblock. left. exact Htime. }
    destruct (lookupByNumber bn (ensureTimestampIndex E (holdersCache w)))
      as [hs |] eqn:Hnumber.
    { intros [= <- <-]. right. left. exists bts, hs.
      repeat split; try reflexivity; try exact Hblock.
      right. split; [exact Htime | reflexivity]. }
    destruct (queryGraph fuel E bn
                (set_holdersCache (ensureTimestampIndex E (holdersCache w)) w))
      as [[[hs | msg] w2] |] eqn:Hquery; [| | discriminate].
    + intros [= <- <-]. right. right. exists hs. split; [reflexivity |].
      apply queryGraph_state in Hquery. rewrite Hquery.
      apply saved_block_stays.
      * simpl. rewrite ensureTimestampIndex_blocks.
        pose proof (obj_set_length bn hs (hc_blocks (holdersCache w))). lia.
      * simpl. apply obj_get_set_eq.
    + intros [= <- <-]. left. exists msg. split; [reflexivity |].
      apply queryGraph_state in Hquery. rewrite Hquery. simpl.
      apply ensureTimestampIndex_blocks.
  - intros [= <- <-]. left. eexists. split; reflexivity.
  - intros [= <- <-]. left. eexists. split; reflexivity.
Qed.

Lemma getBAYCHoldersAtBlock_cases (hs : list string) (w' : World) :
  getBAYCHoldersAtBlock fuel E bn w = Some (Returns hs, w') ->
  obj_get bn (hc_blocks (holdersCache w')) = Some hs \/
  (obj_get bn (hc_blocks (holdersCache w)) = None /\
   exists bts,
     provider_getBlock E bn = BlockData bts /\
     w' = set_holdersCache (ensureTimestampIndex E (holdersCache w)) w /\
     (lookupByTime bts (ensureTimestampIndex E (holdersCache w)) = Some hs \/
      (lookupByTime bts (ensureTimestampIndex E (holdersCache w)) = None /\
       lookupByNumber bn (ensureTimestampIndex E (holdersCache w)) = Some hs))).
Proof.
  unfold getBAYCHoldersAtBlock.
  destruct (obj_get bn (hc_blocks (holdersCache w))) as [cached |] eqn:Hexact.
  { intros [= <- <-]. left. exact Hexact. }
  destruct (holdersTryBody fuel E bn w) as [[r w1] |] eqn:Htry; [| discriminate].
  destruct (holdersTryBody_cases r w1 Htry)
    as [(msg & -> & Hblocks) | [(bts & hs' & -> & Hblock & Hw1 & Hlookup) | (hs' & -> & Hget)]].
  - unfold holdersCatch. intros H. apply (inj Some) in H. injection H as <- <-.
    left. apply saved_block_stays.
    + destruct (provider_getBlock E bn); simpl; rewrite Hblocks;
        pose proof (obj_set_length bn (getHoldersFromTokenTransfers E bn)
                      (hc_blocks (holdersCache w))); lia.
    + destruct (provider_getBlock E bn); simpl; apply obj_get_set_eq.
  - intros [= <- <-]. right. split; [reflexivity |]. exists bts. tauto.
  - intros [= <- <-]. left. exact Hget.
Qed.

End Small.
End HolderPaths.

(** X13.  What [getBAYCHoldersAtBlock] answers with.  Starting from a
    holders cache of fewer than 100 blocks, the array returned for a
    block is, after the call, the cache entry of that block -- or else it
    is the entry already cached for a different block: one whose indexed
    timestamp is less than 3600 s from the requested block's, or one
    fewer than 1000 blocks below, or one fewer than 100 blocks above. *)
Theorem holders_answer_is_cached_or_nearby
    (fuel : nat) (E : Env) (bn : Z) (w : World) (hs : list string) (w' : World) :
  (length (hc_blocks (holdersCache w)) < 100)%nat ->
  Holders.getBAYCHoldersAtBlock fuel E bn w = Some (Returns hs, w') ->
  obj_get bn (hc_blocks (holdersCache w')) = Some hs \/
  exists b,
    b <> bn /\ obj_get b (hc_blocks (holdersCache w)) = Some hs /\
    ((exists index ts bts,
        provider_getBlock E bn = BlockData bts /\
        hc_timestamps (holdersCache w') = Some index /\
        In (b, ts) index /\ Z.abs (ts - bts) < 3600) \/
     (b < bn /\ bn - b < 1000) \/
     (bn < b /\ b - bn < 100)).
Proof.
  intros Hsmall Hrun.
  destruct (getBAYCHoldersAtBlock_cases fuel E bn w Hsmall hs w' Hrun)
    as [Hcached | (Hmiss & bts & Hblock & -> & Hlookup)]; [left; exact Hcached |].
  right. destruct Hlookup as [Htime | [_ Hnumber]].
  - apply lookupByTime_near in Htime.
    destruct Htime as (index & b & ts & Hindex & Hin & Hnear & _ & Hget).
    rewrite ensureTimestampIndex_blocks in Hget.
    exists b. split; [intros ->; congruence |]. split; [exact Hget |].
    left. exists index, ts, bts. repeat split; assumption.
  - apply lookupByNumber_near in Hnumber.
    destruct Hnumber as (b & Hget & Hnear).
    rewrite ensureTimestampIndex_blocks in Hget.
    exists b. split; [intros ->; congruence |]. split; [exact Hget |].
    right. destruct Hnear as [(H1 & H2 & _) | (H1 & H2 & _)]; [left | right];
      split; assumption.
Qed.

Lemma holders_answer_is_cached_or_nearby_witness :
  obj_get 14723000 (hc_blocks (holdersCache afterDemoHolders)) = Some demoHolders \/
  exists b,
    b <> 14723000 /\ obj_get b (hc_blocks (holdersCache initialWorld)) = Some demoHolders /\
    ((exists index ts bts,
        provider_getBlock (demoEnv false false) 14723000 = BlockData bts /\
        hc_timestamps (holdersCache afterDemoHolders) = Some index /\
        In (b, ts) index /\ Z.abs (ts - bts) < 3600) \/
     (b < 14723000 /\ 14723000 - b < 1000) \/
     (14723000 < b /\ b - 14723000 < 100)).
Proof.
  apply (holders_answer_is_cached_or_nearby 1 (demoEnv false false) 14723000
           initialWorld demoHolders afterDemoHolders).
  - simpl. lia.
  - vm_compute. reflexivity.
Defined.

(** X14.  Holder-set idempotence.  Starting from a holders cache of
    fewer than 100 blocks, once [getBAYCHoldersAtBlock] has returned an
    array for a block, asking again for that block returns the same array
    and changes nothing, whatever the subgraph and Etherscan would answer
    by then, as long as the node reports the block as before. *)
Theorem holders_idempotent
    (fuel : nat) (E : Env) (bn : Z) (w : World) (hs : list string) (w' : World) :
  (length (hc_blocks (holdersCache w)) < 100)%nat ->
  Holders.getBAYCHoldersAtBlock fuel E bn w = Some (Returns hs, w') ->
  forall fuel' E',
    provider_getBlock E' bn = provider_getBlock E bn ->
    Holders.getBAYCHoldersAtBlock fuel' E' bn w' = Some (Returns hs, w').
Proof.
  intros Hsmall Hrun fuel' E' Hsame.
  destruct (getBAYCHoldersAtBlock_cases fuel E bn w Hsmall hs w' Hrun)
    as [Hcached | (Hmiss & bts & Hblock & -> & Hlookup)].
  - apply getBAYCHoldersAtBlock_hit. exact Hcached.
  - unfold Holders.getBAYCHoldersAtBlock, Holders.holdersTryBody.
    cbn [holdersCache set_holdersCache].
    rewrite ensureTimestampIndex_blocks, Hmiss, Hsame, Hblock.
    rewrite ensureTimestampIndex_idem.
    destruct Hlookup as [Htime | [Htime Hnumber]].
    + rewrite Htime. reflexivity.
    + rewrite Htime, Hnumber. reflexivity.
Qed.

Lemma holders_idempotent_witness :
  Holders.getBAYCHoldersAtBlock 0 (demoEnv true true) 14723000 afterDemoHolders
    = Some (Returns demoHolders, afterDemoHolders).
Proof.
  apply (holders_idempotent 1 (demoEnv false false) 14723000
           initialWorld demoHolders afterDemoHolders).
  - simpl. lia.
  - vm_compute. reflexivity.
  - reflexivity.
Defined.

(** ** The balance aggregator *)

Section ChunkFacts.
Import Balances.

Lemma slices_lookup {A : Type} (size : nat) :
  (0 < size)%nat ->
  forall fuel (l : list A) i,
    (length l <= fuel)%nat ->
    slices fuel size l !! i =
    if (i * size <? length l)%nat then Some (take size (drop (i * size) l)) else None.
Proof.
  intros Hsize. induction fuel as [| fuel IH]; intros l i Hfuel.
  - destruct l; [| simpl in Hfuel; lia]. simpl.
    destruct (Nat.ltb_spec (i * size) 0); [lia | reflexivity].
  - destruct l as [| x l].
    + simpl. destruct (Nat.ltb_spec (i * size) 0); [lia | reflexivity].
    + change (slices (S fuel) size (x :: l))
        with (take size (x :: l) :: slices fuel size (drop size (x :: l))).
      destruct i as [| i].
      * simpl. reflexivity.
      * change ((take size (x :: l) :: slices fuel size (drop size (x :: l))) !! S i)
          with (slices fuel size (drop size (x :: l)) !! i).
        rewrite IH by (rewrite length_drop; simpl in *; lia).
        rewrite length_drop, drop_drop.
        replace (size + i * size)%nat with (S i * size)%nat by lia.
        destruct (Nat.ltb_spec (i * size) (length (x :: l) - size));
          destruct (Nat.ltb_spec (S i * size) (length (x :: l))); try reflexivity; lia.
Qed.

Lemma chunked_lookup {A : Type} (size : nat) (l : list A) (i : nat) :
  (0 < size)%nat ->
  chunked size l !! i =
  if (i * size <? length l)%nat then Some (take size (drop (i * size) l)) else None.
Proof. intros Hsize. apply slices_lookup; [exact Hsize | lia]. Qed.

End ChunkFacts.

(** X15.  Chunking.  Splitting an array into chunks of [size] (the 5000
    addresses of an aggregate call, the 3 chunks of a concurrent batch,
    the 4 batches of a round of individual queries) loses and reorders
    nothing: chunk [i] is the slice [i*size .. i*size + size - 1]
    of the array, every chunk has between 1 and [size] elements, there
    are exactly as many chunks as it takes to cover the array, and the
    chunks concatenated give the array back. *)
Theorem chunked_is_a_partition {A : Type} (size : nat) (l : list A) :
  (0 < size)%nat ->
  concat (Balances.chunked size l) = l /\
  (forall i chunk,
     Balances.chunked size l !! i = Some chunk ->
     chunk = take size (drop (i * size) l) /\
     (0 < length chunk <= size)%nat) /\
  (forall i, (i < length (Balances.chunked size l))%nat <-> (i * size < length l)%nat).
Proof.
  intros Hsize. split; [apply chunked_concat; exact Hsize |]. split.
  - intros i chunk Hchunk. rewrite chunked_lookup in Hchunk by exact Hsize.
    destruct (Nat.ltb_spec (i * size) (length l)) as [Hlt | _]; [| discriminate].
    injection Hchunk as <-. split; [reflexivity |].
    rewrite length_take, length_drop. lia.
  - intros i. rewrite <- lookup_lt_is_Some, chunked_lookup by exact Hsize.
    destruct (Nat.ltb_spec (i * size) (length l)) as [Hlt | Hge].
    + split; [intros _; exact Hlt | intros _; eexists; reflexivity].
    + split; [intros [c Hc]; discriminate | lia].
Qed.

Lemma chunked_is_a_partition_witness :
  concat (Balances.chunked Balances.chunkSize demoHolders) = demoHolders /\
  (forall i chunk,
     Balances.chunked Balances.chunkSize demoHolders !! i = Some chunk ->
     chunk = take Balances.chunkSize (drop (i * Balances.chunkSize) demoHolders) /\
     (0 < length chunk <= Balances.chunkSize)%nat) /\
  (forall i, (i < length (Balances.chunked Balances.chunkSize demoHolders))%nat <->
             (i * Balances.chunkSize < length demoHolders)%nat).
Proof.
  apply (chunked_is_a_partition Balances.chunkSize demoHolders).
  unfold Balances.chunkSize. lia.
Defined.

(** X16.  The retry policy of the aggregate call.  A chunk's call is
    attempted at most four times.  It yields the answer of the first
    attempt that succeeds, provided all earlier attempts were rejected;
    it is given up exactly when all four attempts are rejected, and the
    error passed on is that of the fourth. *)
Theorem aggregate3_retry_policy (E : Env) (calls : list string) (bn : Z) :
  (forall results,
     Balances.aggregate3WithRetry E calls bn 3 0 = Returns results <->
     exists k, (k <= 3)%nat /\
       multicall_aggregate3 E calls bn k = Returns results /\
       forall j, (j < k)%nat -> exists e, multicall_aggregate3 E calls bn j = Throws e) /\
  (forall error,
     Balances.aggregate3WithRetry E calls bn 3 0 = Throws error <->
     multicall_aggregate3 E calls bn 3 = Throws error /\
     forall j, (j < 3)%nat -> exists e, multicall_aggregate3 E calls bn j = Throws e).
Proof.
  simpl.
  destruct (multicall_aggregate3 E calls bn 0) as [r0 | e0] eqn:H0.
  { split.
    - intros results. split.
      + intros [= <-]. exists 0%nat. split; [lia |]. split; [exact H0 | intros j Hj; lia].
      + intros (k & Hk & Hret & Hprev). destruct k as [| k]; [congruence |].
        destruct (Hprev 0%nat ltac:(lia)) as [e He]. congruence.
    - intros error. split; [discriminate |].
      intros [_ Hprev]. destruct (Hprev 0%nat ltac:(lia)) as [e He]. congruence. }
  destruct (multicall_aggregate3 E calls bn 1) as [r1 | e1] eqn:H1.
  { split.
    - intros results. split.
      + intros [= <-]. exists 1%nat. split; [lia |]. split; [exact H1 |].
        intros j Hj. assert (j = 0%nat) as -> by lia. eexists. exact H0.
      + intros (k & Hk & Hret & Hprev). destruct k as [| [| k]]; [congruence | congruence |].
        destruct (Hprev 1%nat ltac:(lia)) as [e He]. congruence.
    - intros error. split; [discriminate |].
      intros [_ Hprev]. destruct (Hprev 1%nat ltac:(lia)) as [e He]. congruence. }
  destruct (multicall_aggregate3 E calls bn 2) as [r2 | e2] eqn:H2.
  { split.
    - intros results. split.
      + intros [= <-]. exists 2%nat. split; [lia |]. split; [exact H2 |].
        intros j Hj. destruct j as [| [| j]]; [eexists; exact H0 | eexists; exact H1 | lia].
      + intros (k & Hk & Hret & Hprev).
        destruct k as [| [| [| k]]]; [congruence | congruence | congruence |].
        destruct (Hprev 2%nat ltac:(lia)) as [e He]. congruence.
    - intros error. split; [discriminate |].
      intros [_ Hprev]. destruct (Hprev 2%nat ltac:(lia)) as [e He]. congruence. }
  destruct (multicall_aggregate3 E calls bn 3) as [r3 | e3] eqn:H3.
  - split.
    + intros results. split.
      * intros [= <-]. exists 3%nat. split; [lia |]. split; [exact H3 |].
        intros j Hj.
        destruct j as [| [| [| j]]];
          [eexists; exact H0 | eexists; exact H1 | eexists; exact H2 | lia].
      * intros (k & Hk & Hret & Hprev).
        destruct k as [| [| [| [| k]]]]; try congruence. lia.
    + intros error. split; [discriminate | intros [Hlast _]; discriminate].
  - split.
    + intros results. split; [discriminate |].
      intros (k & Hk & Hret & Hprev).
      destruct k as [| [| [| [| k]]]]; try congruence. lia.
    + intros error. split.
      * intros [= <-]. split; [reflexivity |]. intros j Hj.
        destruct j as [| [| [| j]]];
          [eexists; exact H0 | eexists; exact H1 | eexists; exact H2 | lia].
      * intros [[= <-] _]. reflexivity.
Qed.

(** X17.  The individual-query tier.  [getFallbackBalances] returns one
    balance per address, in the order of the addresses, whatever the
    number of addresses: the balance [provider.getBalance] resolved to,
    or 0 for an address whose query was rejected.  It never raises. *)
Theorem fallback_balances_in_order (E : Env) (addresses : list string) (bn : Z) :
  length (Balances.getFallbackBalances E addresses bn) = length addresses /\
  forall i address,
    addresses !! i = Some address ->
    Balances.getFallbackBalances E addresses bn !! i =
    Some (match provider_getBalance E address bn with
          | Returns balance => balance
          | Throws _ => 0
          end).
Proof.
  rewrite getFallbackBalances_map. split; [apply length_map |].
  intros i address Hi. rewrite lookup_map, Hi. reflexivity.
Qed.

(** ** The result store and the pipeline *)

Section PipelineFacts.

Lemma numberToString_inj (a b : Z) :
  Store.numberToString a = Store.numberToString b -> a = b.
Proof.
  intros Heq.
  pose proof (BigNumber_round_trip a) as Ha. pose proof (BigNumber_round_trip b) as Hb.
  unfold BigNumber.toString in Ha, Hb. unfold Store.numberToString in Heq.
  rewrite Heq in Ha. congruence.
Qed.

Lemma cachedResultFor_bind (timestamp : Z) (w : World) :
  Store.cachedResultFor timestamp w
  = Store.getPreviousResults w !! "optimizedSolution"%string
    ≫= (fun forImplementation => forImplementation !! Store.numberToString timestamp).
Proof.
  unfold Store.cachedResultFor.
  destruct (Store.getPreviousResults w !! "optimizedSolution"%string); reflexivity.
Qed.

Lemma cachedResultFor_file (timestamp : Z) (w1 w2 : World) :
  resultsFile w1 = resultsFile w2 ->
  Store.cachedResultFor timestamp w1 = Store.cachedResultFor timestamp w2.
Proof.
  intros Hfile. unfold Store.cachedResultFor, Store.getPreviousResults.
  rewrite Hfile. reflexivity.
Qed.

Lemma saveResultsToFile_keeps (E : Env) (C : Clock) (timestamp timestamp0 : Z)
    (result : DetailedHolderResult) (w : World) :
  timestamp0 <> timestamp ->
  Store.cachedResultFor timestamp0
    (Store.saveResultsToFile E C "optimizedSolution"
       (Store.numberToString timestamp) result w)
  = Store.cachedResultFor timestamp0 w.
Proof.
  intros Hne. rewrite !cachedResultFor_bind.
  apply saveResultsToFile_other.
  intros [= Heq]. apply Hne. apply numberToString_inj. exact Heq.
Qed.

Lemma getTotalEthValueOfHolders_keeps (fuel : nat) (E : Env) (C : Clock)
    (timestamp : Z) (w : World) (result : DetailedHolderResult) (w' : World)
    (timestamp0 : Z) (stored : ResultData) :
  Store.cachedResultFor timestamp0 w = Some stored ->
  Orchestrator.getTotalEthValueOfHolders fuel E C timestamp w = Some (result, w') ->
  Store.cachedResultFor timestamp0 w' = Some stored.
Proof.
  intros Hstored. unfold Orchestrator.getTotalEthValueOfHolders.
  destruct (Store.cachedResultFor timestamp w) as [cached |] eqn:Hcached.
  - destruct (BigNumber.from _); intros [= _ <-]; exact Hstored.
  - intros Hrun.
    destruct (computeFresh_cases _ _ _ _ _ _ _ Hrun)
      as [(bn & w1 & holders & w2 & balances & w3 & metrics
           & _ & _ & _ & _ & _ & -> & Hfile)
         | (message & metrics & _ & _ & Hfile)].
    + rewrite saveResultsToFile_keeps by (intros ->; congruence).
      rewrite (cachedResultFor_file timestamp0 w3 w Hfile). exact Hstored.
    + rewrite (cachedResultFor_file timestamp0 w' w Hfile). exact Hstored.
Qed.

Lemma demoRun_runs : demoRun = Some (demoRunResult, afterDemoRun).
Proof.
  unfold demoRunResult, afterDemoRun.
  destruct demoRun as [[result w] |] eqn:Hrun; [reflexivity |].
  vm_compute in Hrun. discriminate Hrun.
Qed.

End PipelineFacts.

(** X18.  A stand-in answer is cached like a real one.  When the indexed
    path raises for a block that is not cached (fewer than 100 blocks
    are), [getBAYCHoldersAtBlock] returns what the transfer replay
    returns and stores it as the block's holder set: every later call
    for the block returns it again, whatever the upstreams answer by
    then.  That array is empty when Etherscan answers page 1 with a
    status other than 1, and is the five demo addresses when the request
    for page 1 is rejected. *)
Theorem degraded_answer_is_cached
    (fuel : nat) (E : Env) (bn : Z) (w : World) (msg : string) (w1 : World) :
  obj_get bn (hc_blocks (holdersCache w)) = None ->
  (length (hc_blocks (holdersCache w)) < 100)%nat ->
  Holders.holdersTryBody fuel E bn w = Some (Throws msg, w1) ->
  exists w',
    Holders.getBAYCHoldersAtBlock fuel E bn w
      = Some (Returns (Holders.getHoldersFromTokenTransfers E bn), w') /\
    (forall fuel' E',
       Holders.getBAYCHoldersAtBlock fuel' E' bn w'
         = Some (Returns (Holders.getHoldersFromTokenTransfers E bn), w')) /\
    ((exists message, etherscan_tokennfttx E 1 = TransfersStatus0 message) ->
     Holders.getHoldersFromTokenTransfers E bn = []) /\
    ((exists error, etherscan_tokennfttx E 1 = TransfersThrows error) ->
     Holders.getHoldersFromTokenTransfers E bn = Holders.FALLBACK_sampleHolders).
Proof.
  intros Hmiss Hsmall Hbody.
  destruct (Holders.getBAYCHoldersAtBlock fuel E bn w) as [[r w'] |] eqn:Hrun.
  2: { unfold Holders.getBAYCHoldersAtBlock in Hrun.
       rewrite Hmiss, Hbody in Hrun. discriminate Hrun. }
  assert (r = Returns (Holders.getHoldersFromTokenTransfers E bn)) as ->.
  { unfold Holders.getBAYCHoldersAtBlock in Hrun. rewrite Hmiss, Hbody in Hrun.
    unfold Holders.holdersCatch in Hrun. apply (inj Some) in Hrun.
    injection Hrun as <- _. reflexivity. }
  exists w'. split; [reflexivity |]. split; [| split].
  - intros fuel' E'. apply getBAYCHoldersAtBlock_hit.
    destruct (getBAYCHoldersAtBlock_cases fuel E bn w Hsmall _ w' Hrun)
      as [Hcached | (_ & bts & Hblock & _ & Hlookup)]; [exact Hcached |].
    exfalso. unfold Holders.holdersTryBody in Hbody. rewrite Hblock in Hbody.
    cbn [holdersCache set_holdersCache] in Hbody.
    destruct Hlookup as [Htime | [Htime Hnumber]].
    + rewrite Htime in Hbody. discriminate Hbody.
    + rewrite Htime, Hnumber in Hbody. discriminate Hbody.
  - intros [message Hstatus]. unfold Holders.getHoldersFromTokenTransfers. simpl.
    rewrite Hstatus. reflexivity.
  - intros [error Hrejected]. unfold Holders.getHoldersFromTokenTransfers. simpl.
    rewrite Hrejected. reflexivity.
Qed.

Lemma degraded_answer_is_cached_witness :
  exists w',
    Holders.getBAYCHoldersAtBlock 1 rateLimited 5 initialWorld = Some (Returns [], w') /\
    forall fuel' E',
      Holders.getBAYCHoldersAtBlock fuel' E' 5 w' = Some (Returns [], w').
Proof.
  destruct (degraded_answer_is_cached 1 rateLimited 5 initialWorld "network" initialWorld)
    as (w' & Hrun & Hagain & Hempty & _).
  - reflexivity.
  - simpl. lia.
  - reflexivity.
  - rewrite Hempty in Hrun, Hagain by (exists "NOTOK"%string; reflexivity).
    exists w'. split; [exact Hrun | exact Hagain].
Defined.

(** X19.  The result store is write-once.  An entry stored for a
    timestamp is never changed or removed by a later request, of
    [getTotalEthValueOfHolders] or of the POST handler, for that or any
    other timestamp, whatever the request computes. *)
Theorem stored_entries_are_never_overwritten
    (w : World) (timestamp0 : Z) (stored : ResultData) :
  Store.cachedResultFor timestamp0 w = Some stored ->
  (forall fuel E C timestamp result w',
     Orchestrator.getTotalEthValueOfHolders fuel E C timestamp w = Some (result, w') ->
     Store.cachedResultFor timestamp0 w' = Some stored) /\
  (forall fuel E C httpMethod timestamp useCache sent w',
     Orchestrator.handler fuel E C httpMethod timestamp useCache w = Some (sent, w') ->
     Store.cachedResultFor timestamp0 w' = Some stored).
Proof.
  intros Hstored. split.
  - intros fuel E C timestamp result w' Hrun.
    exact (getTotalEthValueOfHolders_keeps _ _ _ _ _ _ _ _ _ Hstored Hrun).
  - intros fuel E C httpMethod timestamp useCache sent w'.
    unfold Orchestrator.handler.
    destruct (negb (String.eqb httpMethod "POST")); [intros [= _ <-]; exact Hstored |].
    destruct timestamp as [timestamp |]; [| intros [= _ <-]; exact Hstored].
    destruct (timestamp =? 0); [intros [= _ <-]; exact Hstored |].
    destruct (match useCache with
              | Some false => None
              | _ => Store.cachedResultFor timestamp w
              end); [intros [= _ <-]; exact Hstored |].
    destruct (Orchestrator.getTotalEthValueOfHolders fuel E C timestamp w)
      as [[result w1] |] eqn:Hrun; [| discriminate].
    intros [= _ <-].
    exact (getTotalEthValueOfHolders_keeps _ _ _ _ _ _ _ _ _ Hstored Hrun).
Qed.

Lemma afterDemoRun_stored :
  Store.cachedResultFor 1651363200 afterDemoRun
  = Some (Store.resultToSave demoClock "optimizedSolution" demoRunResult).
Proof. vm_compute. reflexivity. Qed.

Lemma stored_entries_are_never_overwritten_witness :
  (forall fuel E C timestamp result w',
     Orchestrator.getTotalEthValueOfHolders fuel E C timestamp afterDemoRun
       = Some (result, w') ->
     Store.cachedResultFor 1651363200 w'
       = Some (Store.resultToSave demoClock "optimizedSolution" demoRunResult)) /\
  (forall fuel E C httpMethod timestamp useCache sent w',
     Orchestrator.handler fuel E C httpMethod timestamp useCache afterDemoRun
       = Some (sent, w') ->
     Store.cachedResultFor 1651363200 w'
       = Some (Store.resultToSave demoClock "optimizedSolution" demoRunResult)).
Proof.
  apply (stored_entries_are_never_overwritten afterDemoRun 1651363200).
  exact afterDemoRun_stored.
Defined.

(** X20.  An unreadable results.json is never repaired.  When the file
    cannot be parsed, a request is computed afresh, its result is returned
    without [fromCache], nothing is written, the file stays unreadable,
    the next request finds no entry either, and the saved-results
    endpoint answers with the read error. *)
Theorem corrupt_store_is_never_repaired
    (fuel : nat) (E : Env) (C : Clock) (timestamp : Z) (w : World)
    (result : DetailedHolderResult) (w' : World) :
  resultsFile w = FileCorrupt ->
  Orchestrator.getTotalEthValueOfHolders fuel E C timestamp w = Some (result, w') ->
  resultsFile w' = FileCorrupt /\
  r_fromCache result = None /\
  (forall timestamp', Store.cachedResultFor timestamp' w' = None) /\
  SavedResults.handler "GET" w' = SavedResults.ReadError.
Proof.
  intros Hcorrupt Hrun.
  assert (forall w0, resultsFile w0 = FileCorrupt ->
                     forall t, Store.cachedResultFor t w0 = None) as Hnone.
  { intros w0 Hw0 t. unfold Store.cachedResultFor, Store.getPreviousResults.
    rewrite Hw0. reflexivity. }
  unfold Orchestrator.getTotalEthValueOfHolders in Hrun.
  rewrite (Hnone w Hcorrupt) in Hrun.
  assert (resultsFile w' = FileCorrupt /\ r_fromCache result = None) as [Hfile Hfresh].
  { destruct (computeFresh_cases _ _ _ _ _ _ _ Hrun)
      as [(bn & w1 & holders & w2 & balances & w3 & metrics
           & _ & _ & _ & _ & -> & -> & Hfile)
         | (message & metrics & _ & -> & Hfile)].
    - split; [| reflexivity].
      unfold Store.saveResultsToFile. rewrite Hfile, Hcorrupt. congruence.
    - split; [congruence | reflexivity]. }
  split; [exact Hfile |]. split; [exact Hfresh |].
  split; [exact (Hnone w' Hfile) |].
  unfold SavedResults.handler. simpl. rewrite Hfile. reflexivity.
Qed.

Lemma corrupt_store_is_never_repaired_witness :
  resultsFile (set_resultsFile FileCorrupt initialWorld) = FileCorrupt /\
  r_fromCache (Orchestrator.errorResult demoClock "Block resolution failed: network"
                 Orchestrator.initialMetrics) = None /\
  (forall timestamp',
     Store.cachedResultFor timestamp' (set_resultsFile FileCorrupt initialWorld) = None) /\
  SavedResults.handler "GET" (set_resultsFile FileCorrupt initialWorld)
    = SavedResults.ReadError.
Proof.
  apply (corrupt_store_is_never_repaired 1 allDown demoClock 15
           (set_resultsFile FileCorrupt initialWorld)).
  - reflexivity.
  - vm_compute. reflexivity.
Defined.

Section ServedFacts.

Lemma served_after_save (fuel : nat) (E : Env) (C C' : Clock) (timestamp : Z)
    (result : DetailedHolderResult) (w : World) :
  Store.cachedResultFor timestamp w
    = Some (Store.resultToSave C "optimizedSolution" result) ->
  Orchestrator.getTotalEthValueOfHolders fuel E C' timestamp w
  = Some (Orchestrator.servedResult (Store.resultToSave C "optimizedSolution" result)
            (r_totalWei result), w).
Proof.
  intros Hstored. unfold Orchestrator.getTotalEthValueOfHolders.
  rewrite Hstored, saved_total_reads_back. reflexivity.
Qed.

Lemma served_fields (C : Clock) (bn : Z) (holders : list string) (total : Z)
    (metrics : Metrics) :
  let result := Orchestrator.successResult bn holders total metrics in
  let served :=
    Orchestrator.servedResult (Store.resultToSave C "optimizedSolution" result) total in
  r_blockNumber served = bn /\
  r_holderCount served = Z.of_nat (length holders) /\
  r_totalWei served = total /\
  r_totalEth served = BigNumber.formatEther total /\
  r_fromCache served = Some true.
Proof.
  cbv zeta. split; [| split; [reflexivity | split; [reflexivity | split]]].
  - unfold Orchestrator.servedResult, Orchestrator.cachedBlockNumber. simpl.
    destruct (Z.eqb_spec bn 0) as [-> | _]; reflexivity.
  - simpl. rewrite !orString_nonempty; [reflexivity | apply formatEther_nonempty |].
    rewrite orString_nonempty; apply formatEther_nonempty.
  - reflexivity.
Qed.

End ServedFacts.

(** X21.  Pipeline idempotence.  When results.json is absent or
    parseable and can be written, a request that ends without error fixes
    the answer for its timestamp: every later request for the timestamp,
    whatever the upstreams answer and the clock shows by then, returns the
    same block, holder count, total in wei and total in ether, marked
    [fromCache], and changes nothing. *)
Theorem pipeline_idempotent
    (fuel : nat) (E : Env) (C : Clock) (timestamp : Z) (w : World)
    (result : DetailedHolderResult) (w' : World) :
  resultsFile w <> FileCorrupt ->
  fs_write_results E = true ->
  Orchestrator.getTotalEthValueOfHolders fuel E C timestamp w = Some (result, w') ->
  r_error result = None ->
  forall fuel' E' C',
    exists again,
      Orchestrator.getTotalEthValueOfHolders fuel' E' C' timestamp w'
        = Some (again, w') /\
      r_blockNumber again = r_blockNumber result /\
      r_holderCount again = r_holderCount result /\
      r_totalWei again = r_totalWei result /\
      r_totalEth again = r_totalEth result /\
      r_fromCache again = Some true.
Proof.
  intros Hfile Hwrite Hrun Hok fuel' E' C'.
  unfold Orchestrator.getTotalEthValueOfHolders in Hrun.
  destruct (Store.cachedResultFor timestamp w) as [cached |] eqn:Hcached.
  - destruct (BigNumber.from (Store.orString (default "" (rd_totalWei cached)) "0"))
      as [total |] eqn:Htotal.
    + injection Hrun as <- <-.
      exists (Orchestrator.servedResult cached total). split.
      * unfold Orchestrator.getTotalEthValueOfHolders. rewrite Hcached, Htotal.
        reflexivity.
      * repeat split; reflexivity.
    + injection Hrun as <- <-. discriminate Hok.
  - destruct (computeFresh_cases _ _ _ _ _ _ _ Hrun)
      as [(bn & w1 & holders & w2 & balances & w3 & metrics
           & _ & _ & _ & _ & -> & -> & Hsame)
         | (message & metrics & _ & -> & _)]; [| discriminate Hok].
    eexists. split.
    + apply served_after_save. apply saveResultsToFile_cached; [congruence | exact Hwrite].
    + apply served_fields.
Qed.

Lemma pipeline_idempotent_witness :
  exists again,
    Orchestrator.getTotalEthValueOfHolders 0 allDown demoClock 1651363200 afterDemoRun
      = Some (again, afterDemoRun) /\
    r_blockNumber again = r_blockNumber demoRunResult /\
    r_holderCount again = r_holderCount demoRunResult /\
    r_totalWei again = r_totalWei demoRunResult /\
    r_totalEth again = r_totalEth demoRunResult /\
    r_fromCache again = Some true.
Proof.
  apply (pipeline_idempotent 1 (demoEnv false false) demoClock 1651363200 initialWorld
           demoRunResult afterDemoRun).
  - discriminate.
  - reflexivity.
  - exact demoRun_runs.
  - vm_compute. reflexivity.
Defined.

(** X22.  [useCache: false] does not force a recomputation.  When the
    store has an entry for the timestamp whose total is the decimal
    numeral of an integer (what [saveResultsToFile] writes; an entry
    without a total counts as "0"), a POST request with [useCache: false]
    skips the handler's own lookup, but [getTotalEthValueOfHolders]
    serves the stored entry all the same: no upstream is consulted,
    nothing is written, and the payload is the stored result with that
    total, marked [fromCache]. *)
Theorem forced_refresh_is_served_from_store
    (fuel : nat) (E : Env) (C : Clock) (timestamp : Z) (w : World) (stored : ResultData)
    (totalWei : Z) :
  timestamp <> 0 ->
  Store.cachedResultFor timestamp w = Some stored ->
  Store.orString (default "" (rd_totalWei stored)) "0" = BigNumber.toString totalWei ->
  Orchestrator.handler fuel E C "POST" (Some timestamp) (Some false) w
  = Some (Orchestrator.ResultPayload (Orchestrator.servedResult stored totalWei), w) /\
  r_totalWei (Orchestrator.servedResult stored totalWei) = totalWei /\
  r_fromCache (Orchestrator.servedResult stored totalWei) = Some true.
Proof.
  intros Hts Hstored Hdecimal. split; [| split; reflexivity].
  unfold Orchestrator.handler. simpl.
  destruct (Z.eqb_spec timestamp 0) as [-> | _]; [contradiction |].
  unfold Orchestrator.getTotalEthValueOfHolders.
  rewrite Hstored, Hdecimal, BigNumber_round_trip. reflexivity.
Qed.

Lemma forced_refresh_is_served_from_store_witness :
  Orchestrator.handler 0 allDown demoClock "POST" (Some 1651363200) (Some false)
    afterDemoRun
  = Some (Orchestrator.ResultPayload
            (Orchestrator.servedResult
               (Store.resultToSave demoClock "optimizedSolution" demoRunResult)
               15000000000000000000), afterDemoRun) /\
  r_totalWei
    (Orchestrator.servedResult
       (Store.resultToSave demoClock "optimizedSolution" demoRunResult)
       15000000000000000000) = 15000000000000000000 /\
  r_fromCache
    (Orchestrator.servedResult
       (Store.resultToSave demoClock "optimizedSolution" demoRunResult)
       15000000000000000000) = Some true.
Proof.
  apply (forced_refresh_is_served_from_store 0 allDown demoClock 1651363200 afterDemoRun).
  - lia.
  - exact afterDemoRun_stored.
  - vm_compute. reflexivity.
Defined.

(** X23.  The saved-results endpoint shows what the pipeline stored.
    After a request that computed a result without error, with
    results.json absent or parseable and writable, a GET on the
    saved-results endpoint answers 200 with an object that has the result
    under "optimizedSolution" and the decimal timestamp; any other method
    is answered 405. *)
Theorem saved_results_endpoint_lists_fresh_results
    (fuel : nat) (E : Env) (C : Clock) (timestamp : Z) (w : World)
    (result : DetailedHolderResult) (w' : World) :
  resultsFile w <> FileCorrupt ->
  fs_write_results E = true ->
  Store.cachedResultFor timestamp w = None ->
  Orchestrator.getTotalEthValueOfHolders fuel E C timestamp w = Some (result, w') ->
  r_error result = None ->
  (exists results forImplementation,
     SavedResults.handler "GET" w' = SavedResults.Saved results /\
     results !! "optimizedSolution"%string = Some forImplementation /\
     forImplementation !! Store.numberToString timestamp
       = Some (Store.resultToSave C "optimizedSolution" result)) /\
  (forall httpMethod,
     httpMethod <> "GET"%string ->
     SavedResults.handler httpMethod w' = SavedResults.MethodNotAllowed).
Proof.
  intros Hfile Hwrite Hmiss Hrun Hok. split.
  2: { intros httpMethod Hother. unfold SavedResults.handler.
       destruct (String.eqb_spec httpMethod "GET"); [contradiction | reflexivity]. }
  unfold Orchestrator.getTotalEthValueOfHolders in Hrun. rewrite Hmiss in Hrun.
  destruct (computeFresh_cases _ _ _ _ _ _ _ Hrun)
    as [(bn & w1 & holders & w2 & balances & w3 & metrics
         & _ & _ & _ & _ & Hresult & -> & Hsame)
       | (message & metrics & _ & -> & _)]; [| discriminate Hok].
  unfold SavedResults.handler, Store.saveResultsToFile. simpl.
  rewrite Hwrite.
  destruct (resultsFile w3) as [| | results] eqn:Hfile3; [| congruence |]; simpl;
    eexists; eexists; (split; [reflexivity |]);
    rewrite lookup_insert_eq; (split; [reflexivity |]);
    rewrite lookup_insert_eq; reflexivity.
Qed.

Lemma saved_results_endpoint_lists_fresh_results_witness :
  (exists results forImplementation,
     SavedResults.handler "GET" afterDemoRun = SavedResults.Saved results /\
     results !! "optimizedSolution"%string = Some forImplementation /\
     forImplementation !! Store.numberToString 1651363200
       = Some (Store.resultToSave demoClock "optimizedSolution" demoRunResult)) /\
  SavedResults.handler "POST" afterDemoRun = SavedResults.MethodNotAllowed.
Proof.
  destruct (saved_results_endpoint_lists_fresh_results 1 (demoEnv false false) demoClock
              1651363200 initialWorld demoRunResult afterDemoRun)
    as [Hsaved Hother].
  - discriminate.
  - reflexivity.
  - reflexivity.
  - exact demoRun_runs.
  - vm_compute. reflexivity.
  - split; [exact Hsaved |]. apply Hother. discriminate.
Defined.

(** ** The earlier variant of the ownership set builder *)

Section EarlierFacts.

Lemma take_own_length {A : Type} (n : nat) (l : list A) :
  take (length (take n l)) l = take n l.
Proof.
  rewrite length_take.
  destruct (Nat.le_gt_cases n (length l)) as [Hle | Hgt].
  - rewrite Nat.min_l by exact Hle. reflexivity.
  - rewrite Nat.min_r by lia. rewrite !take_ge by lia. reflexivity.
Qed.

Section Paging.
Variables (E : Env) (bn : Z) (all : list Token).
Hypothesis served : servesPages E bn Earlier.PAGE_SIZE all.

Lemma earlier_paging_complete (fuel : nat) :
  forall k,
    (k <= length all)%nat -> (length all - k < fuel)%nat ->
    Earlier.paging fuel E bn (cursorAt all k) (Holders.addOwners (take k all) [])
      = Some (Returns (Holders.addOwners all [])).
Proof.
  induction fuel as [| fuel IH]; intros k Hk Hfuel; [lia |].
  simpl. rewrite (served k Hk).
  remember (take (Z.to_nat Earlier.PAGE_SIZE) (drop k all)) as page eqn:Hp.
  assert (page = take (length page) (drop k all)) as Hpage
    by (subst page; symmetry; apply take_own_length).
  assert (length page = Nat.min (Z.to_nat Earlier.PAGE_SIZE) (length all - k)) as Hlen
    by (subst page; rewrite length_take, length_drop; reflexivity).
  remember (length page) as m eqn:Hm.
  destruct (last page) as [lastToken |] eqn:Hlast.
  - assert (0 < m)%nat as Hpos
      by (destruct page; [discriminate Hlast | simpl in Hm; lia]).
    rewrite <- addOwners_app.
    rewrite Hpage in Hlast |- *. rewrite take_take_drop.
    rewrite <- (last_take_drop all k m lastToken Hlast)
      by (rewrite length_take, length_drop; lia).
    apply IH; lia.
  - apply last_None in Hlast. rewrite Hlast in Hm. simpl in Hm.
    unfold Earlier.PAGE_SIZE in Hlen.
    rewrite (take_ge all k) by lia. reflexivity.
Qed.

End Paging.
End EarlierFacts.

(** X24.  Paging in the earlier variant.  On a cold holders cache, when
    the subgraph serves the token listing of the block page by page at
    the fixed page size 1000, the earlier [getBAYCHoldersAtBlock] pages
    until it receives an empty page, returns the lower-cased owners of
    all tokens of the listing and no other address, and leaves them
    cached under the block. *)
Theorem earlier_paging_collects_every_owner
    (fuel : nat) (E : Env) (bn : Z) (w : World) (tokens : list Token) :
  hc_blocks (holdersCache w) = [] ->
  servesPages E bn Earlier.PAGE_SIZE tokens ->
  (length tokens < fuel)%nat ->
  exists holders w',
    Earlier.getBAYCHoldersAtBlock fuel E bn w = Some (Returns holders, w') /\
    holders = Holders.addOwners tokens [] /\
    (forall h, In h holders <->
               exists t, In t tokens /\ h = toLowerCase (token_owner t)) /\
    hc_blocks (holdersCache w') = [(bn, holders)].
Proof.
  intros Hcold Hserved Hfuel.
  pose proof (earlier_paging_complete E bn tokens Hserved fuel 0%nat
                ltac:(lia) ltac:(lia)) as Hpaging.
  change (cursorAt tokens 0) with ""%string in Hpaging.
  change (take 0 tokens) with (@nil Token) in Hpaging.
  change (Holders.addOwners [] []) with (@nil string) in Hpaging.
  exists (Holders.addOwners tokens []). eexists.
  split; [| split; [reflexivity | split; [intros h; apply addOwners_members |]]].
  - unfold Earlier.getBAYCHoldersAtBlock, Earlier.lookupNearby.
    rewrite Hcold. simpl. rewrite Hpaging. reflexivity.
  - unfold Earlier.saveHoldersCache.
    destruct (fs_write_holders_cache E); simpl; rewrite Hcold; simpl;
      [rewrite Z.eqb_refl |]; reflexivity.
Qed.

Lemma earlier_paging_collects_every_owner_witness :
  exists holders w',
    Earlier.getBAYCHoldersAtBlock 6 pagedSubgraph 14723000 initialWorld
      = Some (Returns holders, w') /\
    holders = Holders.addOwners demoTokens [] /\
    (forall h, In h holders <->
               exists t, In t demoTokens /\ h = toLowerCase (token_owner t)) /\
    hc_blocks (holdersCache w') = [(14723000, holders)].
Proof.
  apply (earlier_paging_collects_every_owner 6 pagedSubgraph 14723000 initialWorld
           demoTokens).
  - reflexivity.
  - apply pagedSubgraph_serves.
  - simpl. lia.
Defined.

(** X25.  Errors in the earlier variant.  The earlier
    [getBAYCHoldersAtBlock] never raises.  A GraphQL error or a rejected
    request on any page, also after pages were received, discards what
    was collected: the holder set of the transfer replay is returned
    instead. *)
Theorem earlier_graph_error_falls_back
    (fuel : nat) (E : Env) (bn : Z) (w : World) (page : list Token) (lastToken : Token) :
  (forall msg w',
     Earlier.getBAYCHoldersAtBlock fuel E bn w <> Some (Throws msg, w')) /\
  (hc_blocks (holdersCache w) = [] ->
   graph_tokens E bn "" Earlier.PAGE_SIZE = GraphTokens page ->
   last page = Some lastToken ->
   graph_tokens E bn (token_id lastToken) Earlier.PAGE_SIZE = GraphErrors ->
   exists w',
     Earlier.getBAYCHoldersAtBlock (S (S fuel)) E bn w
       = Some (Returns (Holders.getHoldersFromTokenTransfers E bn), w')).
Proof.
  split.
  - intros msg w'. unfold Earlier.getBAYCHoldersAtBlock.
    destruct (obj_get bn (hc_blocks (holdersCache w))); [discriminate |].
    destruct (Earlier.lookupNearby bn (holdersCache w)); [discriminate |].
    destruct (Earlier.paging fuel E bn "" []) as [[hs | m] |]; discriminate.
  - intros Hcold Hfirst Hlast Hsecond.
    unfold Earlier.getBAYCHoldersAtBlock, Earlier.lookupNearby.
    rewrite Hcold. simpl. rewrite Hfirst, Hlast, Hsecond. eexists. reflexivity.
Qed.

Lemma earlier_graph_error_falls_back_witness :
  exists w',
    Earlier.getBAYCHoldersAtBlock 2 truncatingSubgraph 14723000 initialWorld
      = Some (Returns (Holders.getHoldersFromTokenTransfers truncatingSubgraph 14723000),
              w').
Proof.
  destruct (earlier_graph_error_falls_back 0 truncatingSubgraph 14723000 initialWorld
              demoTokens
              {| token_id := "4";
                 token_owner := "0x1b523DC1cB8B17B0170aa9234cA1CFF3E1Ea36bF" |})
    as [_ Hfalls].
  apply Hfalls; reflexivity.
Defined.

(** ** The resolver and Etherscan's answer *)

(** X26.  How far the resolver moves from Etherscan's answer.  With no
    cached timestamp less than 30 s away, when Etherscan names block [n]
    and the node does not reject [getBlock(n)], the resolver returns and
    caches a block at most 1000 blocks from [n]: [n] itself when the node
    has no such block or its timestamp is less than 120 s from the
    target, a block in [n .. n + 1000] when block [n] is earlier than the
    target, and a block in [max(0, n - 1000) .. n] when it is later. *)
Theorem resolver_stays_near_etherscan_answer
    (E : Env) (t : Z) (w : World) (n : Z) :
  (forall e, In e (blockNumberCache w) -> 30 <= Z.abs (fst e - t)) ->
  etherscan_getblocknobytime E t = NoByTimeOk n ->
  0 <= n ->
  (forall msg, provider_getBlock E n <> BlockError msg) ->
  exists b,
    Resolver.getBlockNumberAtTimestamp E t w = (Returns b, Resolver.cacheBlock t b w) /\
    match provider_getBlock E n with
    | BlockData blockTimestamp =>
        if Z.abs (blockTimestamp - t) <? 120 then b = n
        else if blockTimestamp <? t then n <= b <= n + 1000
        else Z.max 0 (n - 1000) <= b <= n
    | _ => b = n
    end.
Proof.
  intros Hfar Hscan Hn Hserved.
  rewrite (getBlockNumberAtTimestamp_far E t w Hfar).
  unfold Resolver.viaEtherscan, Resolver.binarySearchBlock. rewrite Hscan.
  destruct (provider_getBlock E n) as [bt | | msg] eqn:Hblock.
  - destruct (Z.abs (bt - t) <? 120); [exists n; split; reflexivity |].
    destruct (bt <? t).
    + eexists. split; [reflexivity |]. unfold Resolver.searchResult.
      apply (searchLoop_sound (provider_getBlock E) t n (n + 1000) 20);
        [lia | lia | split; [lia | left; reflexivity]].
    + eexists. split; [reflexivity |]. unfold Resolver.searchResult.
      apply (searchLoop_sound (provider_getBlock E) t (Z.max 0 (n - 1000)) n 20);
        [lia | lia | split; [lia | left; reflexivity]].
  - exists n. split; reflexivity.
  - exfalso. exact (Hserved msg eq_refl).
Qed.

Lemma resolver_stays_near_etherscan_answer_witness :
  exists b,
    Resolver.getBlockNumberAtTimestamp (demoEnv false false) 1651363200 initialWorld
      = (Returns b, Resolver.cacheBlock 1651363200 b initialWorld) /\
    match provider_getBlock (demoEnv false false) 14723000 with
    | BlockData blockTimestamp =>
        if Z.abs (blockTimestamp - 1651363200) <? 120 then b = 14723000
        else if blockTimestamp <? 1651363200 then 14723000 <= b <= 14723000 + 1000
        else Z.max 0 (14723000 - 1000) <= b <= 14723000
    | _ => b = 14723000
    end.
Proof.
  apply (resolver_stays_near_etherscan_answer (demoEnv false false) 1651363200
           initialWorld 14723000).
  - intros e [].
  - reflexivity.
  - lia.
  - intros msg. discriminate.
Defined.

Lemma searchLoop_no_data (getBlock : Z -> block_reply) (t : Z) (fuel : nat) :
  (forall b ts, getBlock b <> BlockData ts) ->
  forall low high result lastMid errors,
    Resolver.searchLoop getBlock t fuel low high result lastMid errors = result.
Proof.
  intros Hdown. induction fuel as [| fuel IH]; intros low high result lastMid errors;
    [reflexivity |].
  simpl. destruct (low <=? high); [| reflexivity].
  destruct ((low + high) / 2 =? lastMid); [reflexivity |].
  destruct (getBlock ((low + high) / 2)) as [ts | | msg] eqn:Hblock.
  - exfalso. exact (Hdown _ _ Hblock).
  - destruct errors as [| [| errors]]; try reflexivity; apply IH.
  - destruct errors as [| [| errors]]; try reflexivity;
      destruct ((low + high) / 2 =? low); apply IH.
Qed.

(** X27.  A node that serves no block.  With no cached timestamp less
    than 30 s away and no usable answer from Etherscan, when the node
    reports its head block but answers no [getBlock] with a block (null
    or error every time), the resolver does not raise: it returns the
    head block as the block of the timestamp and caches it, so later
    calls for the timestamp return the head block of that moment. *)
Theorem resolver_returns_head_when_no_block_is_served
    (E : Env) (t : Z) (w : World) (head : Z) :
  (forall e, In e (blockNumberCache w) -> 30 <= Z.abs (fst e - t)) ->
  (forall n, etherscan_getblocknobytime E t <> NoByTimeOk n) ->
  provider_getBlockNumber E = Returns head ->
  (forall b ts, provider_getBlock E b <> BlockData ts) ->
  Resolver.getBlockNumberAtTimestamp E t w = (Returns head, Resolver.cacheBlock t head w) /\
  forall E',
    fst (Resolver.getBlockNumberAtTimestamp E' t (Resolver.cacheBlock t head w))
      = Returns head.
Proof.
  intros Hfar Hscan Hhead Hdown. split.
  - rewrite (getBlockNumberAtTimestamp_far E t w Hfar).
    rewrite (proj2 (viaEtherscan_None E t w))
      by (intros n Hn; exfalso; exact (Hscan n Hn)).
    rewrite Hhead. unfold Resolver.searchResult.
    rewrite (searchLoop_no_data (provider_getBlock E) t 20 Hdown). reflexivity.
  - intros E'. apply cached_block_served. apply cacheBlock_lookup.
Qed.

Lemma resolver_returns_head_when_no_block_is_served_witness :
  Resolver.getBlockNumberAtTimestamp blocklessNode 1651363200 initialWorld
    = (Returns 14800000, Resolver.cacheBlock 1651363200 14800000 initialWorld) /\
  forall E',
    fst (Resolver.getBlockNumberAtTimestamp E' 1651363200
           (Resolver.cacheBlock 1651363200 14800000 initialWorld))
      = Returns 14800000.
Proof.
  apply (resolver_returns_head_when_no_block_is_served blocklessNode 1651363200
           initialWorld 14800000).
  - intros e [].
  - intros n. discriminate.
  - reflexivity.
  - intros b ts. discriminate.
Defined.


